(** * UCS / MDS zoning bridge: a shallow embedding of the Python sources

    The development follows the three Python modules of the repository:
    - [mds_client_class.py]        (class [MdsClient], the NX-API client),
    - [intersight_client_class.py] (class [IntersightClient], the inventory),
    - [zone_bridge_client_class.py] (class [ZoneBridgeClient], the orchestrator).

    Effects are explicit.  A computation threads a [world] that holds the two
    [MdsClient] objects owned by the bridge and the chronological [trace] of
    what the process did (log records and HTTP requests).  A computation ends
    with a value, with [sys.exit(code)], or with an uncaught exception.  The
    switches and the Intersight service are the environment: they are section
    variables, so every theorem holds for all of their behaviours. *)

From Stdlib Require Import ZArith String List Bool Lia.
From stdpp Require Import base option list gmap strings.
Import ListNotations.

Set Warnings "-register-all".

Local Open Scope string_scope.
Local Open Scope Z_scope.
Local Open Scope list_scope.

(** ** Python values *)

(** JSON documents, as [json.loads] builds them and [json.dumps] prints them.
    A dict is an association list: Python dicts keep insertion order, and the
    order is what goes on the wire. *)
Inductive json : Type :=
| JNull
| JBool (b : bool)
| JNum (z : Z)
| JStr (s : string)
| JArr (items : list json)
| JObj (fields : list (string * json)).

(** The values a command-line flag can take. *)
Inductive pyval : Type :=
| PyNone
| PyBool (b : bool)
| PyInt (z : Z)
| PyStr (s : string).

Definition nonempty (s : string) : bool := negb (String.eqb s "").

(** [bool(v)] *)
Definition truthy (v : pyval) : bool :=
  match v with
  | PyNone => false
  | PyBool b => b
  | PyInt z => negb (Z.eqb z 0)
  | PyStr s => nonempty s
  end.

(** [v is False] *)
Definition is_False (v : pyval) : bool :=
  match v with
  | PyBool false => true
  | _ => false
  end.

(** [bool(s)] for a value that is a [str] or [None]. *)
Definition truthy_str (o : option string) : bool :=
  match o with
  | Some s => nonempty s
  | None => false
  end.

Definition json_of_pyval (v : pyval) : json :=
  match v with
  | PyNone => JNull
  | PyBool b => JBool b
  | PyInt z => JNum z
  | PyStr s => JStr s
  end.

(** [f"{o}"] for a value that is a [str] or [None]. *)
Definition str_of (o : option string) : string :=
  match o with
  | Some s => s
  | None => "None"
  end.

Definition json_of_opt (o : option string) : json :=
  match o with
  | Some s => JStr s
  | None => JNull
  end.

(** ** Dict operations on JSON values *)

Fixpoint dict_get (k : string) (fields : list (string * json)) : option json :=
  match fields with
  | [] => None
  | (k', v) :: rest => if String.eqb k k' then Some v else dict_get k rest
  end.

(** [d[k] = v] on a dict: an existing key keeps its place, a new one is
    appended. *)
Fixpoint dict_set (k : string) (v : json) (fields : list (string * json))
  : list (string * json) :=
  match fields with
  | [] => [(k, v)]
  | (k', v') :: rest =>
      if String.eqb k k' then (k, v) :: rest else (k', v') :: dict_set k v rest
  end.

(** [x == s] for a string literal [s]. *)
Definition is_str (s : string) (x : json) : bool :=
  match x with
  | JStr s' => String.eqb s s'
  | _ => false
  end.

Fixpoint starts_with (p s : string) : bool :=
  match p, s with
  | EmptyString, _ => true
  | String a p', String b s' => Ascii.eqb a b && starts_with p' s'
  | String _ _, EmptyString => false
  end.

(** [p in s] on two strings. *)
Fixpoint str_contains (p s : string) : bool :=
  starts_with p s ||
  match s with
  | EmptyString => false
  | String _ s' => str_contains p s'
  end.

(** ** Outcomes, events and the world *)

Inductive exn : Type :=
| KeyError (key : string)
| TypeError
| JSONDecodeError
| UnboundLocalError (name : string)
| RequestException (msg : string).

Inductive outcome (A : Type) : Type :=
| Ret (a : A)
| Exit (code : Z)
| Raise (e : exn).
Arguments Ret {A} a.
Arguments Exit {A} code.
Arguments Raise {A} e.

Inductive level : Type := DEBUG | INFO | WARNING | ERROR.

Inductive fabric : Type := FabA | FabB.

(** What [requests.post] is given. *)
Record http_request : Type := {
  rq_url : string;
  rq_data : json;
  rq_headers : json;
  rq_auth : string * string;
  rq_timeout : Z;
  rq_verify : bool
}.

(** Log records keep the format string and the arguments apart, as
    [logging] does.  Format strings are kept as they are written in the
    source, escape sequences included.  Arguments printed through
    [json.dumps] are kept as the value that is dumped, and so is the body of
    a request. *)
Inductive event : Type :=
| ELog (lvl : level) (fmt : string) (args : list json)
| EPost (f : fabric) (rq : http_request).

Record MdsClient : Type := {
  ip_address : string;
  username : string;
  password : string;
  api_headers : json;
  api_payload : json;
  api_timeout : Z;
  api_type_config : string;
  api_type_show : string;
  api_url : string;
  api_verify : bool
}.

Record world : Type := {
  mds_client_a : MdsClient;
  mds_client_b : MdsClient;
  trace : list event
}.

(** What comes back from a switch: an HTTP response, whose body may or may
    not be JSON, or no response at all ([requests] raises). *)
Record Response : Type := {
  status_code : Z;
  content : option json
}.

Inductive reply : Type :=
| Answer (r : Response)
| NoAnswer (msg : string).

(** ** The monad *)

Definition M (A : Type) : Type := world -> outcome A * world.

Definition ret {A} (a : A) : M A := fun w => (Ret a, w).

Definition bind {A B} (c : M A) (k : A -> M B) : M B :=
  fun w =>
    match c w with
    | (Ret a, w') => k a w'
    | (Exit n, w') => (Exit n, w')
    | (Raise e, w') => (Raise e, w')
    end.

Declare Scope py_scope.
Delimit Scope py_scope with py.
Notation "x <- c ;; k" := (bind c (fun x => k))
  (at level 20, c at level 99, k at level 200, only parsing) : py_scope.
Notation "c ;;; k" := (bind c (fun _ => k))
  (at level 99, k at level 200, only parsing, right associativity) : py_scope.
Local Open Scope py_scope.

(** [sys.exit(n)] *)
Definition sys_exit {A} (n : Z) : M A := fun w => (Exit n, w).

Definition raise {A} (e : exn) : M A := fun w => (Raise e, w).

Definition emit (e : event) : M unit :=
  fun w =>
    (Ret tt,
     {| mds_client_a := mds_client_a w;
        mds_client_b := mds_client_b w;
        trace := trace w ++ [e] |}).

Definition logger_debug (fmt : string) (args : list json) : M unit :=
  emit (ELog DEBUG fmt args).
Definition logger_info (fmt : string) (args : list json) : M unit :=
  emit (ELog INFO fmt args).
Definition logger_warning (fmt : string) (args : list json) : M unit :=
  emit (ELog WARNING fmt args).
Definition logger_error (fmt : string) (args : list json) : M unit :=
  emit (ELog ERROR fmt args).

Definition client_of (f : fabric) (w : world) : MdsClient :=
  match f with
  | FabA => mds_client_a w
  | FabB => mds_client_b w
  end.

(** [self] inside a method of the client of fabric [f]. *)
Definition self (f : fabric) : M MdsClient := fun w => (Ret (client_of f w), w).

Definition with_api_payload (c : MdsClient) (p : json) : MdsClient :=
  {| ip_address := ip_address c;
     username := username c;
     password := password c;
     api_headers := api_headers c;
     api_payload := p;
     api_timeout := api_timeout c;
     api_type_config := api_type_config c;
     api_type_show := api_type_show c;
     api_url := api_url c;
     api_verify := api_verify c |}.

Definition set_api_payload (f : fabric) (p : json) : M unit :=
  fun w =>
    (Ret tt,
     match f with
     | FabA => {| mds_client_a := with_api_payload (mds_client_a w) p;
                  mds_client_b := mds_client_b w;
                  trace := trace w |}
     | FabB => {| mds_client_a := mds_client_a w;
                  mds_client_b := with_api_payload (mds_client_b w) p;
                  trace := trace w |}
     end).

(** [x[k]] for a string key. *)
Definition getitem (x : json) (k : string) : M json :=
  match x with
  | JObj fields =>
      match dict_get k fields with
      | Some v => ret v
      | None => raise (KeyError k)
      end
  | _ => raise TypeError
  end.

(** [x[k] = v] for a string key; the result is the updated object. *)
Definition setitem (x : json) (k : string) (v : json) : M json :=
  match x with
  | JObj fields => ret (JObj (dict_set k v fields))
  | _ => raise TypeError
  end.

(** [k in x] for a string [k]. *)
Definition contains (k : string) (x : json) : M bool :=
  match x with
  | JObj fields =>
      ret (match dict_get k fields with Some _ => true | None => false end)
  | JArr items => ret (existsb (is_str k) items)
  | JStr s => ret (str_contains k s)
  | _ => raise TypeError
  end.

(** [response.json()] *)
Definition response_json (r : Response) : M json :=
  match content r with
  | Some j => ret j
  | None => raise JSONDecodeError
  end.

(** ** [MdsClient] (mds_client_class.py) *)

(** The payload template that [__init__] stores on the object. *)
Definition init_api_payload : json :=
  JObj [("ins_api",
         JObj [("version", JStr "1.0");
               ("type", JStr "");
               ("chunk", JStr "0");
               ("sid", JStr "1");
               ("input", JStr "");
               ("output_format", JStr "json")])].

Definition init_api_headers : json :=
  JObj [("Content-Type", JStr "application/json");
        ("Accept", JStr "application/json")].

(** The attribute assignments of [__init__]. *)
Definition new_MdsClient (mds_ip_address mds_username mds_password : string)
  : MdsClient :=
  {| ip_address := mds_ip_address;
     username := mds_username;
     password := mds_password;
     api_headers := init_api_headers;
     api_payload := init_api_payload;
     api_timeout := 10;
     api_type_config := "cli_conf";
     api_type_show := "cli_show";
     api_url := "https://" +:+ mds_ip_address +:+ ":8443/ins";
     api_verify := false |}.

(** [MdsClient.__init__]: the arguments come from [os.getenv] and may be
    [None].  The result is the log it wrote and the object or the exit. *)
Definition MdsClient_init (mds_ip_address mds_username mds_password : option string)
  : list event * outcome MdsClient :=
  let hello :=
    ELog INFO
      "Initializing `MDSClient` instance with IP address '%s' and username '%s'.\n"
      [json_of_opt mds_ip_address; json_of_opt mds_username] in
  if negb (truthy_str mds_ip_address) then
    ([hello; ELog ERROR "MDS IP address is not provided.\n" []], Exit 1)
  else if negb (truthy_str mds_username) then
    ([hello; ELog ERROR "MDS username is not provided.\n" []], Exit 1)
  else if negb (truthy_str mds_password) then
    ([hello; ELog ERROR "MDS password is not provided.\n" []], Exit 1)
  else
    ([hello],
     Ret (new_MdsClient (str_of mds_ip_address) (str_of mds_username)
            (str_of mds_password))).

(** The Intersight service answers a list query with its results or with an
    [intersight.ApiException]. *)
Inductive api_result (A : Type) : Type :=
| ApiResults (results : list A)
| ApiException (msg : string).
Arguments ApiResults {A} results.
Arguments ApiException {A} msg.

(** The fields of a [vnic.FcIf] object that the client reads. *)
Record VnicFcIf : Type := {
  vnic_wwpn : string;
  vnic_name : string;
  vnic_placement_switch_id : string
}.

Section Environment.

(** The two switches: given what the process did so far, the fabric that is
    addressed and the request, the answer. *)
Variable switch : list event -> fabric -> http_request -> reply.

(** [requests.post(...)] from the client of fabric [f]. *)
Definition requests_post (f : fabric) (rq : http_request) : M Response :=
  fun w =>
    let w' := {| mds_client_a := mds_client_a w;
                 mds_client_b := mds_client_b w;
                 trace := trace w ++ [EPost f rq] |} in
    match switch (trace w) f rq with
    | Answer r => (Ret r, w')
    | NoAnswer msg => (Raise (RequestException msg), w')
    end.

(** [payload["ins_api"][k] = v] where [payload = self.api_payload]: the
    local name is an alias of the attribute, so the assignment changes the
    dict stored on the client. *)
Definition payload_ins_api_setitem (f : fabric) (k : string) (v : json) : M unit :=
  me <- self f ;;
  ins_api <- getitem (api_payload me) "ins_api" ;;
  ins_api' <- setitem ins_api k v ;;
  payload' <- setitem (api_payload me) "ins_api" ins_api' ;;
  set_api_payload f payload'.

(** [response.json()["ins_api"]["outputs"]["output"]] *)
Definition response_output (response : Response) : M json :=
  j <- response_json response ;;
  ins_api <- getitem j "ins_api" ;;
  outputs <- getitem ins_api "outputs" ;;
  getitem outputs "output".

Definition post_request (f : fabric) (request_input request_type : string)
  : M Response :=
  payload_ins_api_setitem f "input" (JStr request_input) ;;;
  payload_ins_api_setitem f "type" (JStr request_type) ;;;
  logger_info
    "Sending POST request to MDS switch of type '%s' with input '%s'.\n"
    [JStr request_type; JStr request_input] ;;;
  me <- self f ;;
  logger_debug
    "POST Request Details:\nPayload: %s\nHeaders: %s\nURL: %s\nTimeout: %s\nVerify SSL: %s\n"
    [api_payload me; api_headers me; JStr (api_url me);
     JNum (api_timeout me); JBool (api_verify me)] ;;;
  response <- requests_post f
    {| rq_url := api_url me;
       rq_data := api_payload me;
       rq_headers := api_headers me;
       rq_auth := (username me, password me);
       rq_timeout := api_timeout me;
       rq_verify := api_verify me |} ;;
  (if Z.eqb (status_code response) 200 then
     logger_info
       "POST request of type '%s' with input '%s' to MDS `%s`was successful.\n"
       [JStr (ip_address me); JStr request_type; JStr request_input] ;;;
     j <- response_json response ;;
     logger_debug
       "Response Details from MDS `%s`:\nStatus Code: %s\nContent: %s\n"
       [JStr (ip_address me); JNum (status_code response); j]
   else
     j <- response_json response ;;
     logger_error
       "POST request failed with status code: '%s' and response content: '%s'.\n"
       [JNum (status_code response); j] ;;;
     sys_exit 1) ;;;
  output <- response_output response ;;
  has_code <- contains "code" output ;;
  (if has_code then
     output <- response_output response ;;
     code <- getitem output "code" ;;
     if negb (is_str "200" code) then
       output <- response_output response ;;
       logger_error
         "CLI command pushed to MDS `%s` generated the following error:%s\n"
         [JStr (ip_address me); output]
     else ret tt
   else ret tt) ;;;
  ret response.

Definition activate_zoneset (f : fabric) (zoneset_name vsan_id : string) : M json :=
  logger_info "Activating zoneset '%s' in VSAN '%s'.\n"
    [JStr zoneset_name; JStr vsan_id] ;;;
  let command := "zoneset activate name " +:+ zoneset_name +:+ " vsan " +:+ vsan_id in
  logger_info "Constructed command to activate zoneset: '%s'.\n" [JStr command] ;;;
  me <- self f ;;
  response <- post_request f command (api_type_config me) ;;
  response_json response.

Definition add_device_alias (f : fabric) (device_alias_name wwpn : string) : M json :=
  logger_info "Adding device alias '%s' with WWPN '%s'.\n"
    [JStr device_alias_name; JStr wwpn] ;;;
  let command :=
    "device-alias database ;device-alias name " +:+ device_alias_name
      +:+ " pwwn " +:+ wwpn +:+ " ;device-alias commit" in
  logger_info "Constructed command to add device alias: '%s'.\n" [JStr command] ;;;
  me <- self f ;;
  response <- post_request f command (api_type_config me) ;;
  response_json response.

Definition add_zone_to_zoneset (f : fabric) (zone_name zoneset_name vsan_id : string)
  : M json :=
  logger_info "Adding zone '%s' to zoneset '%s' in VSAN '%s'.\n"
    [JStr zone_name; JStr zoneset_name; JStr vsan_id] ;;;
  let command :=
    "zoneset name " +:+ zoneset_name +:+ " vsan " +:+ vsan_id
      +:+ " ;member " +:+ zone_name in
  logger_info "Constructed command to add zone to zoneset: '%s'.\n" [JStr command] ;;;
  me <- self f ;;
  response <- post_request f command (api_type_config me) ;;
  response_json response.

Definition configure_zone (f : fabric) (zone_name vsan_id : string) : M json :=
  logger_info "Configuring zone '%s' in VSAN '%s'." [JStr zone_name; JStr vsan_id] ;;;
  let command := "zone name " +:+ zone_name +:+ " vsan " +:+ vsan_id in
  logger_info "Constructed command to configure zone: '%s'.\n" [JStr command] ;;;
  me <- self f ;;
  response <- post_request f command (api_type_config me) ;;
  response_json response.

Definition configure_zone_and_add_member
  (f : fabric) (zone_name vsan_id : string) (wwpn device_alias_name : option string)
  : M json :=
  (if negb (truthy_str wwpn) && negb (truthy_str device_alias_name) then
     logger_error "Either member WWPN or device alias name must be provided.\n" [] ;;;
     sys_exit 1
   else ret tt) ;;;
  command <-
    (if truthy_str device_alias_name then
       logger_info
         "Adding member with device alias '%s' to zone '%s' in VSAN '%s'.\n"
         [json_of_opt device_alias_name; JStr zone_name; JStr vsan_id] ;;;
       let command :=
         "zone name " +:+ zone_name +:+ " vsan " +:+ vsan_id
           +:+ " ;member device-alias " +:+ str_of device_alias_name in
       logger_info "Constructed command to add member to zone: '%s'\n"
         [JStr command] ;;;
       ret command
     else if truthy_str wwpn then
       logger_info
         "Adding member with WWPN '%s' to zone '%s' in VSAN '%s'.\n"
         [json_of_opt wwpn; JStr zone_name; JStr vsan_id] ;;;
       let command :=
         "zone name " +:+ zone_name +:+ " vsan " +:+ vsan_id
           +:+ " ;member pwwn " +:+ str_of wwpn in
       logger_info "Constructed command to add member to zone: '%s'.\n"
         [JStr command] ;;;
       ret command
     else raise (UnboundLocalError "command")) ;;
  me <- self f ;;
  response <- post_request f command (api_type_config me) ;;
  response_json response.

Definition fetch_zone_info (f : fabric) (zone_name vsan_id : string) : M json :=
  logger_info "Fetching zone information for zone '%s' in VSAN '%s'.\n"
    [JStr zone_name; JStr vsan_id] ;;;
  let command := "show zone name " +:+ zone_name +:+ " vsan " +:+ vsan_id in
  logger_info "Constructed command to fetch zone information: %s.\n" [JStr command] ;;;
  me <- self f ;;
  response <- post_request f command (api_type_show me) ;;
  response_json response.

(** ** [IntersightClient] (intersight_client_class.py) *)

(** The three list queries, by filter string; organizations and profiles are
    reduced to their [moid]. *)
Variable get_organization_organization_list : string -> api_result string.
Variable get_server_profile_list : string -> api_result string.
Variable get_vnic_fc_if_list : string -> api_result VnicFcIf.

(** The dict that [fetch_vhba_from_server_profile_moid] builds for an
    adapter. *)
Definition vhba_dict (vnic_fc_if : VnicFcIf) : gmap string string :=
  {[ "vhba_wwpn" := vnic_wwpn vnic_fc_if;
     "vhba_name" := vnic_name vnic_fc_if;
     "vhba_fabric" := vnic_placement_switch_id vnic_fc_if ]}.

Definition json_of_vhba (vnic_fc_if : VnicFcIf) : json :=
  JObj [("vhba_wwpn", JStr (vnic_wwpn vnic_fc_if));
        ("vhba_name", JStr (vnic_name vnic_fc_if));
        ("vhba_fabric", JStr (vnic_placement_switch_id vnic_fc_if))].

Definition fetch_organization_moid_from_organization_name
  (organization_name : string) : M string :=
  logger_info "Fetching Organization moid filtered by Organization name '%s'\n"
    [JStr organization_name] ;;;
  let filter_str := "Name eq '" +:+ organization_name +:+ "'" in
  match get_organization_organization_list filter_str with
  | ApiException exception =>
      logger_warning
        "Exception when calling OrganizationApi->get_organization_organization_list: '%s'\n"
        [JStr exception] ;;;
      sys_exit 1
  | ApiResults (organization_moid :: _) =>
      logger_info "Moid of the Organization name '%s' is '%s'\n"
        [JStr organization_name; JStr organization_moid] ;;;
      ret organization_moid
  | ApiResults [] =>
      logger_error "Organization with name '%s' not found in Intersight\n"
        [JStr organization_name] ;;;
      sys_exit 1
  end.

Definition fetch_server_profile_moid_from_server_profile_name_and_organization_moid
  (server_profile_name organization_moid : string) : M string :=
  logger_info
    "Fetching Server Profile moid filtered by Server Profile name '%s' and Organization moid `%s`\n"
    [JStr server_profile_name; JStr organization_moid] ;;;
  let filter_str :=
    "Name eq '" +:+ server_profile_name +:+ "' and Organization.Moid eq '"
      +:+ organization_moid +:+ "'" in
  match get_server_profile_list filter_str with
  | ApiException exception =>
      logger_warning
        "Exception when calling ServerApi->get_server_profile_list: '%s'\n"
        [JStr exception] ;;;
      sys_exit 1
  | ApiResults (server_profile_moid :: _) =>
      logger_info "Moid of the Server Profile name '%s' is '%s'\n"
        [JStr server_profile_name; JStr server_profile_moid] ;;;
      ret server_profile_moid
  | ApiResults [] =>
      logger_error
        "Server Profile with name '%s' with Organization moid `%s` not found in Intersight\n"
        [JStr server_profile_name; JStr organization_moid] ;;;
      sys_exit 1
  end.

Definition fetch_vhba_from_server_profile_moid (server_profile_moid : string)
  : M (list (gmap string string)) :=
  logger_info
    "Fetching vHBAs attached to a Server Profile filtered by Server Profile moid '%s'\n"
    [JStr server_profile_moid] ;;;
  let filter_str := "Profile.Moid eq '" +:+ server_profile_moid +:+ "'" in
  match get_vnic_fc_if_list filter_str with
  | ApiException exception =>
      logger_warning "Exception when calling VnicApi->get_vnic_fc_if_list: '%s'\n"
        [JStr exception] ;;;
      sys_exit 1
  | ApiResults (first :: others) =>
      let vhba_list := map vhba_dict (first :: others) in
      logger_info "List of vHBAs attached to Server Profile with moid '%s' is '%s'\n"
        [JStr server_profile_moid; JArr (map json_of_vhba (first :: others))] ;;;
      ret vhba_list
  | ApiResults [] =>
      logger_error
        "vHBAs not found in Intersight for Server Profile with moid '%s'\n"
        [JStr server_profile_moid] ;;;
      sys_exit 1
  end.

(** ** [ZoneBridgeClient] (zone_bridge_client_class.py) *)

(** [vhba[k]] *)
Definition vhba_item (vhba : gmap string string) (k : string) : M string :=
  match vhba !! k with
  | Some v => ret v
  | None => raise (KeyError k)
  end.

(** [for x in l: body(x)] *)
Fixpoint for_each {A : Type} (body : A -> M unit) (l : list A) : M unit :=
  match l with
  | [] => ret tt
  | x :: rest => body x ;;; for_each body rest
  end.

(** The error branch that all three fabric dispatches end with. *)
Definition unknown_fabric_type (vhba : gmap string string) : M unit :=
  fab <- vhba_item vhba "fabric" ;;
  name <- vhba_item vhba "name" ;;
  logger_error "Unknown fabric type '%s' for vHBA '%s'" [JStr fab; JStr name] ;;;
  sys_exit 1.

Definition activate_zonesets
  (zoneset_name_a vsan_id_a zoneset_name_b vsan_id_b : string) : M unit :=
  a <- self FabA ;;
  logger_info "Activating zoneset '%s' of vsan `%s` in MDS '%s' (Fabric A)\n"
    [JStr zoneset_name_a; JStr vsan_id_a; JStr (ip_address a)] ;;;
  activate_zoneset FabA zoneset_name_a vsan_id_a ;;;
  b <- self FabB ;;
  logger_info "Activating zoneset '%s' of vsan `%s` in MDS '%s' (Fabric B)\n"
    [JStr zoneset_name_b; JStr vsan_id_b; JStr (ip_address b)] ;;;
  activate_zoneset FabB zoneset_name_b vsan_id_b ;;;
  ret tt.

(** The f-string [f"{server_profile_name}-{vhba['vhba_fabric']}-{vhba['vhba_name']}"]. *)
Definition device_alias_fstring (server_profile_name : string)
  (vhba : gmap string string) : M string :=
  fab <- vhba_item vhba "vhba_fabric" ;;
  name <- vhba_item vhba "vhba_name" ;;
  ret (server_profile_name +:+ "-" +:+ fab +:+ "-" +:+ name).

Definition add_device_aliases_from_server_profile_name_and_vhba
  (server_profile_name : string) (vhba_list : list (gmap string string)) : M unit :=
  for_each
    (fun vhba =>
       device_alias <- device_alias_fstring server_profile_name vhba ;;
       fab <- vhba_item vhba "vhba_fabric" ;;
       if String.eqb fab "A" then
         wwpn <- vhba_item vhba "vhba_wwpn" ;;
         a <- self FabA ;;
         logger_info
           "Adding device alias '%s' with WWPN '%s' to MDS '%s' (Fabric A)\n"
           [JStr device_alias; JStr wwpn; JStr (ip_address a)] ;;;
         wwpn <- vhba_item vhba "vhba_wwpn" ;;
         add_device_alias FabA device_alias wwpn ;;;
         ret tt
       else
         fab <- vhba_item vhba "vhba_fabric" ;;
         if String.eqb fab "B" then
           wwpn <- vhba_item vhba "vhba_wwpn" ;;
           b <- self FabB ;;
           logger_info
             "Adding device alias '%s' with WWPN '%s' to MDS '%s' (Fabric B)\n"
             [JStr device_alias; JStr wwpn; JStr (ip_address b)] ;;;
           wwpn <- vhba_item vhba "vhba_wwpn" ;;
           add_device_alias FabB device_alias wwpn ;;;
           ret tt
         else unknown_fabric_type vhba)
    vhba_list.

Definition add_zones_to_zonesets
  (zoneset_name_a zone_name_a vsan_id_a zoneset_name_b zone_name_b vsan_id_b : string)
  : M unit :=
  a <- self FabA ;;
  logger_info
    "Adding zone '%s' of vsan `%s` to zoneset '%s' in MDS '%s' (Fabric A)\n"
    [JStr zone_name_a; JStr vsan_id_a; JStr zoneset_name_a; JStr (ip_address a)] ;;;
  add_zone_to_zoneset FabA zone_name_a zoneset_name_a vsan_id_a ;;;
  b <- self FabB ;;
  logger_info
    "Adding zone '%s' of vsan `%s` to zoneset '%s' in MDS '%s' (Fabric B)\n"
    [JStr zone_name_b; JStr vsan_id_b; JStr zoneset_name_b; JStr (ip_address b)] ;;;
  add_zone_to_zoneset FabB zone_name_b zoneset_name_b vsan_id_b ;;;
  ret tt.

(** The body of the [for vhba in vhbas_list] loop of
    [configure_intersight_mds_zones]. *)
Definition configure_vhba
  (server_profile_name zone_name_a vsan_id_a zone_name_b vsan_id_b : string)
  (flag_configure_device_aliases : pyval) (vhba : gmap string string) : M unit :=
  device_alias_name <-
    (if truthy flag_configure_device_aliases then
       device_alias_name <- device_alias_fstring server_profile_name vhba ;;
       wwpn <- vhba_item vhba "vhba_wwpn" ;;
       fab <- vhba_item vhba "vhba_fabric" ;;
       ip <- (if String.eqb fab "A"
              then a <- self FabA ;; ret (ip_address a)
              else b <- self FabB ;; ret (ip_address b)) ;;
       fab <- vhba_item vhba "vhba_fabric" ;;
       logger_info
         "Adding device alias '%s' with WWPN '%s' to MDS '%s' (Fabric %s)\n"
         [JStr device_alias_name; JStr wwpn; JStr ip; JStr fab] ;;;
       fab <- vhba_item vhba "vhba_fabric" ;;
       (if String.eqb fab "A" then
          wwpn <- vhba_item vhba "vhba_wwpn" ;;
          add_device_alias FabA device_alias_name wwpn ;;;
          ret tt
        else
          fab <- vhba_item vhba "vhba_fabric" ;;
          if String.eqb fab "B" then
            wwpn <- vhba_item vhba "vhba_wwpn" ;;
            add_device_alias FabB device_alias_name wwpn ;;;
            ret tt
          else unknown_fabric_type vhba) ;;;
       ret (Some device_alias_name)
     else if is_False flag_configure_device_aliases then
       name <- vhba_item vhba "vhba_name" ;;
       wwpn <- vhba_item vhba "vhba_wwpn" ;;
       logger_info "Skipping device alias creation for vHBA '%s' with WWPN '%s'\n"
         [JStr name; JStr wwpn] ;;;
       wwpn <- vhba_item vhba "vhba_wwpn" ;;
       name <- vhba_item vhba "vhba_name" ;;
       logger_info "Using WWPN '%s' directly for vHBA '%s' to configue zone member\n"
         [JStr wwpn; JStr name] ;;;
       ret None
     else
       logger_error "Unknown flag value '%s' for device alias configuration"
         [json_of_pyval flag_configure_device_aliases] ;;;
       sys_exit 1) ;;
  fab <- vhba_item vhba "vhba_fabric" ;;
  if String.eqb fab "A" then
    wwpn <- vhba_item vhba "vhba_wwpn" ;;
    a <- self FabA ;;
    logger_info
      "Adding vHBA '%s' to zone '%s' in vsan '%s' of MDS '%s' (Fabric A)\n"
      [JStr wwpn; JStr zone_name_a; JStr vsan_id_a; JStr (ip_address a)] ;;;
    wwpn <- vhba_item vhba "vhba_wwpn" ;;
    configure_zone_and_add_member FabA zone_name_a vsan_id_a
      (Some wwpn) device_alias_name ;;;
    ret tt
  else
    fab <- vhba_item vhba "vhba_fabric" ;;
    if String.eqb fab "B" then
      wwpn <- vhba_item vhba "vhba_wwpn" ;;
      b <- self FabB ;;
      logger_info
        "Adding vHBA '%s' to zone '%s' in vsan '%s' of MDS '%s' (Fabric B)\n"
        [JStr wwpn; JStr zone_name_b; JStr vsan_id_b; JStr (ip_address b)] ;;;
      wwpn <- vhba_item vhba "vhba_wwpn" ;;
      configure_zone_and_add_member FabB zone_name_b vsan_id_b
        (Some wwpn) device_alias_name ;;;
      ret tt
    else unknown_fabric_type vhba.

(** The [if flag_add_zones_to_zonesets: ... else: ...] statement of
    [configure_intersight_mds_zones]. *)
Definition stage_add_zones_to_zonesets
  (zone_name_a vsan_id_a zone_name_b vsan_id_b : string)
  (zoneset_name_a zoneset_name_b : option string)
  (flag_add_zones_to_zonesets : pyval) : M unit :=
  if truthy flag_add_zones_to_zonesets then
    logger_info "Adding zones to zonesets in MDS\n" [] ;;;
    match zoneset_name_a, zoneset_name_b with
    | Some zsa, Some zsb =>
        a <- self FabA ;;
        logger_info
          "Adding zone '%s' of vsan `%s` to zoneset '%s' in MDS '%s' (Fabric A)\n"
          [JStr zone_name_a; JStr vsan_id_a; JStr zsa; JStr (ip_address a)] ;;;
        add_zone_to_zoneset FabA zone_name_a zsa vsan_id_a ;;;
        b <- self FabB ;;
        logger_info
          "Adding zone '%s' of vsan `%s` to zoneset '%s' in MDS '%s' (Fabric B)\n"
          [JStr zone_name_b; JStr vsan_id_b; JStr zsb; JStr (ip_address b)] ;;;
        add_zone_to_zoneset FabB zone_name_b zsb vsan_id_b ;;;
        ret tt
    | _, _ =>
        logger_error "Zoneset names are required to add zones to zonesets in MDS\n" [] ;;;
        sys_exit 1
    end
  else logger_info "Skipping adding zones to zonesets in MDS\n" [].

(** The [if flag_activate_zonesets: ... else: ...] statement of
    [configure_intersight_mds_zones]. *)
Definition stage_activate_zonesets
  (vsan_id_a vsan_id_b : string)
  (zoneset_name_a zoneset_name_b : option string)
  (flag_activate_zonesets : pyval) : M unit :=
  if truthy flag_activate_zonesets then
    match zoneset_name_a, zoneset_name_b with
    | Some zsa, Some zsb =>
        logger_info "Activating zonesets in MDS\n" [] ;;;
        a <- self FabA ;;
        logger_info "Activating zoneset '%s' of vsan `%s` in MDS '%s' (Fabric A)\n"
          [JStr zsa; JStr vsan_id_a; JStr (ip_address a)] ;;;
        activate_zoneset FabA zsa vsan_id_a ;;;
        b <- self FabB ;;
        logger_info "Activating zoneset '%s' of vsan `%s` in MDS '%s' (Fabric B)\n"
          [JStr zsb; JStr vsan_id_b; JStr (ip_address b)] ;;;
        activate_zoneset FabB zsb vsan_id_b ;;;
        ret tt
    | _, _ =>
        logger_error "Zoneset names are required to add zones to zonesets in MDS\n" [] ;;;
        sys_exit 1
    end
  else logger_info "Skipping activating zonesets in MDS\n" [].

(** The three Intersight lookups that open [configure_intersight_mds_zones]. *)
Definition resolve_vhbas (server_profile_name organization_name : string)
  : M (list (gmap string string)) :=
  organization_moid <-
    fetch_organization_moid_from_organization_name organization_name ;;
  server_profile <-
    fetch_server_profile_moid_from_server_profile_name_and_organization_moid
      server_profile_name organization_moid ;;
  fetch_vhba_from_server_profile_moid server_profile.

Definition configure_intersight_mds_zones
  (server_profile_name organization_name : string)
  (zone_name_a vsan_id_a zone_name_b vsan_id_b : string)
  (zoneset_name_a zoneset_name_b : option string)
  (flag_configure_device_aliases flag_add_zones_to_zonesets
     flag_activate_zonesets : pyval) : M unit :=
  vhbas_list <- resolve_vhbas server_profile_name organization_name ;;
  for_each
    (configure_vhba server_profile_name zone_name_a vsan_id_a zone_name_b vsan_id_b
       flag_configure_device_aliases)
    vhbas_list ;;;
  stage_add_zones_to_zonesets zone_name_a vsan_id_a zone_name_b vsan_id_b
    zoneset_name_a zoneset_name_b flag_add_zones_to_zonesets ;;;
  stage_activate_zonesets vsan_id_a vsan_id_b
    zoneset_name_a zoneset_name_b flag_activate_zonesets.

End Environment.

(** ** Running the program *)

(** The world that [zone_bridge_fire.py] and [debug.py] set up: two clients
    fresh from [__init__] and nothing done yet. *)
Definition initial_world (a b : MdsClient) : world :=
  {| mds_client_a := a; mds_client_b := b; trace := [] |}.

(** The wire envelope for a command: the payload template with its two
    variable fields filled in. *)
Definition envelope (request_input request_type : string) : json :=
  JObj [("ins_api",
         JObj [("version", JStr "1.0");
               ("type", JStr request_type);
               ("chunk", JStr "0");
               ("sid", JStr "1");
               ("input", JStr request_input);
               ("output_format", JStr "json")])].

(** The requests of a trace, in order: the fabric addressed and the body. *)
Fixpoint sent (tr : list event) : list (fabric * json) :=
  match tr with
  | [] => []
  | ELog _ _ _ :: rest => sent rest
  | EPost f rq :: rest => (f, rq_data rq) :: sent rest
  end.

(** The error records of a trace. *)
Fixpoint errors (tr : list event) : list (string * list json) :=
  match tr with
  | [] => []
  | ELog ERROR fmt args :: rest => (fmt, args) :: errors rest
  | _ :: rest => errors rest
  end.

(** ** The commands and requests the specification talks about *)

Definition alias_command (alias wwpn : string) : string :=
  "device-alias database ;device-alias name " +:+ alias
    +:+ " pwwn " +:+ wwpn +:+ " ;device-alias commit".

Definition member_alias_command (zone vsan alias : string) : string :=
  "zone name " +:+ zone +:+ " vsan " +:+ vsan +:+ " ;member device-alias " +:+ alias.

Definition member_pwwn_command (zone vsan wwpn : string) : string :=
  "zone name " +:+ zone +:+ " vsan " +:+ vsan +:+ " ;member pwwn " +:+ wwpn.

Definition add_zone_command (zone zoneset vsan : string) : string :=
  "zoneset name " +:+ zoneset +:+ " vsan " +:+ vsan +:+ " ;member " +:+ zone.

Definition activate_command (zoneset vsan : string) : string :=
  "zoneset activate name " +:+ zoneset +:+ " vsan " +:+ vsan.

(** A configuration command on its way to the switch of fabric [f]. *)
Definition config_request (f : fabric) (command : string) : fabric * json :=
  (f, envelope command "cli_conf").

(** The device alias of an adapter: profile name, fabric tag, adapter name. *)
Definition device_alias_of (server_profile_name : string) (v : VnicFcIf) : string :=
  server_profile_name +:+ "-" +:+ vnic_placement_switch_id v +:+ "-" +:+ vnic_name v.

(** The request a zone-member call makes: by alias when there is one, else
    by port name, and none when it has neither. *)
Definition zone_member_requests (f : fabric) (zone vsan : string)
  (wwpn device_alias_name : option string) : list (fabric * json) :=
  if truthy_str device_alias_name then
    [config_request f (member_alias_command zone vsan (str_of device_alias_name))]
  else if truthy_str wwpn then
    [config_request f (member_pwwn_command zone vsan (str_of wwpn))]
  else [].

(** The requests for one adapter on the fabric [f] it belongs to, with that
    fabric's zone and VSAN. *)
Definition adapter_requests_on (f : fabric) (zone vsan : string)
  (server_profile_name : string) (flag_configure_device_aliases : pyval)
  (v : VnicFcIf) : list (fabric * json) :=
  if truthy flag_configure_device_aliases then
    [config_request f
       (alias_command (device_alias_of server_profile_name v) (vnic_wwpn v));
     config_request f
       (member_alias_command zone vsan (device_alias_of server_profile_name v))]
  else if is_False flag_configure_device_aliases then
    if nonempty (vnic_wwpn v) then
      [config_request f (member_pwwn_command zone vsan (vnic_wwpn v))]
    else []
  else [].

(** The requests for one adapter: fabric A's client with zone and VSAN of A
    for tag "A", fabric B's with those of B for tag "B". *)
Definition adapter_requests
  (server_profile_name zone_name_a vsan_id_a zone_name_b vsan_id_b : string)
  (flag_configure_device_aliases : pyval) (v : VnicFcIf) : list (fabric * json) :=
  if String.eqb (vnic_placement_switch_id v) "A" then
    adapter_requests_on FabA zone_name_a vsan_id_a
      server_profile_name flag_configure_device_aliases v
  else if String.eqb (vnic_placement_switch_id v) "B" then
    adapter_requests_on FabB zone_name_b vsan_id_b
      server_profile_name flag_configure_device_aliases v
  else [].

(** The alias-creation request for one adapter. *)
Definition alias_requests (server_profile_name : string) (v : VnicFcIf)
  : list (fabric * json) :=
  if String.eqb (vnic_placement_switch_id v) "A" then
    [config_request FabA
       (alias_command (device_alias_of server_profile_name v) (vnic_wwpn v))]
  else if String.eqb (vnic_placement_switch_id v) "B" then
    [config_request FabB
       (alias_command (device_alias_of server_profile_name v) (vnic_wwpn v))]
  else [].

(** The two requests of the add-zones-to-zonesets stage, A first. *)
Definition add_zones_requests
  (zoneset_name_a zone_name_a vsan_id_a zoneset_name_b zone_name_b vsan_id_b : string)
  : list (fabric * json) :=
  [config_request FabA (add_zone_command zone_name_a zoneset_name_a vsan_id_a);
   config_request FabB (add_zone_command zone_name_b zoneset_name_b vsan_id_b)].

(** The two requests of the activate-zonesets stage, A first. *)
Definition activate_requests
  (zoneset_name_a vsan_id_a zoneset_name_b vsan_id_b : string)
  : list (fabric * json) :=
  [config_request FabA (activate_command zoneset_name_a vsan_id_a);
   config_request FabB (activate_command zoneset_name_b vsan_id_b)].

Definition stage_add_requests
  (zone_name_a vsan_id_a zone_name_b vsan_id_b : string)
  (zoneset_name_a zoneset_name_b : option string)
  (flag_add_zones_to_zonesets : pyval) : list (fabric * json) :=
  match truthy flag_add_zones_to_zonesets, zoneset_name_a, zoneset_name_b with
  | true, Some zsa, Some zsb =>
      add_zones_requests zsa zone_name_a vsan_id_a zsb zone_name_b vsan_id_b
  | _, _, _ => []
  end.

Definition stage_activate_requests
  (vsan_id_a vsan_id_b : string)
  (zoneset_name_a zoneset_name_b : option string)
  (flag_activate_zonesets : pyval) : list (fabric * json) :=
  match truthy flag_activate_zonesets, zoneset_name_a, zoneset_name_b with
  | true, Some zsa, Some zsb => activate_requests zsa vsan_id_a zsb vsan_id_b
  | _, _, _ => []
  end.

(** Everything a full run is meant to send, in order: the adapters' requests,
    then the two optional stages. *)
Definition workflow_requests
  (server_profile_name zone_name_a vsan_id_a zone_name_b vsan_id_b : string)
  (zoneset_name_a zoneset_name_b : option string)
  (flag_configure_device_aliases flag_add_zones_to_zonesets
     flag_activate_zonesets : pyval)
  (vnics : list VnicFcIf) : list (fabric * json) :=
  flat_map
    (adapter_requests server_profile_name zone_name_a vsan_id_a zone_name_b vsan_id_b
       flag_configure_device_aliases) vnics
  ++ stage_add_requests zone_name_a vsan_id_a zone_name_b vsan_id_b
       zoneset_name_a zoneset_name_b flag_add_zones_to_zonesets
  ++ stage_activate_requests vsan_id_a vsan_id_b
       zoneset_name_a zoneset_name_b flag_activate_zonesets.

(** The command text inside a request body. *)
Definition request_input (data : json) : string :=
  match data with
  | JObj fields =>
      match dict_get "ins_api" fields with
      | Some (JObj inner) =>
          match dict_get "input" inner with
          | Some (JStr s) => s
          | _ => ""
          end
      | _ => ""
      end
  | _ => ""
  end.

Definition is_alias_creation (r : fabric * json) : bool :=
  starts_with "device-alias " (request_input (snd r)).

Definition is_zoneset_command (r : fabric * json) : bool :=
  starts_with "zoneset " (request_input (snd r)).

Definition aborted {A} (o : outcome A) : Prop :=
  match o with
  | Ret _ => False
  | Exit _ => True
  | Raise _ => True
  end.

(** * Reasoning about runs *)

(** ** Well-formed worlds *)

(** The string stored under [payload["ins_api"][k]] of a client. *)
Definition payload_str (c : MdsClient) (k : string) : string :=
  match api_payload c with
  | JObj fields =>
      match dict_get "ins_api" fields with
      | Some (JObj inner) =>
          match dict_get k inner with
          | Some (JStr s) => s
          | _ => ""
          end
      | _ => ""
      end
  | _ => ""
  end.

(** A client is as [__init__] made it, up to the two payload fields that
    [post_request] writes. *)
Definition constructed (c : MdsClient) : Prop :=
  api_payload c = envelope (payload_str c "input") (payload_str c "type")
  /\ api_type_config c = "cli_conf"
  /\ api_type_show c = "cli_show".

Definition wf (w : world) : Prop :=
  constructed (mds_client_a w) /\ constructed (mds_client_b w).

(** [w'] is what [w] becomes when the process goes on and sends exactly the
    requests [l]. *)
Definition extends (w w' : world) (l : list (fabric * json)) : Prop :=
  wf w' /\ sent (trace w') = sent (trace w) ++ l.

(** ** Computations that only write to the log *)

Definition same_clients (w w' : world) : Prop :=
  mds_client_a w' = mds_client_a w /\ mds_client_b w' = mds_client_b w.

Definition logs_only {A} (c : M A) : Prop :=
  forall w o w', c w = (o, w') ->
    same_clients w w' /\ exists logs, trace w' = trace w ++ logs /\ sent logs = [].

(** What [post_request] does once the response is there. *)
Definition after_response (me : MdsClient) (request_input request_type : string)
  (response : Response) : M Response :=
  (if Z.eqb (status_code response) 200 then
     logger_info
       "POST request of type '%s' with input '%s' to MDS `%s`was successful.\n"
       [JStr (ip_address me); JStr request_type; JStr request_input] ;;;
     j <- response_json response ;;
     logger_debug
       "Response Details from MDS `%s`:\nStatus Code: %s\nContent: %s\n"
       [JStr (ip_address me); JNum (status_code response); j]
   else
     j <- response_json response ;;
     logger_error
       "POST request failed with status code: '%s' and response content: '%s'.\n"
       [JNum (status_code response); j] ;;;
     sys_exit 1) ;;;
  output <- response_output response ;;
  has_code <- contains "code" output ;;
  (if has_code then
     output <- response_output response ;;
     code <- getitem output "code" ;;
     if negb (is_str "200" code) then
       output <- response_output response ;;
       logger_error
         "CLI command pushed to MDS `%s` generated the following error:%s\n"
         [JStr (ip_address me); output]
     else ret tt
   else ret tt) ;;;
  ret response.

(** The request that the client [me] sends for a command. *)
Definition request_of (me : MdsClient) (request_input request_type : string)
  : http_request :=
  {| rq_url := api_url me;
     rq_data := envelope request_input request_type;
     rq_headers := api_headers me;
     rq_auth := (username me, password me);
     rq_timeout := api_timeout me;
     rq_verify := api_verify me |}.

(** The world in which the client of [f] holds the payload [p] and the
    process did [evs] more. *)
Definition world_after (w : world) (f : fabric) (p : json) (evs : list event)
  : world :=
  match f with
  | FabA => {| mds_client_a := with_api_payload (mds_client_a w) p;
               mds_client_b := mds_client_b w;
               trace := trace w ++ evs |}
  | FabB => {| mds_client_a := mds_client_a w;
               mds_client_b := with_api_payload (mds_client_b w) p;
               trace := trace w ++ evs |}
  end.

Definition sending_logs (me : MdsClient) (i t : string) : list event :=
  [ELog INFO
     "Sending POST request to MDS switch of type '%s' with input '%s'.\n"
     [JStr t; JStr i];
   ELog DEBUG
     "POST Request Details:\nPayload: %s\nHeaders: %s\nURL: %s\nTimeout: %s\nVerify SSL: %s\n"
     [envelope i t; api_headers me; JStr (api_url me);
      JNum (api_timeout me); JBool (api_verify me)]].

(** ** A small logic of what a computation sends *)

Definition sends {A} (c : M A) (Q : outcome A -> list (fabric * json) -> Prop)
  : Prop :=
  forall w o w', wf w -> c w = (o, w') -> exists l, extends w w' l /\ Q o l.

Definition returned {A} (o : outcome A) : Prop := exists a, o = Ret a.

(** The requests are the first ones of [expected], and all of them when the
    computation returns. *)
Definition upto {A} (expected : list (fabric * json))
  (o : outcome A) (l : list (fabric * json)) : Prop :=
  l `prefix_of` expected /\ (returned o -> l = expected).

(** The requests of a full run: none when the inventory lookups fail, else
    the first ones of [workflow_requests] for the adapters that the inventory
    returned, and all of them when the run returns. *)
Definition workflow_post
  (get_vnic_fc_if_list : string -> api_result VnicFcIf)
  (spn za va zb vb : string) (zsa zsb : option string) (f1 f2 f3 : pyval)
  (o : outcome unit) (l : list (fabric * json)) : Prop :=
  (l = [] /\ aborted o)
  \/ exists flt vnics,
       get_vnic_fc_if_list flt = ApiResults vnics
       /\ upto (workflow_requests spn za va zb vb zsa zsb f1 f2 f3 vnics) o l.


(** [j[k1][k2]...] when every step is a dict that has the key. *)
Fixpoint json_path (ks : list string) (j : json) : option json :=
  match ks with
  | [] => Some j
  | k :: ks' =>
      match j with
      | JObj fields =>
          match dict_get k fields with
          | Some j' => json_path ks' j'
          | None => None
          end
      | _ => None
      end
  end.

(** Computations that never call [sys.exit]. *)
Definition no_exit {A} (c : M A) : Prop :=
  forall w o w' n, c w = (o, w') -> o <> Exit n.

Definition other (f : fabric) : fabric :=
  match f with
  | FabA => FabB
  | FabB => FabA
  end.

(** The reply of the switch to the request that [post_request f i t] sends
    from the world [w]. *)
Definition reply_to (switch : list event -> fabric -> http_request -> reply)
  (w : world) (f : fabric) (i t : string) : reply :=
  switch (trace w ++ sending_logs (client_of f w) i t) f
    (request_of (client_of f w) i t).

(** ** A test bench *)

(** Two clients as [debug.py] would build them. *)
Definition bench_world : world :=
  initial_world (new_MdsClient "10.0.0.1" "admin" "secret-a")
                (new_MdsClient "10.0.0.2" "admin" "secret-b").

Definition body_with_output (output : json) : json :=
  JObj [("ins_api",
         JObj [("type", JStr "cli_conf");
               ("version", JStr "1.0");
               ("sid", JStr "eoc");
               ("outputs", JObj [("output", output)])])].

Definition success_output : list (string * json) :=
  [("code", JStr "200"); ("msg", JStr "Success"); ("body", JObj [])].

Definition failure_output : list (string * json) :=
  [("clierror", JStr "Zoneset not present\n");
   ("code", JStr "400");
   ("msg", JStr "CLI execution error")].

(** A switch that accepts everything. *)
Definition switch_ok (_ : list event) (_ : fabric) (_ : http_request) : reply :=
  Answer {| status_code := 200;
            content := Some (body_with_output (JObj success_output)) |}.

Definition bench_answer_ok : Response :=
  {| status_code := 200;
     content := Some (body_with_output (JObj success_output)) |}.

(** One request to the switch of fabric A. *)
Definition bench_post_ok : outcome Response * world :=
  post_request switch_ok FabA "zone name z vsan 100" "cli_conf" bench_world.

(** A switch that answers 200 and reports a CLI error on every command. *)
Definition switch_cli_error (_ : list event) (_ : fabric) (_ : http_request)
  : reply :=
  Answer {| status_code := 200;
            content := Some (body_with_output (JObj failure_output)) |}.

(** A switch that answers every request with the given status. *)
Definition switch_status (status : Z) (_ : list event) (_ : fabric)
  (_ : http_request) : reply :=
  Answer {| status_code := status;
            content := Some (body_with_output (JObj success_output)) |}.

Definition bench_organizations (_ : string) : api_result string :=
  ApiResults ["org-moid-1"].

Definition bench_profiles (_ : string) : api_result string :=
  ApiResults ["profile-moid-1"].

Definition vhba0 : VnicFcIf :=
  {| vnic_wwpn := "20:00:00:25:B5:00:00:01";
     vnic_name := "vHBA0";
     vnic_placement_switch_id := "A" |}.

Definition vhba1 : VnicFcIf :=
  {| vnic_wwpn := "20:00:00:25:B5:00:00:02";
     vnic_name := "vHBA1";
     vnic_placement_switch_id := "B" |}.

(** An adapter whose placement names no fabric. *)
Definition vhba_stray : VnicFcIf :=
  {| vnic_wwpn := "20:00:00:25:B5:00:00:03";
     vnic_name := "vHBA2";
     vnic_placement_switch_id := "None" |}.

Definition bench_vnics (_ : string) : api_result VnicFcIf :=
  ApiResults [vhba0; vhba1].

Definition bench_vnics_stray (_ : string) : api_result VnicFcIf :=
  ApiResults [vhba0; vhba_stray; vhba1].

(** The run of [debug.py]: both adapters, aliases, both zoneset stages. *)
Definition bench_run : outcome unit * world :=
  configure_intersight_mds_zones switch_ok bench_organizations bench_profiles
    bench_vnics "srv1" "default" "zone-a" "100" "zone-b" "200"
    (Some "zs-a") (Some "zs-b") (PyBool true) (PyBool true) (PyBool true)
    bench_world.

(** The same run without aliases. *)
Definition bench_run_wwpn : outcome unit * world :=
  configure_intersight_mds_zones switch_ok bench_organizations bench_profiles
    bench_vnics "srv1" "default" "zone-a" "100" "zone-b" "200"
    (Some "zs-a") (Some "zs-b") (PyBool false) (PyBool true) (PyBool true)
    bench_world.

(** The same run when the zoneset of fabric A is not named. *)
Definition bench_run_unnamed : outcome unit * world :=
  configure_intersight_mds_zones switch_ok bench_organizations bench_profiles
    bench_vnics "srv1" "default" "zone-a" "100" "zone-b" "200"
    None (Some "zs-b") (PyBool true) (PyBool true) (PyBool true)
    bench_world.

(** The same run when the inventory has a stray adapter between the two. *)
Definition bench_run_stray : outcome unit * world :=
  configure_intersight_mds_zones switch_ok bench_organizations bench_profiles
    bench_vnics_stray "srv1" "default" "zone-a" "100" "zone-b" "200"
    (Some "zs-a") (Some "zs-b") (PyBool true) (PyBool true) (PyBool true)
    bench_world.

(** That run after the inventory lookups, and after the first adapter. *)
Definition bench_stray_resolved : world :=
  snd (resolve_vhbas bench_organizations bench_profiles bench_vnics_stray
         "srv1" "default" bench_world).

Definition bench_stray_reached : world :=
  snd (for_each
         (configure_vhba switch_ok "srv1" "zone-a" "100" "zone-b" "200" (PyBool true))
         (map vhba_dict [vhba0]) bench_stray_resolved).

(** A stage sends nothing, or the request of fabric A, or that of fabric A
    and then that of fabric B. *)
Definition a_then_b (a b : fabric * json) (l : list (fabric * json)) : Prop :=
  l = [] \/ l = [a] \/ l = [a; b].

(** The request [r] is one that the adapter [v] is entitled to, on the
    fabric [f] with the zone and the VSAN given. *)
Definition request_of_adapter (server_profile_name : string) (v : VnicFcIf)
  (f : fabric) (zone vsan : string) (r : fabric * json) : Prop :=
  r = config_request f
        (alias_command (device_alias_of server_profile_name v) (vnic_wwpn v))
  \/ r = config_request f
           (member_alias_command zone vsan (device_alias_of server_profile_name v))
  \/ r = config_request f (member_pwwn_command zone vsan (vnic_wwpn v)).

(** The world [w] after the process wrote [evs] more to its trace. *)
Definition logged (w : world) (evs : list event) : world :=
  {| mds_client_a := mds_client_a w;
     mds_client_b := mds_client_b w;
     trace := trace w ++ evs |}.

(** * The rest of the program *)

(** ** [IntersightClient]: the constructor and the reference builder *)

(** What the client does with an [intersight.ApiClient]: the three list
    queries. *)
Record ApiClient : Type := {
  organization_list : string -> api_result string;
  server_profile_list : string -> api_result string;
  vnic_fc_if_list : string -> api_result VnicFcIf
}.

Record IntersightClient : Type := {
  _intersight_key_id : string;
  _intersight_secret_key_path : string;
  _intersight_url : string;
  _api_client : ApiClient
}.

(** [MoMoRef(object_type=..., moid=...)] *)
Record MoMoRef : Type := {
  object_type : string;
  moid : string
}.

Section Library.

(** The part of the [intersight] package: building the signing
    configuration and the API client from the host, the key id and the path
    of the private key.  It gives the client or ends the call. *)
Variable intersight_ApiClient : string -> string -> string -> outcome ApiClient.

(** [authenticate_and_assign_intersight_api_client]: the log it wrote and
    the API client. *)
Definition authenticate_and_assign_intersight_api_client
  (intersight_key_id intersight_secret_key_path intersight_url : string)
  : list event * outcome ApiClient :=
  let generating :=
    ELog INFO
      "Generating Intersight API client for authentication to Intersight\n" [] in
  match intersight_ApiClient intersight_url intersight_key_id
          intersight_secret_key_path with
  | Ret api_client =>
      ([generating;
        ELog INFO
          "Authentication was successfull and Intersight API client was successfully generated and assigned to IntersightClient\n"
          []],
       Ret api_client)
  | Exit n => ([generating], Exit n)
  | Raise e => ([generating], Raise e)
  end.

(** [IntersightClient.__init__]: the arguments may be [None] when they come
    from [os.getenv]. *)
Definition IntersightClient_init
  (intersight_key_id intersight_secret_key_path intersight_url : option string)
  : list event * outcome IntersightClient :=
  let hello :=
    ELog INFO
      "Initializating IntersightClient instance with Cisco Intersight at URL '%s'\n"
      [json_of_opt intersight_url] in
  if negb (truthy_str intersight_key_id) then
    ([hello;
      ELog ERROR
        "Intersight key ID is not provided. Please provide a valid Intersight key ID.\n"
        []],
     Exit 1)
  else if negb (truthy_str intersight_secret_key_path) then
    ([hello;
      ELog ERROR
        "Intersight secret key path is not provided. Please provide a valid Intersight secret key path.\n"
        []],
     Exit 1)
  else if negb (truthy_str intersight_url) then
    ([hello;
      ELog ERROR
        "Intersight URL is not provided. Please provide a valid Intersight URL.\n"
        []],
     Exit 1)
  else if negb (starts_with "https://" (str_of intersight_url)) then
    ([hello;
      ELog ERROR
        "Intersight URL is not valid. Please provide a valid Intersight URL.\n" []],
     Exit 1)
  else
    match authenticate_and_assign_intersight_api_client
            (str_of intersight_key_id) (str_of intersight_secret_key_path)
            (str_of intersight_url) with
    | (logs, Ret api_client) =>
        (hello :: logs ++
           [ELog INFO
              "IntersightClient instance was successfully initialized with Cisco Intersight at URL '%s'\n"
              [json_of_opt intersight_url]],
         Ret {| _intersight_key_id := str_of intersight_key_id;
                _intersight_secret_key_path := str_of intersight_secret_key_path;
                _intersight_url := str_of intersight_url;
                _api_client := api_client |})
    | (logs, Exit n) => (hello :: logs, Exit n)
    | (logs, Raise e) => (hello :: logs, Raise e)
    end.

End Library.

(** [fetch_and_create_organization_reference_object_from_organization_name] *)
Definition fetch_and_create_organization_reference_object_from_organization_name
  (get_organization_organization_list : string -> api_result string)
  (organization_name : string) : M MoMoRef :=
  logger_info "Creating Organization reference object from Organization name %s\n"
    [JStr organization_name] ;;;
  let filter_str := "Name eq " +:+ organization_name in
  match get_organization_organization_list filter_str with
  | ApiException exception =>
      logger_warning
        "Exception when calling OrganizationApi->get_organization_organization_list: %s\n"
        [JStr exception] ;;;
      sys_exit 1
  | ApiResults (organization_moid :: _) =>
      logger_info "Moid of the organization name %s is %s\n"
        [JStr organization_name; JStr organization_moid] ;;;
      let organization_reference :=
        {| object_type := "organization.Organization";
           moid := organization_moid |} in
      logger_info
        "Organization reference object from Organization name %s was successfully created\n"
        [JStr organization_name] ;;;
      ret organization_reference
  | ApiResults [] =>
      logger_error "Organization with name %s not found in Intersight\n"
        [JStr organization_name] ;;;
      sys_exit 1
  end.

(** ** [debug.py] *)

(** The script, from the environment as it is after the two calls of
    [load_dotenv]: the three constructors, then the full run on the
    constants of the script.  The result is how the process ended and
    everything it did. *)
Definition debug_main
  (getenv : string -> option string)
  (intersight_ApiClient : string -> string -> string -> outcome ApiClient)
  (switch : list event -> fabric -> http_request -> reply)
  : outcome unit * list event :=
  let SERVER_PROFILE_NAME := "new-server-profile" in
  let ORGANIZATION_NAME := "default" in
  let ZONESET_A := "zoneset-demo-a" in
  let ZONE_A := SERVER_PROFILE_NAME in
  let VSAN_A := "100" in
  let ZONESET_B := "zoneset-demo-b" in
  let ZONE_B := SERVER_PROFILE_NAME in
  let VSAN_B := "200" in
  match IntersightClient_init intersight_ApiClient
          (getenv "INTERSIGHT_KEY_ID") (getenv "INTERSIGHT_SECRET_KEY_PATH")
          (Some "https://intersight.com") with
  | (log_i, Exit n) => (Exit n, log_i)
  | (log_i, Raise e) => (Raise e, log_i)
  | (log_i, Ret intersight_client) =>
      match MdsClient_init (getenv "MDS_IP_ADDRESS_A") (getenv "MDS_USERNAME_A")
              (getenv "MDS_PASSWORD_A") with
      | (log_a, Exit n) => (Exit n, log_i ++ log_a)
      | (log_a, Raise e) => (Raise e, log_i ++ log_a)
      | (log_a, Ret mds_client_a) =>
          match MdsClient_init (getenv "MDS_IP_ADDRESS_B") (getenv "MDS_USERNAME_B")
                  (getenv "MDS_PASSWORD_B") with
          | (log_b, Exit n) => (Exit n, log_i ++ log_a ++ log_b)
          | (log_b, Raise e) => (Raise e, log_i ++ log_a ++ log_b)
          | (log_b, Ret mds_client_b) =>
              let (o, w') :=
                configure_intersight_mds_zones switch
                  (organization_list (_api_client intersight_client))
                  (server_profile_list (_api_client intersight_client))
                  (vnic_fc_if_list (_api_client intersight_client))
                  SERVER_PROFILE_NAME ORGANIZATION_NAME
                  ZONE_A VSAN_A ZONE_B VSAN_B
                  (Some ZONESET_A) (Some ZONESET_B)
                  (PyBool true) (PyBool true) (PyBool true)
                  {| mds_client_a := mds_client_a;
                     mds_client_b := mds_client_b;
                     trace := log_i ++ log_a ++ log_b |} in
              (o, trace w')
          end
      end
  end.

(** ** More notions for runs *)

(** The switch answers 200 with a body that has an output object. *)
Definition accepts (rp : reply) : bool :=
  match rp with
  | Answer r =>
      Z.eqb (status_code r) 200
      && match content r with
         | Some j =>
             match json_path ["ins_api"; "outputs"; "output"] j with
             | Some (JObj _) => true
             | _ => false
             end
         | None => false
         end
  | NoAnswer _ => false
  end.

(** The computation returns from every well-formed world, with a value that
    satisfies [P], into a well-formed world. *)
Definition returns {A} (c : M A) (P : A -> Prop) : Prop :=
  forall w, wf w -> exists a w', c w = (Ret a, w') /\ wf w' /\ P a.

(** The answer has status 200. *)
Definition is_200 (rp : reply) : bool :=
  match rp with
  | Answer r => Z.eqb (status_code r) 200
  | NoAnswer _ => false
  end.

(** Every request among the events [evs], which follow the trace [tr0], was
    answered with status 200.  The answer to a request is what the switch
    says to it after the events before it, as in [requests_post]. *)
Fixpoint all_200 (switch : list event -> fabric -> http_request -> reply)
  (tr0 evs : list event) : bool :=
  match evs with
  | [] => true
  | e :: rest =>
      match e with
      | EPost f rq => is_200 (switch tr0 f rq)
      | ELog _ _ _ => true
      end
      && all_200 switch (tr0 ++ [e]) rest
  end.

(** A run from [w] to [w'] in which every request was answered with 200. *)
Definition all_answered_200 (switch : list event -> fabric -> http_request -> reply)
  (w w' : world) : Prop :=
  exists evs, trace w' = trace w ++ evs /\ all_200 switch (trace w) evs = true.

(** A run from [w] to [w'] whose last request was not answered with 200,
    while every request before it was. *)
Definition stopped_at_failure
  (switch : list event -> fabric -> http_request -> reply)
  (w w' : world) : Prop :=
  exists evs f rq logs,
    trace w' = trace w ++ evs ++ EPost f rq :: logs
    /\ all_200 switch (trace w) evs = true
    /\ is_200 (switch (trace w ++ evs) f rq) = false
    /\ sent logs = [].

(** What never changes on a client: everything but the payload. *)
Definition same_identity (c c' : MdsClient) : Prop :=
  ip_address c' = ip_address c
  /\ username c' = username c
  /\ password c' = password c
  /\ api_headers c' = api_headers c
  /\ api_timeout c' = api_timeout c
  /\ api_type_config c' = api_type_config c
  /\ api_type_show c' = api_type_show c
  /\ api_url c' = api_url c
  /\ api_verify c' = api_verify c.

Definition same_identities (w w' : world) : Prop :=
  same_identity (mds_client_a w) (mds_client_a w')
  /\ same_identity (mds_client_b w) (mds_client_b w').

(** Every run of [c] from a well-formed world ends in a well-formed world
    that is related to the first by [R], or, when the run is aborted, by
    [F]. *)
Definition keeps (R F : world -> world -> Prop) {A} (c : M A) : Prop :=
  forall w o w',
    wf w -> c w = (o, w') -> wf w' /\ (R w w' \/ (aborted o /\ F w w')).

(** The arguments that [IntersightClient.__init__] lets through. *)
Definition intersight_arguments_valid (key_id path url : option string) : bool :=
  truthy_str key_id && truthy_str path && truthy_str url
  && starts_with "https://" (str_of url).

(** ** More of the bench *)

Definition bench_command : string := "zone name z vsan 100".

(** A switch that never answers. *)
Definition switch_silent (_ : list event) (_ : fabric) (_ : http_request) : reply :=
  NoAnswer "timed out".

(** A switch that answers 200 with a page that is not JSON. *)
Definition bench_answer_page : Response :=
  {| status_code := 200; content := None |}.

Definition switch_page (_ : list event) (_ : fabric) (_ : http_request) : reply :=
  Answer bench_answer_page.

(** A switch that answers a request of several commands: one output each,
    the second one an error. *)
Definition bench_outputs : list json :=
  [JObj success_output; JObj failure_output; JObj success_output].

Definition bench_answer_list : Response :=
  {| status_code := 200; content := Some (body_with_output (JArr bench_outputs)) |}.

Definition switch_list (_ : list event) (_ : fabric) (_ : http_request) : reply :=
  Answer bench_answer_list.





Definition bench_post_silent : outcome Response * world :=
  post_request switch_silent FabA bench_command "cli_conf" bench_world.

Definition bench_post_page : outcome Response * world :=
  post_request switch_page FabA bench_command "cli_conf" bench_world.

Definition bench_post_list : outcome Response * world :=
  post_request switch_list FabA bench_command "cli_conf" bench_world.

Definition bench_zone_info : outcome json * world :=
  fetch_zone_info switch_ok FabA "zone-a" "100" bench_world.

Definition bench_member_by_wwpn : outcome json * world :=
  configure_zone_and_add_member switch_ok FabA "zone-a" "100"
    (Some "20:00:00:25:B5:00:00:01") (Some "") bench_world.

(** An inventory without the organization. *)
Definition bench_no_organization (_ : string) : api_result string := ApiResults [].

(** An adapter on fabric A without a WWPN. *)
Definition vhba_blank : VnicFcIf :=
  {| vnic_wwpn := ""; vnic_name := "vHBA3"; vnic_placement_switch_id := "A" |}.

Definition bench_vnics_blank (_ : string) : api_result VnicFcIf :=
  ApiResults [vhba0; vhba_blank; vhba1].

Definition bench_blank_resolved : world :=
  snd (resolve_vhbas bench_organizations bench_profiles bench_vnics_blank
         "srv1" "default" bench_world).

Definition bench_blank_reached : world :=
  snd (for_each
         (configure_vhba switch_ok "srv1" "zone-a" "100" "zone-b" "200" (PyBool false))
         (map vhba_dict [vhba0]) bench_blank_resolved).

(** The run of the bench with [None] for the alias flag. *)
Definition bench_run_no_flag : outcome unit * world :=
  configure_intersight_mds_zones switch_ok bench_organizations bench_profiles
    bench_vnics "srv1" "default" "zone-a" "100" "zone-b" "200"
    (Some "zs-a") (Some "zs-b") PyNone (PyBool true) (PyBool true)
    bench_world.

(** The standalone alias operation on the first adapter of the bench. *)
Definition bench_aliases_reached : world :=
  snd (add_device_aliases_from_server_profile_name_and_vhba switch_ok "srv1"
         (map vhba_dict [vhba0]) bench_world).

(** The run of the bench against switches that answer 500. *)
Definition bench_run_500 : outcome unit * world :=
  configure_intersight_mds_zones (switch_status 500) bench_organizations
    bench_profiles bench_vnics "srv1" "default" "zone-a" "100" "zone-b" "200"
    (Some "zs-a") (Some "zs-b") (PyBool true) (PyBool true) (PyBool true)
    bench_world.

(** * Lemmas *)

(** ** Traces and well-formed worlds *)

Lemma sent_app tr1 tr2 : sent (tr1 ++ tr2) = sent tr1 ++ sent tr2.
Proof.
  induction tr1 as [|e tr1 IH]; simpl; [reflexivity|].
  destruct e; simpl; rewrite IH; reflexivity.
Qed.

Lemma new_MdsClient_constructed ip user pw : constructed (new_MdsClient ip user pw).
Proof. repeat split. Qed.

Lemma initial_world_wf a b : constructed a -> constructed b -> wf (initial_world a b).
Proof. intros Ha Hb; split; assumption. Qed.

Lemma extends_refl w : wf w -> extends w w [].
Proof. intros H; split; [assumption | rewrite app_nil_r; reflexivity]. Qed.

Lemma extends_trans w1 w2 w3 l1 l2 :
  extends w1 w2 l1 -> extends w2 w3 l2 -> extends w1 w3 (l1 ++ l2).
Proof.
  intros [_ H1] [Hwf H2]; split; [assumption|].
  rewrite H2, H1, app_assoc; reflexivity.
Qed.

Lemma extends_wf w w' l : extends w w' l -> wf w'.
Proof. intros [H _]; exact H. Qed.

(** ** Inverting a run *)

Lemma bind_inv {A B} (c : M A) (k : A -> M B) w o w' :
  bind c k w = (o, w') ->
  (exists a w1, c w = (Ret a, w1) /\ k a w1 = (o, w'))
  \/ (exists n, c w = (Exit n, w') /\ o = Exit n)
  \/ (exists e, c w = (Raise e, w') /\ o = Raise e).
Proof.
  unfold bind; destruct (c w) as [[a|n|e] w1]; intros H.
  - left; eauto.
  - right; left; inversion H; subst; eauto.
  - right; right; inversion H; subst; eauto.
Qed.

Lemma emit_inv e w (o : outcome unit) w' :
  emit e w = (o, w') ->
  o = Ret tt /\ mds_client_a w' = mds_client_a w /\ mds_client_b w' = mds_client_b w
  /\ trace w' = trace w ++ [e].
Proof. unfold emit; intros H; inversion H; subst; simpl; auto. Qed.

Lemma emit_log_extends lvl fmt args w (o : outcome unit) w' :
  wf w -> emit (ELog lvl fmt args) w = (o, w') -> o = Ret tt /\ extends w w' [].
Proof.
  intros Hwf H; apply emit_inv in H as (-> & Ha & Hb & Ht); split; [reflexivity|].
  split.
  - unfold wf; rewrite Ha, Hb; exact Hwf.
  - rewrite Ht, sent_app; reflexivity.
Qed.


Lemma logs_only_ret {A} (a : A) : logs_only (ret a).
Proof.
  intros w o w' H; inversion H; subst; split; [split; reflexivity|].
  exists []; rewrite app_nil_r; auto.
Qed.

Lemma logs_only_exit {A} n : logs_only (@sys_exit A n).
Proof.
  intros w o w' H; inversion H; subst; split; [split; reflexivity|].
  exists []; rewrite app_nil_r; auto.
Qed.

Lemma logs_only_raise {A} e : logs_only (@raise A e).
Proof.
  intros w o w' H; inversion H; subst; split; [split; reflexivity|].
  exists []; rewrite app_nil_r; auto.
Qed.

Lemma logs_only_emit lvl fmt args : logs_only (emit (ELog lvl fmt args)).
Proof.
  intros w o w' H; apply emit_inv in H as (_ & Ha & Hb & Ht).
  split; [split; assumption|]. eexists; split; [exact Ht | reflexivity].
Qed.

Lemma logs_only_bind {A B} (c : M A) (k : A -> M B) :
  logs_only c -> (forall a, logs_only (k a)) -> logs_only (bind c k).
Proof.
  intros Hc Hk w o w' H.
  apply bind_inv in H as [(a & w1 & H1 & H2) | [(n & H1 & _) | (e & H1 & _)]];
    try (eapply Hc; eassumption).
  apply Hc in H1 as ((Ha1 & Hb1) & l1 & Ht1 & Hs1).
  apply Hk in H2 as ((Ha2 & Hb2) & l2 & Ht2 & Hs2).
  split; [split; congruence|].
  exists (l1 ++ l2); split.
  - rewrite Ht2, Ht1, app_assoc; reflexivity.
  - rewrite sent_app, Hs1, Hs2; reflexivity.
Qed.

Lemma logs_only_getitem x k : logs_only (getitem x k).
Proof.
  destruct x; simpl; try apply logs_only_raise.
  destruct (dict_get k fields); [apply logs_only_ret | apply logs_only_raise].
Qed.

Lemma logs_only_contains k x : logs_only (contains k x).
Proof. destruct x; simpl; first [apply logs_only_ret | apply logs_only_raise]. Qed.

Lemma logs_only_response_json r : logs_only (response_json r).
Proof.
  unfold response_json; destruct (content r);
    [apply logs_only_ret | apply logs_only_raise].
Qed.

Lemma logs_only_response_output r : logs_only (response_output r).
Proof.
  unfold response_output.
  repeat (apply logs_only_bind; [|intros ?]);
    first [apply logs_only_response_json | apply logs_only_getitem].
Qed.

Lemma logs_only_extends {A} (c : M A) w o w' :
  logs_only c -> wf w -> c w = (o, w') -> extends w w' [].
Proof.
  intros Hc Hwf H; apply Hc in H as ((Ha & Hb) & logs & Ht & Hs).
  split.
  - unfold wf; rewrite Ha, Hb; exact Hwf.
  - rewrite Ht, sent_app, Hs; reflexivity.
Qed.

Section Client.
Variable switch : list event -> fabric -> http_request -> reply.

Lemma logs_only_after_response me i t r : logs_only (after_response me i t r).
Proof.
  unfold after_response, logger_info, logger_debug, logger_error.
  repeat first
    [ apply logs_only_ret | apply logs_only_exit | apply logs_only_emit
    | apply logs_only_response_json | apply logs_only_response_output
    | apply logs_only_contains | apply logs_only_getitem
    | apply logs_only_bind; [|intros ?]
    | match goal with |- logs_only (if ?b then _ else _) => destruct b end ].
Qed.

(** [post_request] up to the response: the payload on the client is
    overwritten, two records are logged and the request goes out; the rest
    is [after_response]. *)
Lemma post_request_unfold f i t w :
  wf w ->
  let me := client_of f w in
  let w1 := world_after w f (envelope i t)
              (sending_logs me i t ++ [EPost f (request_of me i t)]) in
  post_request switch f i t w =
    match switch (trace w ++ sending_logs me i t) f (request_of me i t) with
    | Answer r => after_response me i t r w1
    | NoAnswer msg => (Raise (RequestException msg), w1)
    end.
Proof.
  intros [[Ha _] [Hb _]].
  destruct w as [a b tr]; destruct f; simpl in *.
  - unfold post_request, payload_ins_api_setitem, bind, self, client_of; simpl.
    rewrite Ha; simpl.
    unfold requests_post, request_of, sending_logs; simpl.
    rewrite <- !app_assoc; simpl.
    destruct (switch _ _ _); reflexivity.
  - unfold post_request, payload_ins_api_setitem, bind, self, client_of; simpl.
    rewrite Hb; simpl.
    unfold requests_post, request_of, sending_logs; simpl.
    rewrite <- !app_assoc; simpl.
    destruct (switch _ _ _); reflexivity.
Qed.
End Client.

Section ClientFacts.
Variable switch : list event -> fabric -> http_request -> reply.

Lemma constructed_with_envelope c i t :
  constructed c -> constructed (with_api_payload c (envelope i t)).
Proof. intros (_ & H1 & H2); repeat split; assumption. Qed.

Lemma world_after_wf w f i t evs :
  wf w -> wf (world_after w f (envelope i t) evs).
Proof.
  intros [Ha Hb]; destruct f; split; simpl;
    first [assumption | apply constructed_with_envelope; assumption].
Qed.

Lemma client_of_wf f w : wf w -> constructed (client_of f w).
Proof. intros [Ha Hb]; destruct f; assumption. Qed.

Lemma sent_sending_logs me i t : sent (sending_logs me i t) = [].
Proof. reflexivity. Qed.

(** What a run of [post_request] leaves behind, whatever the switch says. *)
Lemma post_request_run f i t w o w' :
  wf w ->
  post_request switch f i t w = (o, w') ->
  exists logs,
    w' = world_after w f (envelope i t)
           (sending_logs (client_of f w) i t
              ++ [EPost f (request_of (client_of f w) i t)] ++ logs)
    /\ sent logs = [].
Proof.
  intros Hwf H. rewrite post_request_unfold in H by assumption.
  destruct (switch _ _ _) as [r | msg].
  - apply logs_only_after_response in H as ((Ha & Hb) & logs & Ht & Hs).
    exists logs; split; [|assumption].
    destruct w' as [a' b' tr']; destruct f; simpl in *; subst;
      rewrite <- !app_assoc; reflexivity.
  - inversion H; subst. exists []; split; [|reflexivity].
    destruct f; reflexivity.
Qed.

Lemma post_request_extends f i t w o w' :
  wf w ->
  post_request switch f i t w = (o, w') ->
  extends w w' [(f, envelope i t)].
Proof.
  intros Hwf H. destruct (post_request_run _ _ _ _ _ _ Hwf H) as (logs & -> & Hs).
  split; [apply world_after_wf; assumption|].
  destruct f; simpl; rewrite sent_app; simpl; rewrite Hs; reflexivity.
Qed.

End ClientFacts.

Lemma sends_weaken {A} (c : M A) (Q Q' : outcome A -> _ -> Prop) :
  sends c Q -> (forall o l, Q o l -> Q' o l) -> sends c Q'.
Proof.
  intros Hc HQ w o w' Hwf H.
  destruct (Hc w o w' Hwf H) as (l & He & Hq); eauto.
Qed.

Lemma sends_ret {A} (a : A) (Q : outcome A -> _ -> Prop) :
  Q (Ret a) [] -> sends (ret a) Q.
Proof.
  intros HQ w o w' Hwf H; inversion H; subst.
  exists []; split; [apply extends_refl; assumption | exact HQ].
Qed.

Lemma sends_exit {A} n (Q : outcome A -> _ -> Prop) :
  Q (Exit n) [] -> sends (sys_exit n) Q.
Proof.
  intros HQ w o w' Hwf H; inversion H; subst.
  exists []; split; [apply extends_refl; assumption | exact HQ].
Qed.

Lemma sends_raise {A} e (Q : outcome A -> _ -> Prop) :
  Q (Raise e) [] -> sends (raise e) Q.
Proof.
  intros HQ w o w' Hwf H; inversion H; subst.
  exists []; split; [apply extends_refl; assumption | exact HQ].
Qed.

Lemma sends_logs_only {A} (c : M A) (Q : outcome A -> _ -> Prop) :
  logs_only c -> (forall o, Q o []) -> sends c Q.
Proof.
  intros Hc HQ w o w' Hwf H.
  exists []; split; [eapply logs_only_extends; eassumption | apply HQ].
Qed.

Lemma sends_bind {A B} (c : M A) (k : A -> M B)
  (Q1 : outcome A -> _ -> Prop) (Q : outcome B -> _ -> Prop) :
  sends c Q1 ->
  (forall a l1, Q1 (Ret a) l1 -> sends (k a) (fun o l2 => Q o (l1 ++ l2))) ->
  (forall n l, Q1 (Exit n) l -> Q (Exit n) l) ->
  (forall e l, Q1 (Raise e) l -> Q (Raise e) l) ->
  sends (bind c k) Q.
Proof.
  intros Hc Hk Hx Hr w o w' Hwf H.
  apply bind_inv in H as [(a & w1 & H1 & H2) | [(n & H1 & ->) | (e & H1 & ->)]].
  - destruct (Hc _ _ _ Hwf H1) as (l1 & He1 & Hq1).
    destruct (Hk a l1 Hq1 _ _ _ (extends_wf _ _ _ He1) H2) as (l2 & He2 & Hq2).
    exists (l1 ++ l2); split; [eapply extends_trans; eassumption | exact Hq2].
  - destruct (Hc _ _ _ Hwf H1) as (l1 & He1 & Hq1); eauto.
  - destruct (Hc _ _ _ Hwf H1) as (l1 & He1 & Hq1); eauto.
Qed.

Lemma sends_bind_ret {A B} (a : A) (k : A -> M B) Q :
  sends (k a) Q -> sends (bind (ret a) k) Q.
Proof. intros Hk w o w' Hwf H; exact (Hk w o w' Hwf H). Qed.

Lemma sends_bind_exit {A B} n (k : A -> M B) (Q : outcome B -> _ -> Prop) :
  Q (Exit n) [] -> sends (bind (sys_exit n) k) Q.
Proof.
  intros HQ w o w' Hwf H; inversion H; subst.
  exists []; split; [apply extends_refl; assumption | exact HQ].
Qed.

Lemma sends_bind_raise {A B} e (k : A -> M B) (Q : outcome B -> _ -> Prop) :
  Q (Raise e) [] -> sends (bind (raise e) k) Q.
Proof.
  intros HQ w o w' Hwf H; inversion H; subst.
  exists []; split; [apply extends_refl; assumption | exact HQ].
Qed.

Lemma sends_bind_log {B} lvl fmt args (k : unit -> M B) Q :
  sends (k tt) Q -> sends (bind (emit (ELog lvl fmt args)) k) Q.
Proof.
  intros Hk w o w' Hwf H. unfold bind in H.
  destruct (emit _ w) as [o1 w1] eqn:E.
  destruct (emit_log_extends _ _ _ _ _ _ Hwf E) as (-> & He1).
  destruct (Hk _ _ _ (extends_wf _ _ _ He1) H) as (l & He & Hq).
  exists l; split; [|exact Hq].
  exact (extends_trans _ _ _ _ _ He1 He).
Qed.

Lemma sends_bind_self {B} f (k : MdsClient -> M B) Q :
  (forall me, constructed me -> sends (k me) Q) -> sends (bind (self f) k) Q.
Proof.
  intros Hk w o w' Hwf H. unfold bind, self in H.
  exact (Hk _ (client_of_wf f w Hwf) w o w' Hwf H).
Qed.

Lemma sends_bind_assoc {A B C} (c : M A) (k1 : A -> M B) (k2 : B -> M C) Q :
  sends (bind c (fun a => bind (k1 a) k2)) Q -> sends (bind (bind c k1) k2) Q.
Proof.
  intros Hk w o w' Hwf H. apply (Hk w o w' Hwf).
  unfold bind in *. destruct (c w) as [[a|n|e] w1]; exact H.
Qed.

Lemma upto_abort_exit {A} n l : @upto A l (Exit n) [].
Proof. split; [apply prefix_nil | intros [a Ha]; discriminate]. Qed.

Lemma upto_abort_raise {A} e l : @upto A l (Raise e) [].
Proof. split; [apply prefix_nil | intros [a Ha]; discriminate]. Qed.

Lemma upto_nil_ret {A} (a : A) : upto [] (Ret a) [].
Proof. split; [reflexivity | reflexivity]. Qed.

Lemma upto_nil {A} (o : outcome A) : upto [] o [].
Proof. split; reflexivity. Qed.

Lemma sends_upto_bind {A B} (c : M A) (k : A -> M B) l1 l2 l :
  sends c (upto l1) ->
  (forall a, sends (k a) (upto l2)) ->
  l = l1 ++ l2 ->
  sends (bind c k) (upto l).
Proof.
  intros Hc Hk ->. eapply sends_bind; [exact Hc | | |].
  - intros a l1' [Hp Hr]. rewrite (Hr (ex_intro _ a eq_refl)).
    eapply sends_weaken; [apply Hk|].
    intros o l' [Hp' Hr']; split.
    + apply prefix_app; exact Hp'.
    + intros Ho; rewrite (Hr' Ho); reflexivity.
  - intros n l' [Hp _]; split;
      [apply prefix_app_r; exact Hp | intros [a Ha]; discriminate].
  - intros e l' [Hp _]; split;
      [apply prefix_app_r; exact Hp | intros [a Ha]; discriminate].
Qed.

Ltac sends_step :=
  unfold logger_info, logger_debug, logger_warning, logger_error;
  cbv beta zeta;
  lazymatch goal with
  | |- sends (bind (bind _ _) _) _ => apply sends_bind_assoc
  | |- sends (bind (emit (ELog _ _ _)) _) _ => apply sends_bind_log
  | |- sends (bind (ret _) _) _ => apply sends_bind_ret
  | |- sends (bind (sys_exit _) _) _ => apply sends_bind_exit; apply upto_abort_exit
  | |- sends (bind (raise _) _) _ => apply sends_bind_raise; apply upto_abort_raise
  | |- sends (sys_exit _) _ => apply sends_exit; apply upto_abort_exit
  | |- sends (raise _) _ => apply sends_raise; apply upto_abort_raise
  | |- sends (ret _) _ => apply sends_ret; apply upto_nil_ret
  | |- sends (emit (ELog _ _ _)) _ =>
      apply sends_logs_only; [apply logs_only_emit | intros ?; apply upto_nil]
  end.

Section MethodFacts.
Variable switch : list event -> fabric -> http_request -> reply.

Lemma sends_post_request f i t :
  sends (post_request switch f i t) (upto [(f, envelope i t)]).
Proof.
  intros w o w' Hwf H. exists [(f, envelope i t)]; split.
  - eapply post_request_extends; eassumption.
  - split; reflexivity.
Qed.

(** A client method that builds [command] and posts it as a configuration
    command. *)
Lemma sends_post_config f command me :
  constructed me ->
  sends (response <- post_request switch f command (api_type_config me) ;;
         response_json response)
        (upto [(f, envelope command "cli_conf")]).
Proof.
  intros (_ & -> & _).
  eapply sends_upto_bind; [apply sends_post_request | | symmetry; apply app_nil_r].
  intros r. apply sends_logs_only; [apply logs_only_response_json|].
  intros o; split; [apply prefix_nil | reflexivity].
Qed.
End MethodFacts.

Ltac sends_run :=
  repeat first
    [ sends_step
    | apply sends_bind_self; intros ? ?
    | match goal with
      | H : ?b = _ |- context [if ?b then _ else _] => rewrite H
      end ].

Ltac sends_call L :=
  eapply sends_upto_bind; [apply L | intros ? | reflexivity].

Section BridgeFacts.
Variable switch : list event -> fabric -> http_request -> reply.
Variable get_organization_organization_list : string -> api_result string.
Variable get_server_profile_list : string -> api_result string.
Variable get_vnic_fc_if_list : string -> api_result VnicFcIf.

Lemma vhba_item_wwpn v : vhba_item (vhba_dict v) "vhba_wwpn" = ret (vnic_wwpn v).
Proof. reflexivity. Qed.

Lemma vhba_item_name v : vhba_item (vhba_dict v) "vhba_name" = ret (vnic_name v).
Proof. reflexivity. Qed.

Lemma vhba_item_fabric v :
  vhba_item (vhba_dict v) "vhba_fabric" = ret (vnic_placement_switch_id v).
Proof. reflexivity. Qed.

Lemma vhba_item_no_fabric v :
  vhba_item (vhba_dict v) "fabric" = raise (KeyError "fabric").
Proof. reflexivity. Qed.

Lemma sends_add_device_alias f alias wwpn :
  sends (add_device_alias switch f alias wwpn)
        (upto [config_request f (alias_command alias wwpn)]).
Proof.
  unfold add_device_alias. do 2 sends_step.
  apply sends_bind_self; intros me Hme.
  apply sends_post_config; assumption.
Qed.

Lemma sends_add_zone_to_zoneset f zone zoneset vsan :
  sends (add_zone_to_zoneset switch f zone zoneset vsan)
        (upto [config_request f (add_zone_command zone zoneset vsan)]).
Proof.
  unfold add_zone_to_zoneset. do 2 sends_step.
  apply sends_bind_self; intros me Hme.
  apply sends_post_config; assumption.
Qed.

Lemma sends_activate_zoneset f zoneset vsan :
  sends (activate_zoneset switch f zoneset vsan)
        (upto [config_request f (activate_command zoneset vsan)]).
Proof.
  unfold activate_zoneset. do 2 sends_step.
  apply sends_bind_self; intros me Hme.
  apply sends_post_config; assumption.
Qed.

Lemma sends_configure_zone_and_add_member f zone vsan wwpn alias :
  sends (configure_zone_and_add_member switch f zone vsan wwpn alias)
        (upto (zone_member_requests f zone vsan wwpn alias)).
Proof.
  unfold configure_zone_and_add_member, zone_member_requests.
  destruct (truthy_str alias) eqn:Ea; [|destruct (truthy_str wwpn) eqn:Ew];
    cbn [negb andb].
  - rewrite andb_false_r. repeat sends_step.
    apply sends_bind_self; intros me Hme.
    apply sends_post_config; assumption.
  - repeat sends_step.
    apply sends_bind_self; intros me Hme.
    apply sends_post_config; assumption.
  - repeat sends_step.
Qed.

(** A sequence of the form [c ;;; ret tt] sends what [c] sends. *)
Lemma sends_then_ret {A B} (c : M A) (b : B) l :
  sends c (upto l) -> sends (bind c (fun _ => ret b)) (upto l).
Proof.
  intros Hc. eapply sends_upto_bind; [exact Hc | | symmetry; apply app_nil_r].
  intros _. apply sends_ret, upto_nil_ret.
Qed.

Lemma device_alias_nonempty spn v : nonempty (device_alias_of spn v) = true.
Proof.
  unfold nonempty, device_alias_of. destruct spn; reflexivity.
Qed.

Lemma sends_member_by_alias f zone vsan wwpn spn v :
  sends (configure_zone_and_add_member switch f zone vsan wwpn
           (Some (device_alias_of spn v)))
        (upto [config_request f
                 (member_alias_command zone vsan (device_alias_of spn v))]).
Proof.
  eapply sends_weaken; [apply sends_configure_zone_and_add_member|].
  unfold zone_member_requests, truthy_str.
  rewrite device_alias_nonempty. intros o l H; exact H.
Qed.

Lemma sends_member_by_pwwn f zone vsan wwpn :
  sends (configure_zone_and_add_member switch f zone vsan (Some wwpn) None)
        (upto (if nonempty wwpn
               then [config_request f (member_pwwn_command zone vsan wwpn)]
               else [])).
Proof. apply sends_configure_zone_and_add_member. Qed.

Lemma sends_configure_vhba spn za va zb vb flag v :
  sends (configure_vhba switch spn za va zb vb flag (vhba_dict v))
        (upto (adapter_requests spn za va zb vb flag v)).
Proof.
  unfold configure_vhba, adapter_requests, adapter_requests_on,
    device_alias_fstring, unknown_fabric_type.
  rewrite !vhba_item_fabric, !vhba_item_name, !vhba_item_wwpn, !vhba_item_no_fabric.
  destruct (truthy flag) eqn:Ef; [|destruct (is_False flag) eqn:Ef'];
    (destruct (String.eqb (vnic_placement_switch_id v) "A") eqn:EA;
     [|destruct (String.eqb (vnic_placement_switch_id v) "B") eqn:EB]);
    sends_run.
  - sends_call sends_add_device_alias. sends_run.
    apply sends_then_ret, sends_member_by_alias.
  - sends_call sends_add_device_alias. sends_run.
    apply sends_then_ret, sends_member_by_alias.
  - apply sends_then_ret, sends_member_by_pwwn.
  - apply sends_then_ret, sends_member_by_pwwn.
Qed.

Lemma sends_for_each {A X} (body : A -> M unit) (g : X -> A)
  (expected : X -> list (fabric * json)) (l : list X) :
  (forall x, sends (body (g x)) (upto (expected x))) ->
  sends (for_each body (map g l)) (upto (flat_map expected l)).
Proof.
  intros Hbody. induction l as [|x rest IH]; simpl.
  - apply sends_ret, upto_nil_ret.
  - eapply sends_upto_bind; [apply Hbody | intros _; exact IH | reflexivity].
Qed.

Lemma sends_stage_add za va zb vb zsa zsb flag :
  sends (stage_add_zones_to_zonesets switch za va zb vb zsa zsb flag)
        (upto (stage_add_requests za va zb vb zsa zsb flag)).
Proof.
  unfold stage_add_zones_to_zonesets, stage_add_requests, add_zones_requests.
  destruct (truthy flag); [destruct zsa as [zsa|]; [destruct zsb as [zsb|]|]|];
    sends_run.
  sends_call sends_add_zone_to_zoneset. sends_run.
  apply sends_then_ret, sends_add_zone_to_zoneset.
Qed.

Lemma sends_stage_activate va vb zsa zsb flag :
  sends (stage_activate_zonesets switch va vb zsa zsb flag)
        (upto (stage_activate_requests va vb zsa zsb flag)).
Proof.
  unfold stage_activate_zonesets, stage_activate_requests, activate_requests.
  destruct (truthy flag); [destruct zsa as [zsa|]; [destruct zsb as [zsb|]|]|];
    sends_run.
  sends_call sends_activate_zoneset. sends_run.
  apply sends_then_ret, sends_activate_zoneset.
Qed.

Lemma sends_activate_zonesets zsa va zsb vb :
  sends (activate_zonesets switch zsa va zsb vb)
        (upto (activate_requests zsa va zsb vb)).
Proof.
  unfold activate_zonesets, activate_requests. sends_run.
  sends_call sends_activate_zoneset. sends_run.
  apply sends_then_ret, sends_activate_zoneset.
Qed.

Lemma sends_add_zones_to_zonesets zsa za va zsb zb vb :
  sends (add_zones_to_zonesets switch zsa za va zsb zb vb)
        (upto (add_zones_requests zsa za va zsb zb vb)).
Proof.
  unfold add_zones_to_zonesets, add_zones_requests. sends_run.
  sends_call sends_add_zone_to_zoneset. sends_run.
  apply sends_then_ret, sends_add_zone_to_zoneset.
Qed.

Lemma sends_add_device_aliases spn vnics :
  sends (add_device_aliases_from_server_profile_name_and_vhba switch spn
           (map vhba_dict vnics))
        (upto (flat_map (alias_requests spn) vnics)).
Proof.
  unfold add_device_aliases_from_server_profile_name_and_vhba.
  apply sends_for_each. intros v.
  unfold alias_requests, device_alias_fstring, unknown_fabric_type.
  rewrite !vhba_item_fabric, !vhba_item_name, !vhba_item_wwpn, !vhba_item_no_fabric.
  destruct (String.eqb (vnic_placement_switch_id v) "A") eqn:EA;
    [|destruct (String.eqb (vnic_placement_switch_id v) "B") eqn:EB];
    sends_run; apply sends_then_ret, sends_add_device_alias.
Qed.

(** ** The inventory lookups *)

Lemma logs_only_resolve_vhbas spn org :
  logs_only
    (resolve_vhbas get_organization_organization_list get_server_profile_list
       get_vnic_fc_if_list spn org).
Proof.
  unfold resolve_vhbas, fetch_organization_moid_from_organization_name,
    fetch_server_profile_moid_from_server_profile_name_and_organization_moid,
    fetch_vhba_from_server_profile_moid,
    logger_info, logger_warning, logger_error.
  repeat first
    [ apply logs_only_ret | apply logs_only_exit | apply logs_only_emit
    | apply logs_only_bind; [|intros ?]
    | match goal with
      | |- logs_only (match ?x with _ => _ end) => destruct x
      end ].
Qed.

Lemma fetch_vhba_returns moid w vs w' :
  fetch_vhba_from_server_profile_moid get_vnic_fc_if_list moid w = (Ret vs, w') ->
  exists flt vnics,
    get_vnic_fc_if_list flt = ApiResults vnics /\ vs = map vhba_dict vnics.
Proof.
  unfold fetch_vhba_from_server_profile_moid. intros H.
  apply bind_inv in H as [(a & w1 & _ & H) | [(n & _ & H) | (e & _ & H)]];
    try discriminate.
  destruct (get_vnic_fc_if_list _) as [[|x xs]|msg] eqn:E.
  - apply bind_inv in H as [(? & ? & _ & H) | [(n & _ & H) | (e & _ & H)]];
      discriminate.
  - apply bind_inv in H as [(? & ? & _ & H) | [(n & _ & H) | (e & _ & H)]];
      try discriminate.
    inversion H; subst. eauto.
  - apply bind_inv in H as [(? & ? & _ & H) | [(n & _ & H) | (e & _ & H)]];
      discriminate.
Qed.

Lemma resolve_vhbas_returns spn org w vs w' :
  resolve_vhbas get_organization_organization_list get_server_profile_list
    get_vnic_fc_if_list spn org w = (Ret vs, w') ->
  exists flt vnics,
    get_vnic_fc_if_list flt = ApiResults vnics /\ vs = map vhba_dict vnics.
Proof.
  unfold resolve_vhbas. intros H.
  apply bind_inv in H as [(a & w1 & _ & H) | [(n & _ & H) | (e & _ & H)]];
    try discriminate.
  apply bind_inv in H as [(b & w2 & _ & H) | [(n & _ & H) | (e & _ & H)]];
    try discriminate.
  eapply fetch_vhba_returns; eassumption.
Qed.

Lemma sends_workflow spn org za va zb vb zsa zsb f1 f2 f3 :
  sends
    (configure_intersight_mds_zones switch get_organization_organization_list
       get_server_profile_list get_vnic_fc_if_list
       spn org za va zb vb zsa zsb f1 f2 f3)
    (workflow_post get_vnic_fc_if_list spn za va zb vb zsa zsb f1 f2 f3).
Proof.
  unfold configure_intersight_mds_zones.
  intros w o w' Hwf H.
  apply bind_inv in H as [(vs & w1 & H1 & H2) | [(n & H1 & ->) | (e & H1 & ->)]].
  - destruct (resolve_vhbas_returns _ _ _ _ _ H1) as (flt & vnics & E & ->).
    pose proof (logs_only_extends _ _ _ _ (logs_only_resolve_vhbas spn org) Hwf H1)
      as He1.
    assert (Hrest :
      sends
        (bind (for_each (configure_vhba switch spn za va zb vb f1)
                 (map vhba_dict vnics))
           (fun _ =>
              bind (stage_add_zones_to_zonesets switch za va zb vb zsa zsb f2)
                (fun _ => stage_activate_zonesets switch va vb zsa zsb f3)))
        (upto (workflow_requests spn za va zb vb zsa zsb f1 f2 f3 vnics))).
    { unfold workflow_requests.
      eapply sends_upto_bind;
        [apply sends_for_each; intros v; apply sends_configure_vhba
        | intros _ | reflexivity].
      eapply sends_upto_bind;
        [apply sends_stage_add | intros _; apply sends_stage_activate
        | reflexivity]. }
    destruct (Hrest _ _ _ (extends_wf _ _ _ He1) H2) as (l & He & Hq).
    exists l; split; [exact (extends_trans _ _ _ _ _ He1 He)|].
    right; eauto.
  - exists []; split;
      [exact (logs_only_extends _ _ _ _ (logs_only_resolve_vhbas spn org) Hwf H1)|].
    left; split; [reflexivity | exact I].
  - exists []; split;
      [exact (logs_only_extends _ _ _ _ (logs_only_resolve_vhbas spn org) Hwf H1)|].
    left; split; [reflexivity | exact I].
Qed.

End BridgeFacts.

(** * The claims *)

(** ** The fabric client: classification of responses *)

Lemma errors_app tr1 tr2 : errors (tr1 ++ tr2) = errors tr1 ++ errors tr2.
Proof.
  induction tr1 as [|e tr1 IH]; simpl; [reflexivity|].
  destruct e as [[] fmt args|f rq]; simpl; rewrite IH; reflexivity.
Qed.

Lemma no_exit_ret {A} (a : A) : no_exit (ret a).
Proof. intros w o w' n H; inversion H; discriminate. Qed.

Lemma no_exit_raise {A} e : no_exit (@raise A e).
Proof. intros w o w' n H; inversion H; discriminate. Qed.

Lemma no_exit_emit e : no_exit (emit e).
Proof. intros w o w' n H; inversion H; discriminate. Qed.

Lemma no_exit_bind {A B} (c : M A) (k : A -> M B) :
  no_exit c -> (forall a, no_exit (k a)) -> no_exit (bind c k).
Proof.
  intros Hc Hk w o w' n H.
  apply bind_inv in H as [(a & w1 & H1 & H2) | [(m & H1 & ->) | (e & H1 & ->)]].
  - eapply Hk; eassumption.
  - exfalso; eapply Hc; [eassumption | reflexivity].
  - discriminate.
Qed.

Lemma no_exit_getitem x k : no_exit (getitem x k).
Proof.
  destruct x; simpl; try apply no_exit_raise.
  destruct (dict_get k fields); [apply no_exit_ret | apply no_exit_raise].
Qed.

Lemma no_exit_contains k x : no_exit (contains k x).
Proof. destruct x; simpl; first [apply no_exit_ret | apply no_exit_raise]. Qed.

Lemma no_exit_response_json r : no_exit (response_json r).
Proof.
  unfold response_json; destruct (content r);
    [apply no_exit_ret | apply no_exit_raise].
Qed.

Lemma no_exit_response_output r : no_exit (response_output r).
Proof.
  unfold response_output.
  repeat (apply no_exit_bind; [|intros ?]);
    first [apply no_exit_response_json | apply no_exit_getitem].
Qed.

Lemma no_exit_after_response_200 me i t r :
  status_code r = 200 -> no_exit (after_response me i t r).
Proof.
  intros Hs. unfold after_response, logger_info, logger_debug, logger_error.
  rewrite Hs; cbn [Z.eqb Pos.eqb].
  repeat first
    [ apply no_exit_ret | apply no_exit_emit
    | apply no_exit_response_json | apply no_exit_response_output
    | apply no_exit_contains | apply no_exit_getitem
    | apply no_exit_bind; [|intros ?]
    | match goal with |- no_exit (if ?b then _ else _) => destruct b end ].
Qed.

Lemma response_output_path r j out w :
  content r = Some j ->
  json_path ["ins_api"; "outputs"; "output"] j = Some out ->
  response_output r w = (Ret out, w).
Proof.
  intros Hc Hp. unfold response_output, response_json, bind. rewrite Hc.
  unfold ret at 1.
  destruct j as [| | | | |f1]; try discriminate. simpl in Hp |- *.
  destruct (dict_get "ins_api" f1) as [[| | | | |f2]|]; try discriminate.
  unfold ret at 1. simpl in Hp |- *.
  destruct (dict_get "outputs" f2) as [[| | | | |f3]|]; try discriminate.
  unfold ret at 1. simpl in Hp |- *.
  destruct (dict_get "output" f3) as [x|]; try discriminate.
  inversion Hp; subst. reflexivity.
Qed.

Section PostRequestClaims.
Variable switch : list event -> fabric -> http_request -> reply.

Lemma post_request_answer f i t w r :
  wf w ->
  reply_to switch w f i t = Answer r ->
  post_request switch f i t w =
    after_response (client_of f w) i t r
      (world_after w f (envelope i t)
         (sending_logs (client_of f w) i t
            ++ [EPost f (request_of (client_of f w) i t)])).
Proof.
  intros Hwf Hr. rewrite post_request_unfold by assumption.
  unfold reply_to in Hr. rewrite Hr. reflexivity.
Qed.

Lemma trace_world_after w f p evs :
  trace (world_after w f p evs) = trace w ++ evs.
Proof. destruct f; reflexivity. Qed.


(** C2, as the code has it: only status 200 passes.  With status 200
    [post_request] never exits, and returns the response when the body has
    an output dict; with any other status, 2xx or not, the run ends there:
    the failure is logged and the process exits with 1, or decoding the body
    for that log record raises. *)
Theorem C2_only_status_200_passes
  (f : fabric) (i t : string) (w : world) (r : Response)
  (o : outcome Response) (w' : world) :
  wf w ->
  reply_to switch w f i t = Answer r ->
  post_request switch f i t w = (o, w') ->
  (status_code r = 200 ->
     (forall n, o <> Exit n)
     /\ (forall j output,
           content r = Some j ->
           json_path ["ins_api"; "outputs"; "output"] j = Some (JObj output) ->
           o = Ret r))
  /\ (status_code r <> 200 ->
        match content r with
        | Some j =>
            o = Exit 1
            /\ errors (trace w') =
                 errors (trace w)
                   ++ [("POST request failed with status code: '%s' and response content: '%s'.\n",
                        [JNum (status_code r); j])]
        | None => o = Raise JSONDecodeError
        end).
Proof.
  intros Hwf Hr H.
  rewrite (post_request_answer _ _ _ _ _ Hwf Hr) in H.
  split.
  - intros Hs. split.
    + intros n. eapply no_exit_after_response_200; eassumption.
    + intros j output Hc Hp. revert H.
      unfold after_response, logger_info, logger_debug, logger_error.
      rewrite Hs; cbn [Z.eqb Pos.eqb].
      unfold bind, emit, response_json, contains, getitem. rewrite Hc.
      unfold ret at 1.
      rewrite !(response_output_path r j (JObj output)) by assumption.
      unfold ret at 1. cbv beta iota.
      destruct (dict_get "code" output) as [code|] eqn:Hcode.
      * rewrite !(response_output_path r j (JObj output)) by assumption.
        unfold ret at 1. cbv beta iota. rewrite Hcode.
        destruct (is_str "200" code); cbn [negb].
        -- unfold ret. intros H; inversion H; reflexivity.
        -- rewrite !(response_output_path r j (JObj output)) by assumption.
           unfold ret. intros H; inversion H; reflexivity.
      * unfold ret. intros H; inversion H; reflexivity.
  - intros Hs. revert H.
    unfold after_response, logger_info, logger_debug, logger_error.
    apply Z.eqb_neq in Hs. rewrite Hs.
    unfold bind, emit, response_json, sys_exit.
    destruct (content r) as [j|].
    + unfold ret. intros H; inversion H; subst; clear H. split; [reflexivity|].
      cbn [trace]. rewrite trace_world_after, !errors_app. cbn.
      rewrite !app_nil_r. reflexivity.
    + unfold raise. intros H; inversion H; reflexivity.
Qed.

(** C9, as the code has it: [payload] is an alias of [self.api_payload], so
    a request overwrites the two variable fields of the template kept on the
    client and leaves everything else alone; what goes on the wire is the
    template with this request's own input and type. *)
Theorem C9_request_overwrites_client_payload
  (f : fabric) (i t : string) (w : world) (o : outcome Response) (w' : world) :
  wf w ->
  post_request switch f i t w = (o, w') ->
  client_of f w' = with_api_payload (client_of f w) (envelope i t)
  /\ client_of (other f) w' = client_of (other f) w
  /\ sent (trace w') = sent (trace w) ++ [(f, envelope i t)].
Proof.
  intros Hwf H.
  destruct (post_request_run _ _ _ _ _ _ _ Hwf H) as (logs & -> & Hs).
  destruct f; simpl; repeat split; rewrite sent_app; simpl; rewrite Hs; reflexivity.
Qed.

End PostRequestClaims.

Lemma bench_world_wf : wf bench_world.
Proof. repeat split. Defined.



(** A 201 answer is a 2xx answer, and the run exits on it. *)
Lemma C2_counterexample :
  (200 <=? 201) && (201 <? 300) = true
  /\ fst (post_request (switch_status 201) FabA "zone name z vsan 100" "cli_conf"
            bench_world) = Exit 1.
Proof. split; vm_compute; reflexivity. Qed.

Lemma C2_witness :
  (status_code bench_answer_ok = 200 ->
     (forall n, fst bench_post_ok <> Exit n)
     /\ (forall j output,
           content bench_answer_ok = Some j ->
           json_path ["ins_api"; "outputs"; "output"] j = Some (JObj output) ->
           fst bench_post_ok = Ret bench_answer_ok))
  /\ (status_code bench_answer_ok <> 200 ->
        match content bench_answer_ok with
        | Some j =>
            fst bench_post_ok = Exit 1
            /\ errors (trace (snd bench_post_ok)) =
                 errors (trace bench_world)
                   ++ [("POST request failed with status code: '%s' and response content: '%s'.\n",
                        [JNum (status_code bench_answer_ok); j])]
        | None => fst bench_post_ok = Raise JSONDecodeError
        end).
Proof.
  apply (C2_only_status_200_passes switch_ok FabA "zone name z vsan 100"
           "cli_conf" bench_world bench_answer_ok
           (fst bench_post_ok) (snd bench_post_ok));
    [exact bench_world_wf | reflexivity | vm_compute; reflexivity].
Defined.

(** After one request the payload kept on the client is no longer the
    template that [__init__] stored. *)
Lemma C9_counterexample :
  api_payload
    (mds_client_a
       (snd (post_request switch_ok FabA "zoneset activate name zs-a vsan 100"
               "cli_conf" bench_world)))
  <> api_payload (mds_client_a bench_world).
Proof. vm_compute. discriminate. Qed.

Lemma C9_witness :
  client_of FabA (snd bench_post_ok)
  = with_api_payload (client_of FabA bench_world)
      (envelope "zone name z vsan 100" "cli_conf")
  /\ client_of (other FabA) (snd bench_post_ok) = client_of (other FabA) bench_world
  /\ sent (trace (snd bench_post_ok))
     = sent (trace bench_world)
         ++ [(FabA, envelope "zone name z vsan 100" "cli_conf")].
Proof.
  apply (C9_request_overwrites_client_payload switch_ok FabA
           "zone name z vsan 100" "cli_conf" bench_world (fst bench_post_ok));
    [exact bench_world_wf | vm_compute; reflexivity].
Defined.

(** ** The orchestrator *)

Lemma prefix_app_split {X} (l a b : list X) :
  l `prefix_of` a ++ b ->
  exists l1 l2,
    l = l1 ++ l2 /\ l1 `prefix_of` a /\ l2 `prefix_of` b
    /\ (l2 <> [] -> l1 = a) /\ (l = a ++ b -> l1 = a /\ l2 = b).
Proof.
  revert l; induction a as [|x a IH]; intros l Hp; simpl in Hp.
  - exists [], l. split; [reflexivity|]. split; [apply prefix_nil|].
    split; [assumption|]. split; [reflexivity|]. intros ->; split; reflexivity.
  - destruct l as [|y l].
    + exists [], []. split; [reflexivity|]. split; [apply prefix_nil|].
      split; [apply prefix_nil|]. split; [congruence | discriminate].
    + pose proof (prefix_cons_inv_1 _ _ _ _ Hp) as ->.
      apply prefix_cons_inv_2 in Hp.
      destruct (IH l Hp) as (l1 & l2 & -> & H1 & H2 & H3 & H4).
      exists (x :: l1), l2. split; [reflexivity|].
      split; [apply prefix_cons; assumption|]. split; [assumption|]. split.
      * intros Hne; rewrite (H3 Hne); reflexivity.
      * intros Heq. simpl in Heq. injection Heq as Heq.
        destruct (H4 Heq) as [-> ->]; split; reflexivity.
Qed.

Lemma prefix_pair {X} (l : list X) a b :
  l `prefix_of` [a; b] -> l = [] \/ l = [a] \/ l = [a; b].
Proof.
  intros Hp. destruct l as [|x [|y [|z l]]].
  - left; reflexivity.
  - right; left. rewrite (prefix_cons_inv_1 _ _ _ _ Hp); reflexivity.
  - right; right. rewrite (prefix_cons_inv_1 _ _ _ _ Hp).
    apply prefix_cons_inv_2 in Hp.
    rewrite (prefix_cons_inv_1 _ _ _ _ Hp); reflexivity.
  - do 2 apply prefix_cons_inv_2 in Hp. apply prefix_nil_inv in Hp. discriminate.
Qed.

Lemma prefix_Forall {X} (P : X -> Prop) (l hi : list X) :
  l `prefix_of` hi -> Forall P hi -> Forall P l.
Proof. intros [k ->] H. apply Forall_app in H as [H _]. exact H. Qed.

(** Each request for an adapter goes to the fabric named by its tag, with
    the zone and the VSAN of that fabric. *)
Lemma adapter_requests_by_fabric spn za va zb vb flag v r :
  r ∈ adapter_requests spn za va zb vb flag v ->
  (vnic_placement_switch_id v = "A" /\ fst r = FabA
   /\ request_of_adapter spn v FabA za va r)
  \/ (vnic_placement_switch_id v = "B" /\ fst r = FabB
      /\ request_of_adapter spn v FabB zb vb r).
Proof.
  unfold adapter_requests, adapter_requests_on, request_of_adapter.
  destruct (String.eqb (vnic_placement_switch_id v) "A") eqn:EA;
    [|destruct (String.eqb (vnic_placement_switch_id v) "B") eqn:EB].
  - apply String.eqb_eq in EA. intros H. left. split; [assumption|].
    destruct (truthy flag); [|destruct (is_False flag);
      [destruct (nonempty (vnic_wwpn v))|]];
      repeat (apply elem_of_cons in H as [-> | H]); try (apply elem_of_nil in H; tauto);
      split; auto.
  - apply String.eqb_eq in EB. intros H. right. split; [assumption|].
    destruct (truthy flag); [|destruct (is_False flag);
      [destruct (nonempty (vnic_wwpn v))|]];
      repeat (apply elem_of_cons in H as [-> | H]); try (apply elem_of_nil in H; tauto);
      split; auto.
  - intros H; apply elem_of_nil in H; tauto.
Qed.

Lemma request_of_adapter_not_zoneset spn v f zone vsan r :
  request_of_adapter spn v f zone vsan r -> is_zoneset_command r = false.
Proof. intros [-> | [-> | ->]]; reflexivity. Qed.

Lemma adapter_requests_not_zoneset spn za va zb vb flag vnics :
  Forall (fun r => is_zoneset_command r = false)
    (flat_map (adapter_requests spn za va zb vb flag) vnics).
Proof.
  apply Forall_forall. intros r Hr.
  apply list_elem_of_In, in_flat_map in Hr as (v & _ & Hr).
  apply list_elem_of_In in Hr.
  destruct (adapter_requests_by_fabric _ _ _ _ _ _ _ _ Hr)
    as [(_ & _ & H) | (_ & _ & H)];
    eapply request_of_adapter_not_zoneset; eassumption.
Qed.

Section BridgeClaims.
Variable switch : list event -> fabric -> http_request -> reply.
Variable get_organization_organization_list : string -> api_result string.
Variable get_server_profile_list : string -> api_result string.
Variable get_vnic_fc_if_list : string -> api_result VnicFcIf.

Abbreviation workflow :=
  (configure_intersight_mds_zones switch get_organization_organization_list
     get_server_profile_list get_vnic_fc_if_list).

(** The shape of what a full run sends. *)
Lemma workflow_run_shape spn org za va zb vb zsa zsb f1 f2 f3 w o w' :
  wf w ->
  workflow spn org za va zb vb zsa zsb f1 f2 f3 w = (o, w') ->
  exists l,
    sent (trace w') = sent (trace w) ++ l
    /\ ((l = [] /\ aborted o)
        \/ exists flt vnics l_adapters l_add l_activate,
             get_vnic_fc_if_list flt = ApiResults vnics
             /\ l = l_adapters ++ l_add ++ l_activate
             /\ l_adapters `prefix_of`
                  flat_map (adapter_requests spn za va zb vb f1) vnics
             /\ l_add `prefix_of` stage_add_requests za va zb vb zsa zsb f2
             /\ l_activate `prefix_of` stage_activate_requests va vb zsa zsb f3
             /\ (l_add ++ l_activate <> [] ->
                 l_adapters = flat_map (adapter_requests spn za va zb vb f1) vnics)
             /\ (l_activate <> [] ->
                 l_add = stage_add_requests za va zb vb zsa zsb f2)
             /\ (returned o ->
                 l_adapters = flat_map (adapter_requests spn za va zb vb f1) vnics
                 /\ l_add = stage_add_requests za va zb vb zsa zsb f2
                 /\ l_activate = stage_activate_requests va vb zsa zsb f3)).
Proof.
  intros Hwf H.
  destruct (sends_workflow switch get_organization_organization_list
              get_server_profile_list get_vnic_fc_if_list
              spn org za va zb vb zsa zsb f1 f2 f3 w o w' Hwf H)
    as (l & [_ Hs] & Hq).
  exists l; split; [exact Hs|].
  destruct Hq as [Hq | (flt & vnics & E & Hp & Hr)]; [left; exact Hq | right].
  unfold workflow_requests in Hp, Hr.
  destruct (prefix_app_split _ _ _ Hp)
    as (la & lrest & -> & Hla & Hrest & Hfull & Hall).
  destruct (prefix_app_split _ _ _ Hrest)
    as (ladd & lact & -> & Hladd & Hlact & Hfull' & Hall').
  exists flt, vnics, la, ladd, lact.
  do 7 (split; [first [assumption | reflexivity]|]).
  intros Ho. destruct (Hall (Hr Ho)) as [Hx Hy].
  destruct (Hall' Hy) as [Hy1 Hy2]. auto.
Qed.

Lemma stage_add_requests_zoneset za va zb vb zsa zsb f2 :
  Forall (fun r => is_zoneset_command r = true /\ is_alias_creation r = false)
    (stage_add_requests za va zb vb zsa zsb f2).
Proof.
  unfold stage_add_requests, add_zones_requests.
  destruct (truthy f2), zsa, zsb; repeat constructor.
Qed.

Lemma stage_activate_requests_zoneset va vb zsa zsb f3 :
  Forall (fun r => is_zoneset_command r = true /\ is_alias_creation r = false)
    (stage_activate_requests va vb zsa zsb f3).
Proof.
  unfold stage_activate_requests, activate_requests.
  destruct (truthy f3), zsa, zsb; repeat constructor.
Qed.

Lemma stage_add_requests_a_then_b za va zb vb zsa zsb f2 l :
  l `prefix_of` stage_add_requests za va zb vb zsa zsb f2 ->
  a_then_b (config_request FabA (add_zone_command za (str_of zsa) va))
           (config_request FabB (add_zone_command zb (str_of zsb) vb)) l.
Proof.
  unfold stage_add_requests, add_zones_requests, a_then_b.
  destruct (truthy f2), zsa, zsb; intros Hp;
    first [apply prefix_pair; exact Hp | left; apply prefix_nil_inv; exact Hp].
Qed.

Lemma stage_activate_requests_a_then_b va vb zsa zsb f3 l :
  l `prefix_of` stage_activate_requests va vb zsa zsb f3 ->
  a_then_b (config_request FabA (activate_command (str_of zsa) va))
           (config_request FabB (activate_command (str_of zsb) vb)) l.
Proof.
  unfold stage_activate_requests, activate_requests, a_then_b.
  destruct (truthy f3), zsa, zsb; intros Hp;
    first [apply prefix_pair; exact Hp | left; apply prefix_nil_inv; exact Hp].
Qed.

(** C1: every request made for an adapter goes to the client of the fabric
    that its tag names, with the zone and the VSAN of that fabric.  The
    requests of a run are, in order, the requests for the adapters that the
    inventory returned (all of them when the run returns, the first ones when
    it stops) and then those of the zoneset stages. *)
Theorem C1_adapters_dispatched_by_fabric_tag
  spn org za va zb vb zsa zsb f1 f2 f3 w o w' :
  wf w ->
  workflow spn org za va zb vb zsa zsb f1 f2 f3 w = (o, w') ->
  exists l,
    sent (trace w') = sent (trace w) ++ l
    /\ ((l = [] /\ aborted o)
        \/ exists flt vnics l_adapters l_stages,
             get_vnic_fc_if_list flt = ApiResults vnics
             /\ l = l_adapters ++ l_stages
             /\ l_adapters `prefix_of`
                  flat_map (adapter_requests spn za va zb vb f1) vnics
             /\ (returned o ->
                 l_adapters = flat_map (adapter_requests spn za va zb vb f1) vnics)
             /\ Forall (fun r => is_zoneset_command r = true) l_stages
             /\ forall v r,
                  v ∈ vnics ->
                  r ∈ adapter_requests spn za va zb vb f1 v ->
                  (vnic_placement_switch_id v = "A" /\ fst r = FabA
                   /\ request_of_adapter spn v FabA za va r)
                  \/ (vnic_placement_switch_id v = "B" /\ fst r = FabB
                      /\ request_of_adapter spn v FabB zb vb r)).
Proof.
  intros Hwf H.
  destruct (workflow_run_shape _ _ _ _ _ _ _ _ _ _ _ _ _ _ Hwf H)
    as (l & Hs & Hl).
  exists l; split; [exact Hs|].
  destruct Hl as [Hl | (flt & vnics & la & ladd & lact & E & -> & Hla & Hladd
                        & Hlact & _ & _ & Hret)];
    [left; exact Hl | right].
  exists flt, vnics, la, (ladd ++ lact).
  do 3 (split; [first [assumption | reflexivity]|]).
  split; [|split].
  - intros Ho. destruct (Hret Ho) as [-> _]; reflexivity.
  - apply Forall_app; split.
    + eapply prefix_Forall; [exact Hladd|].
      eapply Forall_impl; [apply stage_add_requests_zoneset|].
      intros r [Hr _]; exact Hr.
    + eapply prefix_Forall; [exact Hlact|].
      eapply Forall_impl; [apply stage_activate_requests_zoneset|].
      intros r [Hr _]; exact Hr.
  - intros v r _ Hr. eapply adapter_requests_by_fabric; eassumption.
Qed.

Lemma adapter_requests_flag_false spn za va zb vb v r :
  r ∈ adapter_requests spn za va zb vb (PyBool false) v ->
  is_alias_creation r = false
  /\ exists f zone vsan,
       r = config_request f (member_pwwn_command zone vsan (vnic_wwpn v)).
Proof.
  unfold adapter_requests, adapter_requests_on; cbn [truthy is_False].
  destruct (String.eqb (vnic_placement_switch_id v) "A");
    [|destruct (String.eqb (vnic_placement_switch_id v) "B")];
    try destruct (nonempty (vnic_wwpn v)); intros H;
    repeat (apply elem_of_cons in H as [-> | H]);
    try (apply elem_of_nil in H; tauto);
    (split; [reflexivity | eauto]).
Qed.

Lemma adapter_requests_flag_true spn za va zb vb v r :
  r ∈ adapter_requests spn za va zb vb (PyBool true) v ->
  exists f zone vsan,
    r = config_request f
          (alias_command (device_alias_of spn v) (vnic_wwpn v))
    \/ r = config_request f
             (member_alias_command zone vsan (device_alias_of spn v)).
Proof.
  unfold adapter_requests, adapter_requests_on; cbn [truthy is_False].
  destruct (String.eqb (vnic_placement_switch_id v) "A");
    [|destruct (String.eqb (vnic_placement_switch_id v) "B")]; intros H;
    repeat (apply elem_of_cons in H as [-> | H]);
    try (apply elem_of_nil in H; tauto); eauto.
  Unshelve. all: exact "".
Qed.

(** C8: in each zoneset stage the request to fabric B comes after the one to
    fabric A, in the two standalone operations and in the full run, where the
    stage requests follow the requests for the adapters. *)
Theorem C8_fabric_a_before_fabric_b
  spn org za va zb vb zsa zsb f1 f2 f3 w o w' :
  wf w ->
  workflow spn org za va zb vb zsa zsb f1 f2 f3 w = (o, w') ->
  (exists l_adapters l_add l_activate,
     sent (trace w') = sent (trace w) ++ l_adapters ++ l_add ++ l_activate
     /\ Forall (fun r => is_zoneset_command r = false) l_adapters
     /\ a_then_b (config_request FabA (add_zone_command za (str_of zsa) va))
                 (config_request FabB (add_zone_command zb (str_of zsb) vb)) l_add
     /\ a_then_b (config_request FabA (activate_command (str_of zsa) va))
                 (config_request FabB (activate_command (str_of zsb) vb))
                 l_activate
     /\ (l_activate <> [] ->
         l_add = stage_add_requests za va zb vb zsa zsb f2))
  /\ (forall zoneset_a vsan_a zoneset_b vsan_b w1 o1 w1',
        wf w1 ->
        activate_zonesets switch zoneset_a vsan_a zoneset_b vsan_b w1 = (o1, w1') ->
        exists l1,
          sent (trace w1') = sent (trace w1) ++ l1
          /\ a_then_b (config_request FabA (activate_command zoneset_a vsan_a))
                      (config_request FabB (activate_command zoneset_b vsan_b)) l1
          /\ (returned o1 ->
              l1 = [config_request FabA (activate_command zoneset_a vsan_a);
                    config_request FabB (activate_command zoneset_b vsan_b)]))
  /\ (forall zoneset_a zone_a vsan_a zoneset_b zone_b vsan_b w1 o1 w1',
        wf w1 ->
        add_zones_to_zonesets switch zoneset_a zone_a vsan_a
          zoneset_b zone_b vsan_b w1 = (o1, w1') ->
        exists l1,
          sent (trace w1') = sent (trace w1) ++ l1
          /\ a_then_b
               (config_request FabA (add_zone_command zone_a zoneset_a vsan_a))
               (config_request FabB (add_zone_command zone_b zoneset_b vsan_b)) l1
          /\ (returned o1 ->
              l1 = [config_request FabA (add_zone_command zone_a zoneset_a vsan_a);
                    config_request FabB (add_zone_command zone_b zoneset_b vsan_b)])).
Proof.
  intros Hwf H. split; [|split].
  - destruct (workflow_run_shape _ _ _ _ _ _ _ _ _ _ _ _ _ _ Hwf H)
      as (l & Hs & Hl).
    destruct Hl as [[-> _] | (flt & vnics & la & ladd & lact & E & -> & Hla & Hladd
                          & Hlact & _ & Hfull & _)].
    + exists [], [], []. split; [exact Hs|]. split; [constructor|].
      split; [left; reflexivity|]. split; [left; reflexivity|]. congruence.
    + exists la, ladd, lact. split; [exact Hs|]. split; [|split; [|split]].
      * eapply prefix_Forall; [exact Hla | apply adapter_requests_not_zoneset].
      * eapply stage_add_requests_a_then_b; eassumption.
      * eapply stage_activate_requests_a_then_b; eassumption.
      * exact Hfull.
  - intros zoneset_a vsan_a zoneset_b vsan_b w1 o1 w1' Hwf1 H1.
    destruct (sends_activate_zonesets switch zoneset_a vsan_a zoneset_b vsan_b
                w1 o1 w1' Hwf1 H1) as (l1 & [_ Hs1] & Hp & Hr).
    exists l1. split; [exact Hs1|]. split; [apply prefix_pair; exact Hp | exact Hr].
  - intros zoneset_a zone_a vsan_a zoneset_b zone_b vsan_b w1 o1 w1' Hwf1 H1.
    destruct (sends_add_zones_to_zonesets switch zoneset_a zone_a vsan_a
                zoneset_b zone_b vsan_b w1 o1 w1' Hwf1 H1)
      as (l1 & [_ Hs1] & Hp & Hr).
    exists l1. split; [exact Hs1|]. split; [apply prefix_pair; exact Hp | exact Hr].
Qed.

(** C7: the alias of an adapter is the profile name, a hyphen, the fabric
    tag, a hyphen and the adapter name; computing it reads nothing but these
    and changes nothing, and the alias-creation requests of both operations
    carry exactly this string for each adapter, wherever it stands in the
    list. *)
Theorem C7_device_alias_format spn (v : VnicFcIf) (vnics : list VnicFcIf) :
  (forall w,
     device_alias_fstring spn (vhba_dict v) w
     = (Ret (spn +:+ "-" +:+ vnic_placement_switch_id v +:+ "-" +:+ vnic_name v), w))
  /\ device_alias_of spn v
     = spn +:+ "-" +:+ vnic_placement_switch_id v +:+ "-" +:+ vnic_name v
  /\ (forall w o w',
        wf w ->
        add_device_aliases_from_server_profile_name_and_vhba switch spn
          (map vhba_dict vnics) w = (o, w') ->
        exists l,
          sent (trace w') = sent (trace w) ++ l
          /\ l `prefix_of` flat_map (alias_requests spn) vnics
          /\ (returned o -> l = flat_map (alias_requests spn) vnics))
  /\ (forall za va zb vb w o w',
        wf w ->
        for_each (configure_vhba switch spn za va zb vb (PyBool true))
          (map vhba_dict vnics) w = (o, w') ->
        exists l,
          sent (trace w') = sent (trace w) ++ l
          /\ l `prefix_of`
               flat_map (adapter_requests spn za va zb vb (PyBool true)) vnics
          /\ (returned o ->
              l = flat_map (adapter_requests spn za va zb vb (PyBool true)) vnics)).
Proof.
  split; [|split; [|split]].
  - intros w. reflexivity.
  - reflexivity.
  - intros w o w' Hwf H.
    destruct (sends_add_device_aliases switch spn vnics w o w' Hwf H)
      as (l & [_ Hs] & Hp & Hr).
    exists l; auto.
  - intros za va zb vb w o w' Hwf H.
    destruct (sends_for_each _ vhba_dict _ vnics
                (fun x => sends_configure_vhba switch spn za va zb vb
                            (PyBool true) x) w o w' Hwf H)
      as (l & [_ Hs] & Hp & Hr).
    exists l; auto.
Qed.

Lemma for_each_app {A} (body : A -> M unit) (l1 l2 : list A) w :
  for_each body (l1 ++ l2) w =
    match for_each body l1 w with
    | (Ret _, w1) => for_each body l2 w1
    | (Exit n, w1) => (Exit n, w1)
    | (Raise e, w1) => (Raise e, w1)
    end.
Proof.
  revert w; induction l1 as [|x l1 IH]; intros w; simpl; [reflexivity|].
  unfold bind. destruct (body x w) as [[[]|n|e] w1]; [apply IH | reflexivity ..].
Qed.

(** The loop body on an adapter whose tag is neither "A" nor "B". *)
Lemma configure_vhba_unknown_fabric spn za va zb vb (b : bool) v w :
  vnic_placement_switch_id v <> "A" ->
  vnic_placement_switch_id v <> "B" ->
  exists logs,
    configure_vhba switch spn za va zb vb (PyBool b) (vhba_dict v) w
    = (Raise (KeyError "fabric"), logged w logs)
    /\ errors logs = [] /\ sent logs = [].
Proof.
  intros HA HB.
  apply String.eqb_neq in HA, HB.
  unfold configure_vhba, device_alias_fstring, unknown_fabric_type,
    logger_info, logger_error.
  rewrite !vhba_item_fabric, !vhba_item_name, !vhba_item_wwpn, !vhba_item_no_fabric.
  destruct b; cbn [truthy is_False].
  - unfold bind, ret, raise, emit, self. cbv beta iota. rewrite !HA, !HB.
    cbv beta iota.
    eexists; split; [unfold logged; reflexivity|]. split; reflexivity.
  - unfold bind, ret, raise, emit, self. cbv beta iota. rewrite !HA, !HB.
    cbv beta iota.
    eexists; split; [unfold logged; cbn [trace mds_client_a mds_client_b];
                     rewrite <- app_assoc; reflexivity|].
    split; reflexivity.
Qed.

(** C10: the error branch for an unknown fabric reads the keys ["fabric"]
    and ["name"], which the adapter dicts do not have (theirs are
    ["vhba_fabric"] and ["vhba_name"]).  When the loop reaches such an
    adapter, evaluating the arguments of the error record raises
    [KeyError("fabric")]: the run ends there with that exception, no error
    is logged, [sys.exit(1)] is not reached and no request follows. *)
Theorem C10_unknown_fabric_raises_key_error
  spn org za va zb vb zsa zsb (b : bool) f2 f3
  (pre post : list VnicFcIf) (bad : VnicFcIf) (w w0 w1 : world) :
  resolve_vhbas get_organization_organization_list get_server_profile_list
    get_vnic_fc_if_list spn org w
  = (Ret (map vhba_dict (pre ++ bad :: post)), w0) ->
  for_each (configure_vhba switch spn za va zb vb (PyBool b))
    (map vhba_dict pre) w0 = (Ret tt, w1) ->
  vnic_placement_switch_id bad <> "A" ->
  vnic_placement_switch_id bad <> "B" ->
  vhba_dict bad !! "fabric" = None
  /\ vhba_dict bad !! "name" = None
  /\ vhba_dict bad !! "vhba_fabric" = Some (vnic_placement_switch_id bad)
  /\ vhba_dict bad !! "vhba_name" = Some (vnic_name bad)
  /\ exists logs,
       workflow spn org za va zb vb zsa zsb (PyBool b) f2 f3 w
       = (Raise (KeyError "fabric"), logged w1 logs)
       /\ errors logs = [] /\ sent logs = [].
Proof.
  intros Hres Hpre HA HB.
  do 4 (split; [reflexivity|]).
  destruct (configure_vhba_unknown_fabric spn za va zb vb b bad w1 HA HB)
    as (logs & Hbad & Herr & Hsent).
  exists logs. split; [|split; assumption].
  unfold configure_intersight_mds_zones, bind.
  rewrite Hres, map_app, for_each_app, Hpre.
  cbn [map for_each]. unfold bind. rewrite Hbad. reflexivity.
Qed.

Lemma stage_add_missing_name za va zb vb zsa zsb f2 w :
  truthy f2 = true ->
  zsa = None \/ zsb = None ->
  stage_add_zones_to_zonesets switch za va zb vb zsa zsb f2 w
  = (Exit 1,
     logged w
       [ELog INFO "Adding zones to zonesets in MDS\n" [];
        ELog ERROR "Zoneset names are required to add zones to zonesets in MDS\n" []]).
Proof.
  intros Hf Hn. unfold stage_add_zones_to_zonesets. rewrite Hf.
  assert (E : match zsa, zsb with Some _, Some _ => False | _, _ => True end)
    by (destruct Hn as [-> | ->]; [exact I | destruct zsa; exact I]).
  destruct zsa as [a|]; [destruct zsb as [c|]; [destruct E|]|];
    unfold bind, logger_info, logger_error, emit, sys_exit, logged;
    cbn [trace mds_client_a mds_client_b]; rewrite <- app_assoc; reflexivity.
Qed.

Lemma stage_add_skipped za va zb vb zsa zsb f2 w :
  truthy f2 = false ->
  stage_add_zones_to_zonesets switch za va zb vb zsa zsb f2 w
  = (Ret tt, logged w [ELog INFO "Skipping adding zones to zonesets in MDS\n" []]).
Proof.
  intros Hf. unfold stage_add_zones_to_zonesets. rewrite Hf. reflexivity.
Qed.

Lemma stage_activate_missing_name va vb zsa zsb f3 w :
  truthy f3 = true ->
  zsa = None \/ zsb = None ->
  stage_activate_zonesets switch va vb zsa zsb f3 w
  = (Exit 1,
     logged w
       [ELog ERROR "Zoneset names are required to add zones to zonesets in MDS\n" []]).
Proof.
  intros Hf Hn. unfold stage_activate_zonesets. rewrite Hf.
  assert (E : match zsa, zsb with Some _, Some _ => False | _, _ => True end)
    by (destruct Hn as [-> | ->]; [exact I | destruct zsa; exact I]).
  destruct zsa as [a|]; [destruct zsb as [c|]; [destruct E|]|]; reflexivity.
Qed.

(** With a zoneset name missing and a zoneset stage asked for, the two
    stages end in [sys.exit(1)] after logging the error, and send nothing. *)
Lemma stages_missing_name za va zb vb zsa zsb f2 f3 w o w' :
  truthy f2 = true \/ truthy f3 = true ->
  zsa = None \/ zsb = None ->
  bind (stage_add_zones_to_zonesets switch za va zb vb zsa zsb f2)
    (fun _ => stage_activate_zonesets switch va vb zsa zsb f3) w = (o, w') ->
  o = Exit 1
  /\ errors (trace w') =
       errors (trace w)
         ++ [("Zoneset names are required to add zones to zonesets in MDS\n", [])]
  /\ sent (trace w') = sent (trace w).
Proof.
  intros Hf Hn H. unfold bind in H.
  destruct (truthy f2) eqn:E2.
  - rewrite (stage_add_missing_name _ _ _ _ _ _ _ _ E2 Hn) in H.
    inversion H; subst. cbn [logged trace].
    rewrite errors_app, sent_app. cbn. rewrite app_nil_r. auto.
  - destruct Hf as [Hf | Hf]; [discriminate|].
    rewrite (stage_add_skipped _ _ _ _ _ _ _ _ E2) in H.
    rewrite (stage_activate_missing_name _ _ _ _ _ _ Hf Hn) in H.
    inversion H; subst. cbn [logged trace].
    rewrite !errors_app, !sent_app. cbn. rewrite !app_nil_r. auto.
Qed.

(** C4: when a zoneset stage is asked for and a zoneset name is missing, the
    run does not return and sends no zoneset command to either fabric; when
    the adapters have all been handled it ends in [sys.exit(1)], with the
    error logged and nothing sent after the last adapter's request. *)
Theorem C4_missing_zoneset_name_stops_before_stage
  spn org za va zb vb zsa zsb f1 f2 f3 w o w' :
  wf w ->
  truthy f2 = true \/ truthy f3 = true ->
  zsa = None \/ zsb = None ->
  workflow spn org za va zb vb zsa zsb f1 f2 f3 w = (o, w') ->
  aborted o
  /\ (exists l,
        sent (trace w') = sent (trace w) ++ l
        /\ Forall (fun r => is_zoneset_command r = false) l)
  /\ (forall vhbas_list w0 w1,
        resolve_vhbas get_organization_organization_list get_server_profile_list
          get_vnic_fc_if_list spn org w = (Ret vhbas_list, w0) ->
        for_each (configure_vhba switch spn za va zb vb f1) vhbas_list w0
        = (Ret tt, w1) ->
        o = Exit 1
        /\ errors (trace w') =
             errors (trace w1)
               ++ [("Zoneset names are required to add zones to zonesets in MDS\n",
                    [])]
        /\ sent (trace w') = sent (trace w1)).
Proof.
  intros Hwf Hf Hn H.
  split; [|split].
  - unfold configure_intersight_mds_zones in H.
    apply bind_inv in H as [(vs & w0 & _ & H) | [(n & _ & ->) | (e & _ & ->)]];
      [|exact I ..].
    apply bind_inv in H as [(u & w1 & _ & H) | [(n & _ & ->) | (e & _ & ->)]];
      [|exact I ..].
    destruct (stages_missing_name _ _ _ _ _ _ _ _ _ _ _ Hf Hn H) as (-> & _).
    exact I.
  - destruct (workflow_run_shape _ _ _ _ _ _ _ _ _ _ _ _ _ _ Hwf H)
      as (l & Hs & Hl).
    exists l; split; [exact Hs|].
    destruct Hl as [[-> _] | (flt & vnics & la & ladd & lact & E & -> & Hla & Hladd
                          & Hlact & _)]; [constructor|].
    assert (Eadd : stage_add_requests za va zb vb zsa zsb f2 = []).
    { unfold stage_add_requests. destruct (truthy f2); [|reflexivity].
      destruct Hn as [-> | ->]; [reflexivity | destruct zsa; reflexivity]. }
    assert (Eact : stage_activate_requests va vb zsa zsb f3 = []).
    { unfold stage_activate_requests. destruct (truthy f3); [|reflexivity].
      destruct Hn as [-> | ->]; [reflexivity | destruct zsa; reflexivity]. }
    rewrite Eadd in Hladd. rewrite Eact in Hlact.
    apply prefix_nil_inv in Hladd, Hlact. subst ladd lact.
    rewrite !app_nil_r.
    eapply prefix_Forall; [exact Hla | apply adapter_requests_not_zoneset].
  - intros vs w0 w1 Hres Hloop.
    unfold configure_intersight_mds_zones in H.
    unfold bind at 1 in H. rewrite Hres in H.
    unfold bind at 1 in H. rewrite Hloop in H.
    eapply stages_missing_name; eassumption.
Qed.

End BridgeClaims.

(** ** The claims at the bench *)

(** The scenario of [debug.py]: the run returns and sends, in order, alias
    and zone member for each adapter on its fabric, then both stages. *)
Example bench_run_requests :
  fst bench_run = Ret tt
  /\ sent (trace (snd bench_run))
     = [config_request FabA
          (alias_command "srv1-A-vHBA0" "20:00:00:25:B5:00:00:01");
        config_request FabA (member_alias_command "zone-a" "100" "srv1-A-vHBA0");
        config_request FabB
          (alias_command "srv1-B-vHBA1" "20:00:00:25:B5:00:00:02");
        config_request FabB (member_alias_command "zone-b" "200" "srv1-B-vHBA1");
        config_request FabA (add_zone_command "zone-a" "zs-a" "100");
        config_request FabB (add_zone_command "zone-b" "zs-b" "200");
        config_request FabA (activate_command "zs-a" "100");
        config_request FabB (activate_command "zs-b" "200")].
Proof. vm_compute. split; reflexivity. Qed.

Lemma C1_witness :
  wf bench_world
  /\ (exists l,
    sent (trace (snd bench_run)) = sent (trace bench_world) ++ l
    /\ ((l = [] /\ aborted (fst bench_run))
        \/ exists flt vnics l_adapters l_stages,
             bench_vnics flt = ApiResults vnics
             /\ l = l_adapters ++ l_stages
             /\ l_adapters `prefix_of`
                  flat_map (adapter_requests "srv1" "zone-a" "100" "zone-b" "200" (PyBool true)) vnics
             /\ (returned (fst bench_run) ->
                 l_adapters = flat_map (adapter_requests "srv1" "zone-a" "100" "zone-b" "200" (PyBool true)) vnics)
             /\ Forall (fun r => is_zoneset_command r = true) l_stages
             /\ forall v r,
                  v ∈ vnics ->
                  r ∈ adapter_requests "srv1" "zone-a" "100" "zone-b" "200" (PyBool true) v ->
                  (vnic_placement_switch_id v = "A" /\ fst r = FabA
                   /\ request_of_adapter "srv1" v FabA "zone-a" "100" r)
                  \/ (vnic_placement_switch_id v = "B" /\ fst r = FabB
                      /\ request_of_adapter "srv1" v FabB "zone-b" "200" r))).
Proof.
  split; [exact bench_world_wf|].
  apply (C1_adapters_dispatched_by_fabric_tag switch_ok bench_organizations
           bench_profiles bench_vnics "srv1" "default" "zone-a" "100" "zone-b" "200"
           (Some "zs-a") (Some "zs-b") (PyBool true) (PyBool true) (PyBool true)
           bench_world (fst bench_run) (snd bench_run));
    [exact bench_world_wf | vm_compute; reflexivity].
Defined.

Lemma C8_witness :
  wf bench_world
  /\ ((exists l_adapters l_add l_activate,
     sent (trace (snd bench_run)) = sent (trace bench_world) ++ l_adapters ++ l_add ++ l_activate
     /\ Forall (fun r => is_zoneset_command r = false) l_adapters
     /\ a_then_b (config_request FabA (add_zone_command "zone-a" (str_of (Some "zs-a")) "100"))
                 (config_request FabB (add_zone_command "zone-b" (str_of (Some "zs-b")) "200")) l_add
     /\ a_then_b (config_request FabA (activate_command (str_of (Some "zs-a")) "100"))
                 (config_request FabB (activate_command (str_of (Some "zs-b")) "200"))
                 l_activate
     /\ (l_activate <> [] ->
         l_add = stage_add_requests "zone-a" "100" "zone-b" "200" (Some "zs-a") (Some "zs-b") (PyBool true)))
  /\ (forall zoneset_a vsan_a zoneset_b vsan_b w1 o1 w1',
        wf w1 ->
        activate_zonesets switch_ok zoneset_a vsan_a zoneset_b vsan_b w1 = (o1, w1') ->
        exists l1,
          sent (trace w1') = sent (trace w1) ++ l1
          /\ a_then_b (config_request FabA (activate_command zoneset_a vsan_a))
                      (config_request FabB (activate_command zoneset_b vsan_b)) l1
          /\ (returned o1 ->
              l1 = [config_request FabA (activate_command zoneset_a vsan_a);
                    config_request FabB (activate_command zoneset_b vsan_b)]))
  /\ (forall zoneset_a zone_a vsan_a zoneset_b zone_b vsan_b w1 o1 w1',
        wf w1 ->
        add_zones_to_zonesets switch_ok zoneset_a zone_a vsan_a
          zoneset_b zone_b vsan_b w1 = (o1, w1') ->
        exists l1,
          sent (trace w1') = sent (trace w1) ++ l1
          /\ a_then_b
               (config_request FabA (add_zone_command zone_a zoneset_a vsan_a))
               (config_request FabB (add_zone_command zone_b zoneset_b vsan_b)) l1
          /\ (returned o1 ->
              l1 = [config_request FabA (add_zone_command zone_a zoneset_a vsan_a);
                    config_request FabB (add_zone_command zone_b zoneset_b vsan_b)]))).
Proof.
  split; [exact bench_world_wf|].
  apply (C8_fabric_a_before_fabric_b switch_ok bench_organizations
           bench_profiles bench_vnics "srv1" "default" "zone-a" "100" "zone-b" "200"
           (Some "zs-a") (Some "zs-b") (PyBool true) (PyBool true) (PyBool true)
           bench_world (fst bench_run) (snd bench_run));
    [exact bench_world_wf | vm_compute; reflexivity].
Defined.

Lemma C4_witness :
  wf bench_world
  /\ (truthy (PyBool true) = true \/ truthy (PyBool true) = true)
  /\ (@None string = None \/ Some "zs-b" = None)
  /\ (aborted (fst bench_run_unnamed)
  /\ (exists l,
        sent (trace (snd bench_run_unnamed)) = sent (trace bench_world) ++ l
        /\ Forall (fun r => is_zoneset_command r = false) l)
  /\ (forall vhbas_list w0 w1,
        resolve_vhbas bench_organizations bench_profiles
          bench_vnics "srv1" "default" bench_world = (Ret vhbas_list, w0) ->
        for_each (configure_vhba switch_ok "srv1" "zone-a" "100" "zone-b" "200" (PyBool true)) vhbas_list w0
        = (Ret tt, w1) ->
        (fst bench_run_unnamed) = Exit 1
        /\ errors (trace (snd bench_run_unnamed)) =
             errors (trace w1)
               ++ [("Zoneset names are required to add zones to zonesets in MDS\n",
                    [])]
        /\ sent (trace (snd bench_run_unnamed)) = sent (trace w1))).
Proof.
  split; [exact bench_world_wf|].
  split; [left; reflexivity|].
  split; [left; reflexivity|].
  apply (C4_missing_zoneset_name_stops_before_stage switch_ok bench_organizations
           bench_profiles bench_vnics "srv1" "default" "zone-a" "100" "zone-b" "200"
           None (Some "zs-b") (PyBool true) (PyBool true) (PyBool true)
           bench_world (fst bench_run_unnamed) (snd bench_run_unnamed));
    [exact bench_world_wf | left; reflexivity | left; reflexivity
    | vm_compute; reflexivity].
Defined.

Lemma C7_witness :
  device_alias_fstring "srv1" (vhba_dict vhba0) bench_world
  = (Ret "srv1-A-vHBA0", bench_world).
Proof.
  exact (proj1 (C7_device_alias_format switch_ok "srv1" vhba0 [vhba0; vhba1])
           bench_world).
Defined.

Lemma C10_witness :
  vnic_placement_switch_id vhba_stray <> "A"
  /\ vnic_placement_switch_id vhba_stray <> "B"
  /\ vhba_dict vhba_stray !! "fabric" = None
  /\ vhba_dict vhba_stray !! "name" = None
  /\ vhba_dict vhba_stray !! "vhba_fabric" = Some "None"
  /\ vhba_dict vhba_stray !! "vhba_name" = Some "vHBA2"
  /\ exists logs,
       bench_run_stray = (Raise (KeyError "fabric"), logged bench_stray_reached logs)
       /\ errors logs = [] /\ sent logs = [].
Proof.
  split; [discriminate|]. split; [discriminate|].
  apply (C10_unknown_fabric_raises_key_error switch_ok bench_organizations
           bench_profiles bench_vnics_stray "srv1" "default" "zone-a" "100"
           "zone-b" "200" (Some "zs-a") (Some "zs-b") true (PyBool true) (PyBool true)
           [vhba0] [vhba1] vhba_stray bench_world bench_stray_resolved
           bench_stray_reached);
    [vm_compute; reflexivity | vm_compute; reflexivity | discriminate | discriminate].
Defined.

(** C5, at an inventory with a stray adapter: the run stops at that adapter
    with [KeyError("fabric")]; the adapter after it gets no request, but no
    error is logged and the process does not end through [sys.exit(1)]. *)
Lemma C5_unknown_fabric_stops_without_logged_exit :
  fst bench_run_stray = Raise (KeyError "fabric")
  /\ errors (trace (snd bench_run_stray)) = []
  /\ sent (trace (snd bench_run_stray))
     = [config_request FabA
          (alias_command "srv1-A-vHBA0" "20:00:00:25:B5:00:00:01");
        config_request FabA
          (member_alias_command "zone-a" "100" "srv1-A-vHBA0")].
Proof. vm_compute. repeat split. Qed.

(** * Edge cases, invariants and whole runs *)

(** ** [post_request]: the other answers a switch can give *)

Section PostRequestEdges.
Variable switch : list event -> fabric -> http_request -> reply.

(** X1: when [requests.post] raises (timeout, connection refused) the
    exception is not caught: [post_request] ends with it, after the request
    went out once, without an error record and without [sys.exit]. *)
Theorem post_request_no_answer_propagates
  (f : fabric) (i t : string) (w : world) (msg : string) :
  wf w ->
  reply_to switch w f i t = NoAnswer msg ->
  exists w',
    post_request switch f i t w = (Raise (RequestException msg), w')
    /\ errors (trace w') = errors (trace w)
    /\ sent (trace w') = sent (trace w) ++ [(f, envelope i t)].
Proof.
  intros Hwf Hr. rewrite post_request_unfold by assumption.
  unfold reply_to in Hr. rewrite Hr.
  eexists; split; [reflexivity|].
  rewrite trace_world_after, errors_app, sent_app. cbn.
  rewrite !app_nil_r. auto.
Qed.

Lemma response_output_no_path r j w :
  content r = Some j ->
  json_path ["ins_api"; "outputs"; "output"] j = None ->
  exists e, response_output r w = (Raise e, w) /\ e <> JSONDecodeError.
Proof.
  intros Hc Hp. unfold response_output, response_json, bind. rewrite Hc.
  unfold ret at 1.
  destruct j as [| | | | |f1]; simpl in Hp |- *;
    try (eexists; split; [reflexivity | discriminate]).
  destruct (dict_get "ins_api" f1) as [j1|];
    [|eexists; split; [reflexivity | discriminate]].
  unfold ret at 1.
  destruct j1 as [| | | | |f2]; simpl in Hp |- *;
    try (eexists; split; [reflexivity | discriminate]).
  destruct (dict_get "outputs" f2) as [j2|];
    [|eexists; split; [reflexivity | discriminate]].
  unfold ret at 1.
  destruct j2 as [| | | | |f3]; simpl in Hp |- *;
    try (eexists; split; [reflexivity | discriminate]).
  destruct (dict_get "output" f3) as [j3|]; [discriminate|].
  eexists; split; [reflexivity | discriminate].
Qed.

(** X2: a 200 answer whose body cannot be used, because it is not JSON or
    has no [["ins_api"]["outputs"]["output"]], ends [post_request] with an
    uncaught exception, after the request was logged as successful: no error
    record is written and [sys.exit] is not called. *)
Theorem post_request_unusable_body_raises
  (f : fabric) (i t : string) (w : world) (r : Response)
  (o : outcome Response) (w' : world) :
  wf w ->
  reply_to switch w f i t = Answer r ->
  status_code r = 200 ->
  content r = None
  \/ (exists j, content r = Some j
                /\ json_path ["ins_api"; "outputs"; "output"] j = None) ->
  post_request switch f i t w = (o, w') ->
  (exists e, o = Raise e
             /\ (content r = None <-> e = JSONDecodeError))
  /\ errors (trace w') = errors (trace w)
  /\ exists before after,
       trace w' = before ++
         ELog INFO
           "POST request of type '%s' with input '%s' to MDS `%s`was successful.\n"
           [JStr (ip_address (client_of f w)); JStr t; JStr i] :: after.
Proof.
  intros Hwf Hr Hs Hbody H.
  rewrite (post_request_answer switch _ _ _ _ _ Hwf Hr) in H. revert H.
  unfold after_response, logger_info, logger_debug, logger_error.
  rewrite Hs; cbn [Z.eqb Pos.eqb].
  destruct Hbody as [Hc | (j & Hc & Hp)].
  - unfold bind, emit, response_json. rewrite Hc. unfold raise.
    intros H; inversion H; subst; clear H. split; [|split].
    + eexists; split; [reflexivity|]. split; auto.
    + cbn [trace]. rewrite trace_world_after, !errors_app. cbn.
      rewrite !app_nil_r. reflexivity.
    + cbn [trace]. do 2 eexists. reflexivity.
  - unfold bind, emit, response_json. rewrite Hc. unfold ret at 1.
    match goal with
    | |- context [response_output r ?W] =>
        destruct (response_output_no_path r j W Hc Hp) as (e & He & Hne);
        rewrite He
    end.
    intros H; inversion H; subst; clear H. split; [|split].
    + exists e; split; [reflexivity|]. split; [congruence|].
      intros ->; congruence.
    + cbn [trace]. rewrite trace_world_after, !errors_app. cbn.
      rewrite !app_nil_r. reflexivity.
    + cbn [trace]. do 2 eexists. rewrite <- app_assoc. reflexivity.
Qed.

(** X3: when the output of a 200 answer is a list, as it is for a request of
    several commands, the check for a command error looks for the string
    ["code"] among the elements: with no such element the response is
    returned and nothing is reported, whatever codes the elements carry;
    with such an element, reading [output["code"]] raises [TypeError]. *)
Theorem post_request_list_output_not_checked
  (f : fabric) (i t : string) (w : world) (r : Response)
  (j : json) (items : list json) (o : outcome Response) (w' : world) :
  wf w ->
  reply_to switch w f i t = Answer r ->
  status_code r = 200 ->
  content r = Some j ->
  json_path ["ins_api"; "outputs"; "output"] j = Some (JArr items) ->
  post_request switch f i t w = (o, w') ->
  o = (if existsb (is_str "code") items then Raise TypeError else Ret r)
  /\ errors (trace w') = errors (trace w).
Proof.
  intros Hwf Hr Hs Hc Hp H.
  rewrite (post_request_answer switch _ _ _ _ _ Hwf Hr) in H. revert H.
  unfold after_response, logger_info, logger_debug, logger_error.
  rewrite Hs; cbn [Z.eqb Pos.eqb].
  unfold bind, emit, response_json, contains, getitem. rewrite Hc.
  unfold ret at 1.
  rewrite !(response_output_path r j (JArr items)) by assumption.
  unfold ret at 1. cbv beta iota.
  destruct (existsb (is_str "code") items).
  - rewrite !(response_output_path r j (JArr items)) by assumption.
    unfold raise. intros H; inversion H; subst; clear H.
    split; [reflexivity|]. cbn [trace].
    rewrite trace_world_after, !errors_app. cbn. rewrite !app_nil_r. reflexivity.
  - unfold ret. intros H; inversion H; subst; clear H.
    split; [reflexivity|]. cbn [trace].
    rewrite trace_world_after, !errors_app. cbn. rewrite !app_nil_r. reflexivity.
Qed.

(** X4: a 200 answer whose output is a dict with no ["code"], or with the
    string ["200"] as its code, is returned without any error record. *)
Theorem post_request_success_logs_no_error
  (f : fabric) (i t : string) (w : world) (r : Response)
  (j : json) (output : list (string * json)) (o : outcome Response) (w' : world) :
  wf w ->
  reply_to switch w f i t = Answer r ->
  status_code r = 200 ->
  content r = Some j ->
  json_path ["ins_api"; "outputs"; "output"] j = Some (JObj output) ->
  match dict_get "code" output with
  | Some code => is_str "200" code = true
  | None => True
  end ->
  post_request switch f i t w = (o, w') ->
  o = Ret r
  /\ errors (trace w') = errors (trace w)
  /\ sent (trace w') = sent (trace w) ++ [(f, envelope i t)].
Proof.
  intros Hwf Hr Hs Hc Hp Hcode H.
  rewrite (post_request_answer switch _ _ _ _ _ Hwf Hr) in H. revert H.
  unfold after_response, logger_info, logger_debug, logger_error.
  rewrite Hs; cbn [Z.eqb Pos.eqb].
  unfold bind, emit, response_json, contains, getitem. rewrite Hc.
  unfold ret at 1.
  rewrite !(response_output_path r j (JObj output)) by assumption.
  unfold ret at 1. cbv beta iota.
  destruct (dict_get "code" output) as [code|] eqn:Ecode.
  - rewrite !(response_output_path r j (JObj output)) by assumption.
    unfold ret at 1. cbv beta iota. rewrite Ecode, Hcode. cbn [negb].
    unfold ret. intros H; inversion H; subst; clear H.
    split; [reflexivity|]. cbn [trace].
    rewrite !trace_world_after, !errors_app, !sent_app. cbn.
    rewrite !app_nil_r. auto.
  - unfold ret. intros H; inversion H; subst; clear H.
    split; [reflexivity|]. cbn [trace].
    rewrite !trace_world_after, !errors_app, !sent_app. cbn.
    rewrite !app_nil_r. auto.
Qed.

End PostRequestEdges.

(** ** The client methods *)

Lemma returns_ret {A} (a : A) (P : A -> Prop) : P a -> returns (ret a) P.
Proof. intros HP w Hwf. exists a, w. auto. Qed.

Lemma returns_bind {A B} (c : M A) (k : A -> M B) (P : A -> Prop) (Q : B -> Prop) :
  returns c P -> (forall a, P a -> returns (k a) Q) -> returns (bind c k) Q.
Proof.
  intros Hc Hk w Hwf.
  destruct (Hc w Hwf) as (a & w1 & E1 & Hwf1 & Pa).
  destruct (Hk a Pa w1 Hwf1) as (b & w2 & E2 & Hwf2 & Qb).
  exists b, w2. unfold bind. rewrite E1. auto.
Qed.

Lemma returns_bind_log {B} lvl fmt args (k : unit -> M B) Q :
  returns (k tt) Q -> returns (bind (emit (ELog lvl fmt args)) k) Q.
Proof.
  intros Hk w Hwf. unfold bind.
  destruct (emit (ELog lvl fmt args) w) as [o1 w1] eqn:E.
  destruct (emit_log_extends _ _ _ _ _ _ Hwf E) as (-> & He).
  exact (Hk w1 (extends_wf _ _ _ He)).
Qed.

Lemma returns_log lvl fmt args : returns (emit (ELog lvl fmt args)) (fun _ => True).
Proof.
  intros w Hwf.
  destruct (emit (ELog lvl fmt args) w) as [o1 w1] eqn:E.
  destruct (emit_log_extends _ _ _ _ _ _ Hwf E) as (-> & He).
  exists tt, w1. split; [reflexivity|]. split; [exact (extends_wf _ _ _ He) | exact I].
Qed.

Lemma returns_bind_self {B} f (k : MdsClient -> M B) Q :
  (forall me, constructed me -> returns (k me) Q) -> returns (bind (self f) k) Q.
Proof.
  intros Hk w Hwf. unfold bind, self.
  exact (Hk _ (client_of_wf f w Hwf) w Hwf).
Qed.

Lemma returns_bind_ret {A B} (a : A) (k : A -> M B) Q :
  returns (k a) Q -> returns (bind (ret a) k) Q.
Proof. intros Hk w Hwf. exact (Hk w Hwf). Qed.

Lemma returns_bind_assoc {A B C} (c : M A) (k1 : A -> M B) (k2 : B -> M C) Q :
  returns (bind c (fun a => bind (k1 a) k2)) Q -> returns (bind (bind c k1) k2) Q.
Proof.
  intros Hk w Hwf. destruct (Hk w Hwf) as (x & w' & E & H).
  exists x, w'. split; [|exact H].
  unfold bind in *. destruct (c w) as [[a|n|e] w1]; exact E.
Qed.

Lemma returns_weaken {A} (c : M A) (P Q : A -> Prop) :
  returns c P -> (forall a, P a -> Q a) -> returns c Q.
Proof.
  intros Hc HPQ w Hwf. destruct (Hc w Hwf) as (a & w' & E & Hwf' & Pa).
  exists a, w'. auto.
Qed.

Ltac returns_step :=
  unfold logger_info, logger_debug, logger_warning, logger_error;
  cbv beta zeta;
  lazymatch goal with
  | |- returns (bind (bind _ _) _) _ => apply returns_bind_assoc
  | |- returns (bind (emit (ELog _ _ _)) _) _ => apply returns_bind_log
  | |- returns (bind (ret _) _) _ => apply returns_bind_ret
  | |- returns (bind (self _) _) _ => apply returns_bind_self; intros ? ?
  | |- returns (ret _) _ => apply returns_ret
  | |- returns (emit (ELog _ _ _)) _ =>
      eapply returns_weaken; [apply returns_log | intros; auto]
  end.

Ltac returns_run :=
  repeat first
    [ returns_step
    | match goal with
      | H : ?b = _ |- context [if ?b then _ else _] => rewrite H
      end ].

Section ClientMethods.
Variable switch : list event -> fabric -> http_request -> reply.

Lemma accepts_inv rp :
  accepts rp = true ->
  exists r j output,
    rp = Answer r /\ status_code r = 200 /\ content r = Some j
    /\ json_path ["ins_api"; "outputs"; "output"] j = Some (JObj output).
Proof.
  destruct rp as [r|msg]; [|discriminate]. unfold accepts.
  intros H. apply andb_prop in H as [Hs H]. apply Z.eqb_eq in Hs.
  destruct (content r) as [j|] eqn:Hc; [|discriminate].
  destruct (json_path _ j) as [[| | | | |output]|] eqn:Hp; try discriminate.
  exists r, j, output. split; [reflexivity|]. split; [exact Hs|].
  split; [exact Hc | exact Hp].
Qed.

(** On a 200 answer with an output object [post_request] returns the
    response, whatever the object says. *)
Lemma post_request_returns f i t w r j output :
  wf w ->
  reply_to switch w f i t = Answer r ->
  status_code r = 200 ->
  content r = Some j ->
  json_path ["ins_api"; "outputs"; "output"] j = Some (JObj output) ->
  exists w', post_request switch f i t w = (Ret r, w').
Proof.
  intros Hwf Hr Hs Hc Hp.
  rewrite (post_request_answer switch _ _ _ _ _ Hwf Hr).
  unfold after_response, logger_info, logger_debug, logger_error.
  rewrite Hs; cbn [Z.eqb Pos.eqb].
  unfold bind, emit, response_json, contains, getitem. rewrite Hc.
  unfold ret at 1.
  rewrite !(response_output_path r j (JObj output)) by assumption.
  unfold ret at 1. cbv beta iota.
  destruct (dict_get "code" output) as [code|] eqn:Hcode.
  - rewrite !(response_output_path r j (JObj output)) by assumption.
    unfold ret at 1. cbv beta iota. rewrite Hcode.
    destruct (is_str "200" code); cbn [negb].
    + unfold ret. eexists; reflexivity.
    + rewrite !(response_output_path r j (JObj output)) by assumption.
      unfold ret. eexists; reflexivity.
  - unfold ret. eexists; reflexivity.
Qed.

Lemma sends_post_exact f i t :
  sends (post_request switch f i t) (fun _ l => l = [(f, envelope i t)]).
Proof.
  intros w o w' Hwf H. exists [(f, envelope i t)]; split; [|reflexivity].
  eapply post_request_extends; eassumption.
Qed.

Lemma sends_post_json_exact f command request_type :
  sends (response <- post_request switch f command request_type ;;
         response_json response)
        (fun _ l => l = [(f, envelope command request_type)]).
Proof.
  eapply sends_bind; [apply sends_post_exact | | auto | auto].
  intros r l1 ->. apply sends_logs_only; [apply logs_only_response_json|].
  intros o; reflexivity.
Qed.

Lemma response_json_inv r w o w' :
  response_json r w = (o, w') ->
  w' = w /\ (forall j, o = Ret j -> content r = Some j).
Proof.
  unfold response_json. destruct (content r) as [j|]; intros H; inversion H; subst.
  - split; [reflexivity|]. intros j' Hj; inversion Hj; reflexivity.
  - split; [reflexivity|]. intros j' Hj; discriminate.
Qed.

Lemma after_response_ret_inv me i t r0 w r w' :
  after_response me i t r0 w = (Ret r, w') -> r = r0 /\ status_code r0 = 200.
Proof.
  unfold after_response. intros H.
  apply bind_inv in H as [(u & w1 & H1 & H) | [(n & _ & Hx) | (e & _ & Hx)]];
    [|discriminate Hx ..].
  split.
  - apply bind_inv in H as [(a & w2 & _ & H) | [(n & _ & Hx) | (e & _ & Hx)]];
      [|discriminate Hx ..].
    apply bind_inv in H as [(b & w3 & _ & H) | [(n & _ & Hx) | (e & _ & Hx)]];
      [|discriminate Hx ..].
    apply bind_inv in H as [(c & w4 & _ & H) | [(n & _ & Hx) | (e & _ & Hx)]];
      [|discriminate Hx ..].
    inversion H; reflexivity.
  - destruct (Z.eqb (status_code r0) 200) eqn:Es; [apply Z.eqb_eq; exact Es|].
    apply bind_inv in H1 as [(j & w2 & _ & H1) | [(n & _ & Hx) | (e & _ & Hx)]];
      [|discriminate Hx ..].
    apply bind_inv in H1 as [(j' & w3 & _ & H1) | [(n & _ & Hx) | (e & _ & Hx)]];
      discriminate.
Qed.

(** When [post_request] returns, what it returns is the switch's answer to
    the request it sent, and that answer had status 200. *)
Lemma post_request_ret_inv f i t w r w' :
  wf w ->
  post_request switch f i t w = (Ret r, w') ->
  reply_to switch w f i t = Answer r /\ status_code r = 200.
Proof.
  intros Hwf H. rewrite post_request_unfold in H by assumption.
  unfold reply_to.
  destruct (switch _ _ _) as [r0|msg]; [|discriminate].
  apply after_response_ret_inv in H as [-> Hs]. auto.
Qed.

(** Posting [command] and decoding the answer: when this returns, the value
    is the body of the 200 answer to the request sent. *)
Lemma post_json_returns_body f command request_type w j w' :
  wf w ->
  (response <- post_request switch f command request_type ;;
   response_json response) w = (Ret j, w') ->
  exists pre rq post r,
    trace w' = pre ++ EPost f rq :: post
    /\ trace w `prefix_of` pre
    /\ rq_data rq = envelope command request_type
    /\ switch pre f rq = Answer r
    /\ status_code r = 200
    /\ content r = Some j.
Proof.
  intros Hwf H.
  apply bind_inv in H as [(r & w3 & H3 & H) | [(n & _ & Hx) | (e & _ & Hx)]];
    [|discriminate Hx ..].
  destruct (post_request_ret_inv _ _ _ _ _ _ Hwf H3) as (Hr & Hs).
  destruct (post_request_run switch _ _ _ _ _ _ Hwf H3) as (logs & -> & _).
  apply response_json_inv in H as (-> & Hj).
  exists (trace w ++ sending_logs (client_of f w) command request_type),
    (request_of (client_of f w) command request_type), logs, r.
  split; [rewrite trace_world_after, <- !app_assoc; reflexivity|].
  split; [apply prefix_app_r; reflexivity|].
  split; [reflexivity|]. split; [exact Hr|]. split; [exact Hs | auto].
Qed.

(** X5: [fetch_zone_info] only reads.  It sends one request, of type
    [cli_show], with the command [show zone name <zone> vsan <vsan>], and
    when it returns, its value is the body of the 200 answer to that
    request. *)
Theorem fetch_zone_info_reads_only
  (f : fabric) (zone_name vsan_id : string) (w : world)
  (o : outcome json) (w' : world) :
  wf w ->
  fetch_zone_info switch f zone_name vsan_id w = (o, w') ->
  sent (trace w') =
    sent (trace w)
      ++ [(f, envelope ("show zone name " +:+ zone_name +:+ " vsan " +:+ vsan_id)
                "cli_show")]
  /\ forall j,
       o = Ret j ->
       exists pre rq post r,
         trace w' = pre ++ EPost f rq :: post
         /\ trace w `prefix_of` pre
         /\ rq_data rq =
              envelope ("show zone name " +:+ zone_name +:+ " vsan " +:+ vsan_id)
                "cli_show"
         /\ switch pre f rq = Answer r
         /\ status_code r = 200
         /\ content r = Some j.
Proof.
  intros Hwf H. split.
  - assert (Hs : sends (fetch_zone_info switch f zone_name vsan_id)
                   (fun _ l => l = [(f, envelope ("show zone name " +:+ zone_name
                                                    +:+ " vsan " +:+ vsan_id)
                                          "cli_show")])).
    { unfold fetch_zone_info. do 2 sends_step.
      apply sends_bind_self; intros me (_ & _ & ->).
      apply sends_post_json_exact. }
    destruct (Hs w o w' Hwf H) as (l & [_ Hl] & ->). exact Hl.
  - intros j ->. unfold fetch_zone_info, logger_info in H.
    apply bind_inv in H as [(u1 & w1 & H1 & H) | [(n & _ & Hx) | (e & _ & Hx)]];
      [|discriminate Hx ..].
    destruct (emit_log_extends _ _ _ _ _ _ Hwf H1) as (_ & He1).
    apply emit_inv in H1 as (_ & _ & _ & Ht1).
    apply bind_inv in H as [(u2 & w2 & H2 & H) | [(n & _ & Hx) | (e & _ & Hx)]];
      [|discriminate Hx ..].
    destruct (emit_log_extends _ _ _ _ _ _ (extends_wf _ _ _ He1) H2) as (_ & He2).
    apply emit_inv in H2 as (_ & _ & _ & Ht2).
    pose proof (extends_wf _ _ _ He2) as Hwf2.
    unfold bind at 1 in H. unfold self in H.
    destruct (client_of_wf f w2 Hwf2) as (_ & _ & Eshow). rewrite Eshow in H.
    destruct (post_json_returns_body _ _ _ _ _ _ Hwf2 H)
      as (pre & rq & post & r & Ht & Hpre & Hrest).
    exists pre, rq, post, r. split; [exact Ht|]. split; [|exact Hrest].
    etransitivity; [|exact Hpre]. rewrite Ht2, Ht1, <- app_assoc.
    apply prefix_app_r; reflexivity.
Qed.

(** X6: each configuration method sends one request, of type [cli_conf],
    with its command, whatever the switch answers: there is no second
    attempt and no request is skipped. *)
Theorem config_methods_send_one_request (f : fabric) :
  (forall zoneset vsan w o w',
     wf w -> activate_zoneset switch f zoneset vsan w = (o, w') ->
     sent (trace w') =
       sent (trace w)
         ++ [(f, envelope ("zoneset activate name " +:+ zoneset +:+ " vsan " +:+ vsan)
                   "cli_conf")])
  /\ (forall alias wwpn w o w',
        wf w -> add_device_alias switch f alias wwpn w = (o, w') ->
        sent (trace w') =
          sent (trace w)
            ++ [(f, envelope
                      ("device-alias database ;device-alias name " +:+ alias
                         +:+ " pwwn " +:+ wwpn +:+ " ;device-alias commit")
                      "cli_conf")])
  /\ (forall zone zoneset vsan w o w',
        wf w -> add_zone_to_zoneset switch f zone zoneset vsan w = (o, w') ->
        sent (trace w') =
          sent (trace w)
            ++ [(f, envelope
                      ("zoneset name " +:+ zoneset +:+ " vsan " +:+ vsan
                         +:+ " ;member " +:+ zone)
                      "cli_conf")])
  /\ (forall zone vsan w o w',
        wf w -> configure_zone switch f zone vsan w = (o, w') ->
        sent (trace w') =
          sent (trace w)
            ++ [(f, envelope ("zone name " +:+ zone +:+ " vsan " +:+ vsan)
                      "cli_conf")]).
Proof.
  assert (Hgen : forall (c : M json) cmd,
             sends c (fun _ l => l = [(f, envelope cmd "cli_conf")]) ->
             forall w o w', wf w -> c w = (o, w') ->
             sent (trace w') = sent (trace w) ++ [(f, envelope cmd "cli_conf")]).
  { intros c cmd Hs w o w' Hwf H.
    destruct (Hs w o w' Hwf H) as (l & [_ Hl] & ->). exact Hl. }
  repeat split; intros; eapply Hgen; try eassumption.
  - unfold activate_zoneset. do 2 sends_step.
    apply sends_bind_self; intros me (_ & -> & _). apply sends_post_json_exact.
  - unfold add_device_alias. do 2 sends_step.
    apply sends_bind_self; intros me (_ & -> & _). apply sends_post_json_exact.
  - unfold add_zone_to_zoneset. do 2 sends_step.
    apply sends_bind_self; intros me (_ & -> & _). apply sends_post_json_exact.
  - unfold configure_zone. do 2 sends_step.
    apply sends_bind_self; intros me (_ & -> & _). apply sends_post_json_exact.
Qed.

(** X7: a zone-member call with neither a WWPN nor an alias (each [None] or
    empty) is refused before anything is sent: the error is logged and the
    process exits with 1.  With no alias, or an empty one, and a WWPN, the
    member is named by WWPN, in one request. *)
Theorem zone_member_needs_wwpn_or_alias
  (f : fabric) (zone vsan : string) (wwpn alias : option string)
  (w : world) (o : outcome json) (w' : world) :
  wf w ->
  truthy_str alias = false ->
  configure_zone_and_add_member switch f zone vsan wwpn alias w = (o, w') ->
  (truthy_str wwpn = false ->
     o = Exit 1
     /\ w' = logged w
               [ELog ERROR
                  "Either member WWPN or device alias name must be provided.\n" []])
  /\ (truthy_str wwpn = true ->
        sent (trace w') =
          sent (trace w)
            ++ [(f, envelope
                      ("zone name " +:+ zone +:+ " vsan " +:+ vsan
                         +:+ " ;member pwwn " +:+ str_of wwpn)
                      "cli_conf")]).
Proof.
  intros Hwf Ha H. unfold configure_zone_and_add_member in H.
  rewrite Ha in H. split; intros Hw; rewrite Hw in H; cbn [negb andb] in H.
  - unfold bind, logger_error, emit, sys_exit in H. inversion H; subst.
    split; reflexivity.
  - revert H.
    match goal with
    | |- ?c w = _ -> _ =>
        assert (Hs : sends c
                  (fun _ l => l = [(f, envelope
                      ("zone name " +:+ zone +:+ " vsan " +:+ vsan
                         +:+ " ;member pwwn " +:+ str_of wwpn) "cli_conf")]))
    end.
    { repeat sends_step.
      apply sends_bind_self; intros me (_ & -> & _). apply sends_post_json_exact. }
    intros H. destruct (Hs w o w' Hwf H) as (l & [_ Hl] & ->). exact Hl.
Qed.

Hypothesis switch_accepts : forall tr f rq, accepts (switch tr f rq) = true.

Lemma returns_post_request f i t :
  returns (post_request switch f i t)
    (fun r => exists j, content r = Some j).
Proof.
  intros w Hwf.
  destruct (accepts_inv _ (switch_accepts (trace w ++ sending_logs (client_of f w) i t)
                             f (request_of (client_of f w) i t)))
    as (r & j & output & Hr & Hs & Hc & Hp).
  destruct (post_request_returns f i t w r j output Hwf Hr Hs Hc Hp) as (w' & E).
  exists r, w'. split; [exact E|]. split.
  - exact (extends_wf _ _ _ (post_request_extends switch _ _ _ _ _ _ Hwf E)).
  - eauto.
Qed.

End ClientMethods.

(** ** The inventory lookups *)

Lemma map_lookup_some {X Y} (g : X -> Y) (l : list X) (i : nat) (x : X) :
  l !! i = Some x -> map g l !! i = Some (g x).
Proof.
  revert i; induction l as [|y l IH]; intros [|i] H; try discriminate.
  - inversion H; reflexivity.
  - exact (IH i H).
Qed.

Section InventoryLookups.
Variable get_organization_organization_list : string -> api_result string.
Variable get_server_profile_list : string -> api_result string.
Variable get_vnic_fc_if_list : string -> api_result VnicFcIf.

Abbreviation resolve :=
  (resolve_vhbas get_organization_organization_list get_server_profile_list
     get_vnic_fc_if_list).

Lemma resolve_vhbas_returns_iff
  (server_profile_name organization_name : string) (w : world)
  (vhbas_list : list (gmap string string)) :
  fst (resolve server_profile_name organization_name w) = Ret vhbas_list
  <-> exists organization_moid orgs server_profile_moid profiles vnic vnics,
        get_organization_organization_list
          ("Name eq '" +:+ organization_name +:+ "'")
        = ApiResults (organization_moid :: orgs)
        /\ get_server_profile_list
             ("Name eq '" +:+ server_profile_name
                +:+ "' and Organization.Moid eq '" +:+ organization_moid +:+ "'")
           = ApiResults (server_profile_moid :: profiles)
        /\ get_vnic_fc_if_list ("Profile.Moid eq '" +:+ server_profile_moid +:+ "'")
           = ApiResults (vnic :: vnics)
        /\ vhbas_list = map vhba_dict (vnic :: vnics).
Proof.
  unfold resolve_vhbas, fetch_organization_moid_from_organization_name,
    fetch_server_profile_moid_from_server_profile_name_and_organization_moid,
    fetch_vhba_from_server_profile_moid,
    logger_info, logger_warning, logger_error, bind, emit, ret, sys_exit.
  cbv beta iota zeta.
  destruct (get_organization_organization_list _) as [[|om orgs]|msg1] eqn:E1;
    cbv beta iota zeta; cbn [fst].
  - split; [discriminate | intros (? & ? & ? & ? & ? & ? & H & _); discriminate].
  - destruct (get_server_profile_list _) as [[|pm profiles]|msg2] eqn:E2;
      cbv beta iota zeta; cbn [fst].
    + split; [discriminate|].
      intros (? & ? & ? & ? & ? & ? & H1 & H2 & _).
      inversion H1; subst. rewrite E2 in H2. discriminate.
    + destruct (get_vnic_fc_if_list _) as [[|v vnics]|msg3] eqn:E3;
        cbv beta iota zeta; cbn [fst].
      * split; [discriminate|].
        intros (? & ? & ? & ? & ? & ? & H1 & H2 & H3 & _).
        inversion H1; subst. rewrite E2 in H2. inversion H2; subst.
        rewrite E3 in H3. discriminate.
      * split.
        -- intros H. inversion H; subst.
           exists om, orgs, pm, profiles, v, vnics. auto.
        -- intros (? & ? & ? & ? & ? & ? & H1 & H2 & H3 & ->).
           inversion H1; subst. rewrite E2 in H2. inversion H2; subst.
           rewrite E3 in H3. inversion H3; subst. reflexivity.
      * split; [discriminate|].
        intros (? & ? & ? & ? & ? & ? & H1 & H2 & H3 & _).
        inversion H1; subst. rewrite E2 in H2. inversion H2; subst.
        rewrite E3 in H3. discriminate.
    + split; [discriminate|].
      intros (? & ? & ? & ? & ? & ? & H1 & H2 & _).
      inversion H1; subst. rewrite E2 in H2. discriminate.
  - split; [discriminate | intros (? & ? & ? & ? & ? & ? & H & _); discriminate].
Qed.

(** X8: the three lookups are chained, each on the first result of the one
    before: the organization by its name, the profile by its name within
    that organization, the adapters under that profile.  The lookups return
    the adapter dicts exactly when each query has a result. *)
Theorem resolve_vhbas_chain
  (server_profile_name organization_name : string) (w : world)
  (vhbas_list : list (gmap string string)) :
  fst (resolve server_profile_name organization_name w) = Ret vhbas_list
  <-> exists organization_moid orgs server_profile_moid profiles vnic vnics,
        get_organization_organization_list
          ("Name eq '" +:+ organization_name +:+ "'")
        = ApiResults (organization_moid :: orgs)
        /\ get_server_profile_list
             ("Name eq '" +:+ server_profile_name
                +:+ "' and Organization.Moid eq '" +:+ organization_moid +:+ "'")
           = ApiResults (server_profile_moid :: profiles)
        /\ get_vnic_fc_if_list ("Profile.Moid eq '" +:+ server_profile_moid +:+ "'")
           = ApiResults (vnic :: vnics)
        /\ vhbas_list = map vhba_dict (vnic :: vnics).
Proof. apply resolve_vhbas_returns_iff. Qed.


(** The lookups end with their value or with [sys.exit(1)]; they never
    raise. *)
Lemma resolve_vhbas_outcome spn org w :
  (exists vs, fst (resolve spn org w) = Ret vs) \/ fst (resolve spn org w) = Exit 1.
Proof.
  unfold resolve_vhbas, fetch_organization_moid_from_organization_name,
    fetch_server_profile_moid_from_server_profile_name_and_organization_moid,
    fetch_vhba_from_server_profile_moid,
    logger_info, logger_warning, logger_error, bind, emit, ret, sys_exit.
  cbv beta iota zeta.
  destruct (get_organization_organization_list _) as [[|om orgs]|msg1];
    cbv beta iota zeta; cbn [fst]; [right; reflexivity | | right; reflexivity].
  destruct (get_server_profile_list _) as [[|pm profiles]|msg2];
    cbv beta iota zeta; cbn [fst]; [right; reflexivity | | right; reflexivity].
  destruct (get_vnic_fc_if_list _) as [[|v vnics]|msg3];
    cbv beta iota zeta; cbn [fst]; [right; reflexivity | | right; reflexivity].
  left; eexists; reflexivity.
Qed.

(** X10: the dict built for an adapter has exactly the keys ["vhba_wwpn"],
    ["vhba_name"] and ["vhba_fabric"], bound to the WWPN, the name and the
    switch id of the adapter, and the dicts come in the order of the
    inventory's answer, one for each adapter. *)
Theorem fetch_vhba_dicts
  (server_profile_moid : string) (w : world)
  (vhba_list : list (gmap string string)) (w' : world) :
  fetch_vhba_from_server_profile_moid get_vnic_fc_if_list server_profile_moid w
  = (Ret vhba_list, w') ->
  exists vnics,
    get_vnic_fc_if_list ("Profile.Moid eq '" +:+ server_profile_moid +:+ "'")
    = ApiResults vnics
    /\ vnics <> []
    /\ length vhba_list = length vnics
    /\ forall (i : nat) (v : VnicFcIf),
         vnics !! i = Some v ->
         exists d : gmap string string,
           vhba_list !! i = Some d
           /\ d !! "vhba_wwpn" = Some (vnic_wwpn v)
           /\ d !! "vhba_name" = Some (vnic_name v)
           /\ d !! "vhba_fabric" = Some (vnic_placement_switch_id v)
           /\ dom d = ({["vhba_wwpn"; "vhba_name"; "vhba_fabric"]} : gset string).
Proof.
  unfold fetch_vhba_from_server_profile_moid, logger_info, logger_warning,
    logger_error, bind, emit, ret, sys_exit.
  cbv beta iota zeta.
  destruct (get_vnic_fc_if_list _) as [[|v0 vnics]|msg] eqn:E;
    cbv beta iota zeta; intros H; inversion H; subst; clear H.
  exists (v0 :: vnics). split; [reflexivity|]. split; [discriminate|].
  split; [exact (length_map vhba_dict (v0 :: vnics))|].
  intros i v Hv. exists (vhba_dict v).
  split; [exact (map_lookup_some vhba_dict (v0 :: vnics) i v Hv)|].
  do 3 (split; [reflexivity|]).
  unfold vhba_dict. rewrite !dom_insert_L, dom_singleton_L. set_solver.
Qed.

Lemma resolve_vhbas_success_quiet spn org w vs :
  fst (resolve spn org w) = Ret vs ->
  errors (trace (snd (resolve spn org w))) = errors (trace w).
Proof.
  unfold resolve_vhbas, fetch_organization_moid_from_organization_name,
    fetch_server_profile_moid_from_server_profile_name_and_organization_moid,
    fetch_vhba_from_server_profile_moid,
    logger_info, logger_warning, logger_error, bind, emit, ret, sys_exit.
  cbv beta iota zeta.
  destruct (get_organization_organization_list _) as [[|om orgs]|msg1];
    cbv beta iota zeta; cbn [fst snd]; try discriminate.
  destruct (get_server_profile_list _) as [[|pm profiles]|msg2];
    cbv beta iota zeta; cbn [fst snd]; try discriminate.
  destruct (get_vnic_fc_if_list _) as [[|v vnics]|msg3];
    cbv beta iota zeta; cbn [fst snd]; try discriminate.
  intros _. cbn [trace]. rewrite !errors_app. cbn. rewrite !app_nil_r. reflexivity.
Qed.

Lemma resolve_vhbas_nonempty spn org w vs :
  fst (resolve spn org w) = Ret vs -> vs <> [].
Proof.
  intros H. apply resolve_vhbas_returns_iff in H
    as (? & ? & ? & ? & ? & ? & _ & _ & _ & ->). discriminate.
Qed.

End InventoryLookups.

(** ** The orchestrator: what stops a run *)

Section RunStops.
Variable switch : list event -> fabric -> http_request -> reply.
Variable get_organization_organization_list : string -> api_result string.
Variable get_server_profile_list : string -> api_result string.
Variable get_vnic_fc_if_list : string -> api_result VnicFcIf.

Abbreviation resolve' :=
  (resolve_vhbas get_organization_organization_list get_server_profile_list
     get_vnic_fc_if_list).
Abbreviation workflow' :=
  (configure_intersight_mds_zones switch get_organization_organization_list
     get_server_profile_list get_vnic_fc_if_list).

(** X9: when a lookup fails (organization or profile not found, no adapter,
    or an API exception) the run ends with [sys.exit(1)] where the lookups
    ended: no request has been sent and neither client has been touched. *)
Theorem lookup_failure_stops_before_any_request
  spn org za va zb vb zsa zsb f1 f2 f3 (w : world) :
  (forall vhbas_list, fst (resolve' spn org w) <> Ret vhbas_list) ->
  workflow' spn org za va zb vb zsa zsb f1 f2 f3 w
  = (Exit 1, snd (resolve' spn org w))
  /\ sent (trace (snd (resolve' spn org w))) = sent (trace w)
  /\ mds_client_a (snd (resolve' spn org w)) = mds_client_a w
  /\ mds_client_b (snd (resolve' spn org w)) = mds_client_b w.
Proof.
  intros Hfail.
  destruct (resolve_vhbas_outcome get_organization_organization_list
              get_server_profile_list get_vnic_fc_if_list spn org w)
    as [(vs & Hvs) | Hexit]; [destruct (Hfail vs Hvs)|].
  destruct (resolve' spn org w) as [o1 w1] eqn:E. cbn [fst snd] in *. subst o1.
  split.
  - unfold configure_intersight_mds_zones, bind. rewrite E. reflexivity.
  - destruct (logs_only_resolve_vhbas get_organization_organization_list
                get_server_profile_list get_vnic_fc_if_list spn org w _ _ E)
      as ((Ha & Hb) & logs & Ht & Hs).
    split; [rewrite Ht, sent_app, Hs, app_nil_r; reflexivity | auto].
Qed.

Lemma configure_vhba_unknown_flag spn za va zb vb flag vhba w :
  truthy flag = false ->
  is_False flag = false ->
  configure_vhba switch spn za va zb vb flag vhba w
  = (Exit 1,
     logged w
       [ELog ERROR "Unknown flag value '%s' for device alias configuration"
          [json_of_pyval flag]]).
Proof.
  intros Ht Hf. unfold configure_vhba. rewrite Ht, Hf. reflexivity.
Qed.

(** X11: a value of the alias flag that is neither true nor the object
    [False] (such as [None], [0] or the empty string) stops the run at the
    first adapter: the value is logged as an error, the process exits with 1
    and nothing has been sent. *)
Theorem unknown_alias_flag_stops_the_run
  spn org za va zb vb zsa zsb f1 f2 f3 (w : world)
  (o : outcome unit) (w' : world) :
  truthy f1 = false ->
  is_False f1 = false ->
  workflow' spn org za va zb vb zsa zsb f1 f2 f3 w = (o, w') ->
  o = Exit 1
  /\ sent (trace w') = sent (trace w)
  /\ (forall vhbas_list,
        fst (resolve' spn org w) = Ret vhbas_list ->
        errors (trace w') =
          errors (trace w)
            ++ [("Unknown flag value '%s' for device alias configuration",
                 [json_of_pyval f1])]).
Proof.
  intros Ht Hf H.
  destruct (resolve_vhbas_outcome get_organization_organization_list
              get_server_profile_list get_vnic_fc_if_list spn org w)
    as [(vs & Hvs) | Hexit].
  - pose proof (resolve_vhbas_nonempty _ _ _ _ _ _ _ Hvs) as Hne.
    pose proof (resolve_vhbas_success_quiet _ _ _ _ _ _ _ Hvs) as Hq.
    destruct (resolve' spn org w) as [o1 w1] eqn:E. cbn [fst snd] in *. subst o1.
    destruct (logs_only_resolve_vhbas get_organization_organization_list
                get_server_profile_list get_vnic_fc_if_list spn org w _ _ E)
      as (_ & logs & Htr & Hs).
    destruct vs as [|vhba rest]; [congruence|].
    unfold configure_intersight_mds_zones in H. unfold bind at 1 in H.
    rewrite E in H. cbn [for_each] in H. unfold bind at 1 2 in H.
    rewrite (configure_vhba_unknown_flag _ _ _ _ _ _ _ _ Ht Hf) in H.
    inversion H; subst. cbn [logged trace].
    split; [reflexivity|]. split.
    + rewrite sent_app, Htr, sent_app, Hs. cbn. rewrite !app_nil_r. reflexivity.
    + intros vs' _. rewrite errors_app, Hq. reflexivity.
  - destruct (resolve' spn org w) as [o1 w1] eqn:E. cbn [fst snd] in *. subst o1.
    destruct (logs_only_resolve_vhbas get_organization_organization_list
                get_server_profile_list get_vnic_fc_if_list spn org w _ _ E)
      as (_ & logs & Htr & Hs).
    unfold configure_intersight_mds_zones in H. unfold bind at 1 in H.
    rewrite E in H. inversion H; subst.
    split; [reflexivity|]. split.
    + rewrite Htr, sent_app, Hs, app_nil_r. reflexivity.
    + intros vs' Hx. discriminate.
Qed.

(** The loop body on an adapter with an empty WWPN, aliases off. *)
Lemma configure_vhba_empty_wwpn spn za va zb vb v w :
  vnic_placement_switch_id v = "A" \/ vnic_placement_switch_id v = "B" ->
  vnic_wwpn v = "" ->
  exists logs,
    configure_vhba switch spn za va zb vb (PyBool false) (vhba_dict v) w
    = (Exit 1, logged w logs)
    /\ errors logs =
         [("Either member WWPN or device alias name must be provided.\n", [])]
    /\ sent logs = [].
Proof.
  intros Htag Hw.
  unfold configure_vhba, configure_zone_and_add_member,
    logger_info, logger_error.
  rewrite !vhba_item_fabric, !vhba_item_name, !vhba_item_wwpn.
  cbn [truthy is_False]. rewrite Hw.
  destruct Htag as [-> | ->].
  - unfold bind, ret, emit, self, sys_exit. cbn.
    eexists; split; [unfold logged; cbn [trace mds_client_a mds_client_b];
                     rewrite <- !app_assoc; reflexivity|].
    split; reflexivity.
  - unfold bind, ret, emit, self, sys_exit. cbn.
    eexists; split; [unfold logged; cbn [trace mds_client_a mds_client_b];
                     rewrite <- !app_assoc; reflexivity|].
    split; reflexivity.
Qed.

(** X12: with aliases off, an adapter whose WWPN is empty stops the run when
    the loop reaches it: the zone-member call refuses it, the refusal is
    logged as an error, the process exits with 1, and neither that adapter
    nor a later one gets a request. *)
Theorem empty_wwpn_stops_the_run_without_aliases
  spn org za va zb vb zsa zsb f2 f3
  (pre post : list VnicFcIf) (v : VnicFcIf) (w w0 w1 : world) :
  resolve' spn org w = (Ret (map vhba_dict (pre ++ v :: post)), w0) ->
  for_each (configure_vhba switch spn za va zb vb (PyBool false))
    (map vhba_dict pre) w0 = (Ret tt, w1) ->
  vnic_placement_switch_id v = "A" \/ vnic_placement_switch_id v = "B" ->
  vnic_wwpn v = "" ->
  exists logs,
    workflow' spn org za va zb vb zsa zsb (PyBool false) f2 f3 w
    = (Exit 1, logged w1 logs)
    /\ errors logs =
         [("Either member WWPN or device alias name must be provided.\n", [])]
    /\ sent logs = [].
Proof.
  intros Hres Hpre Htag Hw.
  destruct (configure_vhba_empty_wwpn spn za va zb vb v w1 Htag Hw)
    as (logs & Hv & Herr & Hsent).
  exists logs. split; [|split; assumption].
  unfold configure_intersight_mds_zones, bind.
  rewrite Hres, map_app, for_each_app, Hpre.
  cbn [map for_each]. unfold bind. rewrite Hv. reflexivity.
Qed.

(** X13: the standalone alias operation on a list of dicts, at a dict that
    has its tag and its name and whose tag is neither "A" nor "B".  The
    error branch reads the keys ["fabric"] and ["name"]: a dict without
    ["fabric"], as every dict that comes from the inventory is, ends the
    call with [KeyError("fabric")] and nothing logged; one with ["fabric"]
    and without ["name"] with [KeyError("name")]; one that has both is
    logged as an error and the process exits with 1.  In each case nothing
    is sent for that dict, and the dicts after it get no alias. *)
Theorem add_device_aliases_stops_at_unknown_fabric
  spn (pre post : list (gmap string string)) (bad : gmap string string)
  (tag name : string) (w w1 : world) :
  add_device_aliases_from_server_profile_name_and_vhba switch spn pre w
  = (Ret tt, w1) ->
  bad !! "vhba_fabric" = Some tag ->
  bad !! "vhba_name" = Some name ->
  tag <> "A" ->
  tag <> "B" ->
  add_device_aliases_from_server_profile_name_and_vhba switch spn
    (pre ++ bad :: post) w
  = match bad !! "fabric", bad !! "name" with
    | None, _ => (Raise (KeyError "fabric"), w1)
    | Some _, None => (Raise (KeyError "name"), w1)
    | Some fab, Some nm =>
        (Exit 1,
         logged w1
           [ELog ERROR "Unknown fabric type '%s' for vHBA '%s'"
              [JStr fab; JStr nm]])
    end
  /\ (forall v : VnicFcIf,
        bad = vhba_dict v ->
        add_device_aliases_from_server_profile_name_and_vhba switch spn
          (pre ++ bad :: post) w
        = (Raise (KeyError "fabric"), w1)).
Proof.
  intros Hpre Htag Hname HA HB. apply String.eqb_neq in HA, HB.
  match goal with |- ?first /\ _ => assert (Hrun : first) end.
  { unfold add_device_aliases_from_server_profile_name_and_vhba in *.
    rewrite for_each_app, Hpre. cbn [for_each].
    unfold device_alias_fstring, unknown_fabric_type, vhba_item.
    rewrite Htag, Hname.
    unfold bind, ret, raise. rewrite !HA, !HB.
    destruct (bad !! "fabric") as [fab|]; [|reflexivity].
    destruct (bad !! "name") as [nm|]; reflexivity. }
  split; [exact Hrun|].
  intros v ->. rewrite Hrun.
  assert (Hno : vhba_dict v !! "fabric" = None) by reflexivity.
  rewrite Hno. reflexivity.
Qed.

End RunStops.

(** ** Properties of every run *)

Lemma logs_only_self f : logs_only (self f).
Proof.
  intros w o w' H; inversion H; subst. split; [split; reflexivity|].
  exists []; rewrite app_nil_r; auto.
Qed.

Lemma logs_only_vhba_item vhba k : logs_only (vhba_item vhba k).
Proof.
  unfold vhba_item. destruct (vhba !! k); [apply logs_only_ret | apply logs_only_raise].
Qed.

Section Keeps.
Variable switch : list event -> fabric -> http_request -> reply.
Variable get_organization_organization_list : string -> api_result string.
Variable get_server_profile_list : string -> api_result string.
Variable get_vnic_fc_if_list : string -> api_result VnicFcIf.
Variables R F : world -> world -> Prop.
Hypothesis R_quiet :
  forall w w' logs,
    same_clients w w' -> trace w' = trace w ++ logs -> sent logs = [] -> R w w'.
Hypothesis R_trans : forall w1 w2 w3, R w1 w2 -> R w2 w3 -> R w1 w3.
Hypothesis RF_trans : forall w1 w2 w3, R w1 w2 -> F w2 w3 -> F w1 w3.
Hypothesis post_keeps : forall f i t, keeps R F (post_request switch f i t).

Lemma keeps_logs_only {A} (c : M A) : logs_only c -> keeps R F c.
Proof.
  intros Hc w o w' Hwf H. split.
  - exact (extends_wf _ _ _ (logs_only_extends _ _ _ _ Hc Hwf H)).
  - left. destruct (Hc _ _ _ H) as (Hs & logs & Ht & Hl). eapply R_quiet; eassumption.
Qed.

Lemma keeps_bind {A B} (c : M A) (k : A -> M B) :
  keeps R F c -> (forall a, keeps R F (k a)) -> keeps R F (bind c k).
Proof.
  intros Hc Hk w o w' Hwf H.
  apply bind_inv in H as [(a & w1 & H1 & H2) | [(n & H1 & ->) | (e & H1 & ->)]].
  - destruct (Hc _ _ _ Hwf H1) as (Hwf1 & [HR | (Hab & _)]); [|destruct Hab].
    destruct (Hk a _ _ _ Hwf1 H2) as (Hwf2 & [HR2 | (Hab & HF)]).
    + split; [exact Hwf2|]. left. eapply R_trans; eassumption.
    + split; [exact Hwf2|]. right. split; [exact Hab|]. eapply RF_trans; eassumption.
  - exact (Hc _ _ _ Hwf H1).
  - exact (Hc _ _ _ Hwf H1).
Qed.

Ltac keeps_leaf :=
  apply keeps_logs_only;
  first [ apply logs_only_ret | apply logs_only_exit | apply logs_only_raise
        | apply logs_only_emit | apply logs_only_self | apply logs_only_vhba_item
        | apply logs_only_response_json ].

Ltac keeps_run :=
  unfold logger_info, logger_debug, logger_warning, logger_error;
  repeat (cbv beta zeta;
    lazymatch goal with
    | |- keeps _ _ (bind _ _) => apply keeps_bind; [|intros ?]
    | |- keeps _ _ (post_request _ _ _ _) => apply post_keeps
    | |- keeps _ _ (if ?b then _ else _) => destruct b
    | |- keeps _ _ (match ?x with _ => _ end) => destruct x
    | |- keeps _ _ _ => keeps_leaf
    end).

Lemma keeps_activate_zoneset f zoneset vsan :
  keeps R F (activate_zoneset switch f zoneset vsan).
Proof. unfold activate_zoneset. keeps_run. Qed.

Lemma keeps_add_device_alias f alias wwpn :
  keeps R F (add_device_alias switch f alias wwpn).
Proof. unfold add_device_alias. keeps_run. Qed.

Lemma keeps_add_zone_to_zoneset f zone zoneset vsan :
  keeps R F (add_zone_to_zoneset switch f zone zoneset vsan).
Proof. unfold add_zone_to_zoneset. keeps_run. Qed.

Lemma keeps_configure_zone_and_add_member f zone vsan wwpn alias :
  keeps R F (configure_zone_and_add_member switch f zone vsan wwpn alias).
Proof. unfold configure_zone_and_add_member. keeps_run. Qed.

Lemma keeps_for_each {A} (body : A -> M unit) (l : list A) :
  (forall x, keeps R F (body x)) -> keeps R F (for_each body l).
Proof.
  intros Hbody. induction l as [|x rest IH]; simpl.
  - apply keeps_logs_only, logs_only_ret.
  - apply keeps_bind; [apply Hbody | intros _; exact IH].
Qed.

Ltac keeps_calls :=
  unfold logger_info, logger_debug, logger_warning, logger_error;
  repeat (cbv beta zeta;
    lazymatch goal with
    | |- keeps _ _ (bind _ _) => apply keeps_bind; [|intros ?]
    | |- keeps _ _ (activate_zoneset _ _ _ _) => apply keeps_activate_zoneset
    | |- keeps _ _ (add_device_alias _ _ _ _) => apply keeps_add_device_alias
    | |- keeps _ _ (add_zone_to_zoneset _ _ _ _ _) => apply keeps_add_zone_to_zoneset
    | |- keeps _ _ (configure_zone_and_add_member _ _ _ _ _ _) =>
        apply keeps_configure_zone_and_add_member
    | |- keeps _ _ (if ?b then _ else _) => destruct b
    | |- keeps _ _ (match ?x with _ => _ end) => destruct x
    | |- keeps _ _ _ => keeps_leaf
    end).

Lemma keeps_configure_vhba spn za va zb vb flag vhba :
  keeps R F (configure_vhba switch spn za va zb vb flag vhba).
Proof.
  unfold configure_vhba, device_alias_fstring, unknown_fabric_type. keeps_calls.
Qed.

Lemma keeps_workflow spn org za va zb vb zsa zsb f1 f2 f3 :
  keeps R F
    (configure_intersight_mds_zones switch get_organization_organization_list
       get_server_profile_list get_vnic_fc_if_list
       spn org za va zb vb zsa zsb f1 f2 f3).
Proof.
  unfold configure_intersight_mds_zones.
  apply keeps_bind; [apply keeps_logs_only, logs_only_resolve_vhbas | intros vs].
  apply keeps_bind; [apply keeps_for_each; intros x; apply keeps_configure_vhba
                    | intros _].
  apply keeps_bind; [|intros _].
  - unfold stage_add_zones_to_zonesets. keeps_calls.
  - unfold stage_activate_zonesets. keeps_calls.
Qed.

Lemma keeps_activate_zonesets zsa va zsb vb :
  keeps R F (activate_zonesets switch zsa va zsb vb).
Proof. unfold activate_zonesets. keeps_calls. Qed.

Lemma keeps_add_zones_to_zonesets zsa za va zsb zb vb :
  keeps R F (add_zones_to_zonesets switch zsa za va zsb zb vb).
Proof. unfold add_zones_to_zonesets. keeps_calls. Qed.

Lemma keeps_add_device_aliases spn vhba_list :
  keeps R F
    (add_device_aliases_from_server_profile_name_and_vhba switch spn vhba_list).
Proof.
  unfold add_device_aliases_from_server_profile_name_and_vhba.
  apply keeps_for_each. intros vhba.
  unfold device_alias_fstring, unknown_fabric_type. keeps_calls.
Qed.

End Keeps.

Lemma all_200_app switch tr0 evs1 evs2 :
  all_200 switch tr0 (evs1 ++ evs2)
  = all_200 switch tr0 evs1 && all_200 switch (tr0 ++ evs1) evs2.
Proof.
  revert tr0; induction evs1 as [|e evs1 IH]; intros tr0; simpl.
  - rewrite app_nil_r; reflexivity.
  - rewrite IH, <- app_assoc, andb_assoc. reflexivity.
Qed.

Lemma all_200_quiet switch tr0 logs : sent logs = [] -> all_200 switch tr0 logs = true.
Proof.
  revert tr0; induction logs as [|e logs IH]; intros tr0 H; simpl; [reflexivity|].
  destruct e as [lvl fmt args|f rq]; [|discriminate]. simpl in H.
  rewrite IH by assumption. reflexivity.
Qed.

Section FailFast.
Variable switch : list event -> fabric -> http_request -> reply.
Variable get_organization_organization_list : string -> api_result string.
Variable get_server_profile_list : string -> api_result string.
Variable get_vnic_fc_if_list : string -> api_result VnicFcIf.

Lemma all_answered_200_quiet w w' logs :
  same_clients w w' -> trace w' = trace w ++ logs -> sent logs = [] ->
  all_answered_200 switch w w'.
Proof.
  intros _ Ht Hs. exists logs. split; [exact Ht | apply all_200_quiet; exact Hs].
Qed.

Lemma all_answered_200_trans w1 w2 w3 :
  all_answered_200 switch w1 w2 -> all_answered_200 switch w2 w3 ->
  all_answered_200 switch w1 w3.
Proof.
  intros (e1 & Ht1 & H1) (e2 & Ht2 & H2). exists (e1 ++ e2). split.
  - rewrite Ht2, Ht1, app_assoc. reflexivity.
  - rewrite all_200_app, H1. rewrite Ht1 in H2. exact H2.
Qed.

Lemma stopped_at_failure_trans w1 w2 w3 :
  all_answered_200 switch w1 w2 -> stopped_at_failure switch w2 w3 ->
  stopped_at_failure switch w1 w3.
Proof.
  intros (e1 & Ht1 & H1) (e2 & f & rq & logs & Ht2 & H2 & Hf & Hs).
  exists (e1 ++ e2), f, rq, logs. rewrite Ht1 in Ht2, H2, Hf.
  split; [rewrite Ht2, <- !app_assoc; reflexivity|].
  split; [rewrite all_200_app, H1; exact H2|].
  split; [rewrite app_assoc; exact Hf | exact Hs].
Qed.

Lemma after_response_not_200_aborts me i t r w o w' :
  Z.eqb (status_code r) 200 = false ->
  after_response me i t r w = (o, w') -> aborted o.
Proof.
  intros Hs H. unfold after_response in H. rewrite Hs in H.
  apply bind_inv in H as [(u & w1 & H1 & _) | [(n & _ & ->) | (e & _ & ->)]];
    [|exact I ..].
  apply bind_inv in H1 as [(j & w2 & _ & H1) | [(n & _ & Hx) | (e & _ & Hx)]];
    [|discriminate Hx ..].
  apply bind_inv in H1 as [(j' & w3 & _ & H1) | [(n & _ & Hx) | (e & _ & Hx)]];
    discriminate.
Qed.

Lemma post_request_fail_fast f i t :
  keeps (all_answered_200 switch) (stopped_at_failure switch)
    (post_request switch f i t).
Proof.
  intros w o w' Hwf H.
  split; [exact (extends_wf _ _ _ (post_request_extends switch _ _ _ _ _ _ Hwf H))|].
  destruct (post_request_run switch _ _ _ _ _ _ Hwf H) as (logs & Hw' & Hs).
  rewrite post_request_unfold in H by assumption.
  destruct (is_200 (switch (trace w ++ sending_logs (client_of f w) i t) f
                      (request_of (client_of f w) i t))) eqn:E.
  - left. eexists. split; [rewrite Hw', trace_world_after; reflexivity|].
    rewrite !all_200_app. cbn [all_200]. rewrite E.
    rewrite (all_200_quiet _ _ _ (sent_sending_logs _ _ _)).
    rewrite (all_200_quiet _ _ _ Hs). reflexivity.
  - right. split.
    + destruct (switch _ _ _) as [r|msg].
      * eapply after_response_not_200_aborts; [exact E | exact H].
      * inversion H; exact I.
    + exists (sending_logs (client_of f w) i t), f, (request_of (client_of f w) i t),
        logs.
      split; [rewrite Hw', trace_world_after; reflexivity|].
      split; [apply all_200_quiet, sent_sending_logs|].
      split; [exact E | exact Hs].
Qed.

(** X14: a failed request is the last one.  In a full run every request but
    the last was answered with status 200; when the last one was not (another
    status, or no answer at all), the run is aborted and sends nothing after
    it.  A run that returns had every request answered with 200. *)
Theorem workflow_stops_at_first_failed_request
  spn org za va zb vb zsa zsb f1 f2 f3 (w : world) (o : outcome unit) (w' : world) :
  wf w ->
  configure_intersight_mds_zones switch get_organization_organization_list
    get_server_profile_list get_vnic_fc_if_list
    spn org za va zb vb zsa zsb f1 f2 f3 w = (o, w') ->
  (exists evs, trace w' = trace w ++ evs /\ all_200 switch (trace w) evs = true)
  \/ (aborted o
      /\ exists evs f rq logs,
           trace w' = trace w ++ evs ++ EPost f rq :: logs
           /\ all_200 switch (trace w) evs = true
           /\ is_200 (switch (trace w ++ evs) f rq) = false
           /\ sent logs = []).
Proof.
  intros Hwf H.
  exact (proj2 (keeps_workflow switch get_organization_organization_list
                  get_server_profile_list get_vnic_fc_if_list
                  (all_answered_200 switch) (stopped_at_failure switch)
                  all_answered_200_quiet all_answered_200_trans
                  stopped_at_failure_trans post_request_fail_fast
                  spn org za va zb vb zsa zsb f1 f2 f3 w o w' Hwf H)).
Qed.

End FailFast.

Section Identity.
Variable switch : list event -> fabric -> http_request -> reply.
Variable get_organization_organization_list : string -> api_result string.
Variable get_server_profile_list : string -> api_result string.
Variable get_vnic_fc_if_list : string -> api_result VnicFcIf.

Lemma same_identity_refl c : same_identity c c.
Proof. repeat split. Qed.

Lemma same_identity_trans c1 c2 c3 :
  same_identity c1 c2 -> same_identity c2 c3 -> same_identity c1 c3.
Proof.
  unfold same_identity. intros H1 H2.
  repeat match goal with H : _ /\ _ |- _ => destruct H end.
  repeat split; congruence.
Qed.

Lemma same_identities_quiet w w' (logs : list event) :
  same_clients w w' -> trace w' = trace w ++ logs -> sent logs = [] ->
  same_identities w w'.
Proof.
  intros [Ha Hb] _ _. unfold same_identities. rewrite Ha, Hb.
  split; apply same_identity_refl.
Qed.

Lemma same_identities_trans w1 w2 w3 :
  same_identities w1 w2 -> same_identities w2 w3 -> same_identities w1 w3.
Proof.
  intros [Ha1 Hb1] [Ha2 Hb2]. split; eapply same_identity_trans; eassumption.
Qed.

Lemma post_request_same_identities f i t :
  keeps same_identities same_identities (post_request switch f i t).
Proof.
  intros w o w' Hwf H.
  split; [exact (extends_wf _ _ _ (post_request_extends switch _ _ _ _ _ _ Hwf H))|].
  destruct (post_request_run switch _ _ _ _ _ _ Hwf H) as (logs & -> & _).
  left. destruct f; split; repeat split.
Qed.

(** X16: a run changes nothing on a client but its payload.  After a full
    run, and after each standalone operation, both clients have the address,
    the credentials, the headers, the timeout, the command types, the URL and
    the verify flag they had, and the world is well-formed again, so that
    operations can follow one another. *)
Theorem runs_keep_client_identity
  (w : world) (w' : world) :
  wf w ->
  (forall spn org za va zb vb zsa zsb f1 f2 f3 o,
     configure_intersight_mds_zones switch get_organization_organization_list
       get_server_profile_list get_vnic_fc_if_list
       spn org za va zb vb zsa zsb f1 f2 f3 w = (o, w') ->
     wf w' /\ same_identities w w')
  /\ (forall zsa va zsb vb o,
        activate_zonesets switch zsa va zsb vb w = (o, w') ->
        wf w' /\ same_identities w w')
  /\ (forall zsa za va zsb zb vb o,
        add_zones_to_zonesets switch zsa za va zsb zb vb w = (o, w') ->
        wf w' /\ same_identities w w')
  /\ (forall spn vhba_list o,
        add_device_aliases_from_server_profile_name_and_vhba switch spn vhba_list w
        = (o, w') ->
        wf w' /\ same_identities w w').
Proof.
  intros Hwf.
  assert (Hgen : forall (c : M unit),
             keeps same_identities same_identities c ->
             forall o, c w = (o, w') -> wf w' /\ same_identities w w').
  { intros c Hc o H. destruct (Hc w o w' Hwf H) as (Hwf' & [HR | (_ & HR)]); auto. }
  split; [|split; [|split]].
  - intros spn org za va zb vb zsa zsb f1 f2 f3 o H.
    refine (Hgen _ _ o H).
    apply (keeps_workflow switch _ _ _ same_identities same_identities
             same_identities_quiet same_identities_trans same_identities_trans
             post_request_same_identities).
  - intros zsa va zsb vb o H. refine (Hgen _ _ o H).
    apply (keeps_activate_zonesets switch same_identities same_identities
             same_identities_quiet same_identities_trans same_identities_trans
             post_request_same_identities).
  - intros zsa za va zsb zb vb o H. refine (Hgen _ _ o H).
    apply (keeps_add_zones_to_zonesets switch same_identities same_identities
             same_identities_quiet same_identities_trans same_identities_trans
             post_request_same_identities).
  - intros spn vhba_list o H. refine (Hgen _ _ o H).
    apply (keeps_add_device_aliases switch same_identities same_identities
             same_identities_quiet same_identities_trans same_identities_trans
             post_request_same_identities).
Qed.

End Identity.

Section Completion.
Variable switch : list event -> fabric -> http_request -> reply.
Variable get_organization_organization_list : string -> api_result string.
Variable get_server_profile_list : string -> api_result string.
Variable get_vnic_fc_if_list : string -> api_result VnicFcIf.
Hypothesis switch_accepts : forall tr f rq, accepts (switch tr f rq) = true.

Lemma returns_post_json f command request_type :
  returns (response <- post_request switch f command request_type ;;
           response_json response) (fun _ => True).
Proof.
  eapply returns_bind; [apply (returns_post_request switch switch_accepts)|].
  intros r (j & Hc). unfold response_json. rewrite Hc. apply returns_ret. exact I.
Qed.

Lemma returns_add_device_alias f alias wwpn :
  returns (add_device_alias switch f alias wwpn) (fun _ => True).
Proof. unfold add_device_alias. returns_run. apply returns_post_json. Qed.

Lemma returns_add_zone_to_zoneset f zone zoneset vsan :
  returns (add_zone_to_zoneset switch f zone zoneset vsan) (fun _ => True).
Proof. unfold add_zone_to_zoneset. returns_run. apply returns_post_json. Qed.

Lemma returns_activate_zoneset f zoneset vsan :
  returns (activate_zoneset switch f zoneset vsan) (fun _ => True).
Proof. unfold activate_zoneset. returns_run. apply returns_post_json. Qed.

Lemma returns_configure_zone_and_add_member f zone vsan wwpn alias :
  truthy_str alias || truthy_str wwpn = true ->
  returns (configure_zone_and_add_member switch f zone vsan wwpn alias)
    (fun _ => True).
Proof.
  intros H. unfold configure_zone_and_add_member.
  destruct (truthy_str alias) eqn:Ea; [|destruct (truthy_str wwpn) eqn:Ew];
    try discriminate; cbn [negb andb]; rewrite ?andb_false_r;
    returns_run; apply returns_post_json.
Qed.

Lemma returns_then {A B} (c : M A) (b : B) :
  returns c (fun _ => True) -> returns (bind c (fun _ => ret b)) (fun _ => True).
Proof.
  intros Hc. eapply returns_bind; [exact Hc|]. intros _ _. apply returns_ret; exact I.
Qed.

Lemma returns_configure_vhba spn za va zb vb (b : bool) v :
  vnic_placement_switch_id v = "A" \/ vnic_placement_switch_id v = "B" ->
  (b = false -> nonempty (vnic_wwpn v) = true) ->
  returns (configure_vhba switch spn za va zb vb (PyBool b) (vhba_dict v))
    (fun _ => True).
Proof.
  intros Htag Hw.
  unfold configure_vhba, device_alias_fstring, unknown_fabric_type.
  rewrite !vhba_item_fabric, !vhba_item_name, !vhba_item_wwpn, !vhba_item_no_fabric.
  pose proof (device_alias_nonempty spn v) as Hal. unfold device_alias_of in Hal.
  assert (Hcases : String.eqb (vnic_placement_switch_id v) "A" = true
                   \/ (String.eqb (vnic_placement_switch_id v) "A" = false
                       /\ String.eqb (vnic_placement_switch_id v) "B" = true)).
  { destruct Htag as [Et | Et]; rewrite Et; [left | right; split]; reflexivity. }
  destruct b; cbn [truthy is_False];
    destruct Hcases as [EA | [EA EB]]; returns_run.
  - eapply returns_bind; [apply returns_add_device_alias | intros _ _].
    returns_run. apply returns_then, returns_configure_zone_and_add_member.
    cbn [truthy_str]. rewrite Hal. reflexivity.
  - eapply returns_bind; [apply returns_add_device_alias | intros _ _].
    returns_run. apply returns_then, returns_configure_zone_and_add_member.
    cbn [truthy_str]. rewrite Hal. reflexivity.
  - apply returns_then, returns_configure_zone_and_add_member.
    cbn [truthy_str orb]. apply Hw; reflexivity.
  - apply returns_then, returns_configure_zone_and_add_member.
    cbn [truthy_str orb]. apply Hw; reflexivity.
Qed.

Lemma returns_for_each {X} (body : gmap string string -> M unit)
  (g : X -> gmap string string) (l : list X) :
  Forall (fun x => returns (body (g x)) (fun _ => True)) l ->
  returns (for_each body (map g l)) (fun _ => True).
Proof.
  induction 1 as [|x rest Hx _ IH]; simpl.
  - apply returns_ret; exact I.
  - eapply returns_bind; [exact Hx | intros _ _; exact IH].
Qed.

Lemma returns_stage_add za va zb vb zsa zsb f2 :
  returns (stage_add_zones_to_zonesets switch za va zb vb (Some zsa) (Some zsb) f2)
    (fun _ => True).
Proof.
  unfold stage_add_zones_to_zonesets. destruct (truthy f2); returns_run.
  eapply returns_bind; [apply returns_add_zone_to_zoneset | intros _ _].
  returns_run. apply returns_then, returns_add_zone_to_zoneset.
Qed.

Lemma returns_stage_activate va vb zsa zsb f3 :
  returns (stage_activate_zonesets switch va vb (Some zsa) (Some zsb) f3)
    (fun _ => True).
Proof.
  unfold stage_activate_zonesets. destruct (truthy f3); returns_run.
  eapply returns_bind; [apply returns_activate_zoneset | intros _ _].
  returns_run. apply returns_then, returns_activate_zoneset.
Qed.

(** X15: a run goes through on command errors.  When the inventory has the
    organization, the profile and its adapters, every adapter is tagged "A"
    or "B" (and has a WWPN when aliases are off), both zonesets are named,
    and every answer of the switches is a 200 with an output object, the run
    returns and has sent every request of the workflow, in order, whatever
    command codes the answers carried. *)
Theorem workflow_completes_when_switches_answer_200
  spn org za va zb vb zsa zsb (b : bool) f2 f3
  (organization_moid server_profile_moid : string) (orgs profiles : list string)
  (vnic : VnicFcIf) (vnics : list VnicFcIf) (w : world) :
  wf w ->
  get_organization_organization_list ("Name eq '" +:+ org +:+ "'")
  = ApiResults (organization_moid :: orgs) ->
  get_server_profile_list
    ("Name eq '" +:+ spn +:+ "' and Organization.Moid eq '"
       +:+ organization_moid +:+ "'")
  = ApiResults (server_profile_moid :: profiles) ->
  get_vnic_fc_if_list ("Profile.Moid eq '" +:+ server_profile_moid +:+ "'")
  = ApiResults (vnic :: vnics) ->
  Forall (fun v => vnic_placement_switch_id v = "A"
                   \/ vnic_placement_switch_id v = "B") (vnic :: vnics) ->
  (b = false -> Forall (fun v => nonempty (vnic_wwpn v) = true) (vnic :: vnics)) ->
  exists w',
    configure_intersight_mds_zones switch get_organization_organization_list
      get_server_profile_list get_vnic_fc_if_list
      spn org za va zb vb (Some zsa) (Some zsb) (PyBool b) f2 f3 w = (Ret tt, w')
    /\ sent (trace w') =
         sent (trace w)
           ++ workflow_requests spn za va zb vb (Some zsa) (Some zsb) (PyBool b)
                f2 f3 (vnic :: vnics).
Proof.
  intros Hwf Horg Hprof Hvnic Htags Hwwpn.
  assert (Hres : fst (resolve_vhbas get_organization_organization_list
                        get_server_profile_list get_vnic_fc_if_list spn org w)
                 = Ret (map vhba_dict (vnic :: vnics))).
  { apply resolve_vhbas_returns_iff.
    exists organization_moid, orgs, server_profile_moid, profiles, vnic, vnics.
    auto. }
  destruct (resolve_vhbas get_organization_organization_list
              get_server_profile_list get_vnic_fc_if_list spn org w)
    as [o0 w0] eqn:E0.
  cbn [fst] in Hres. subst o0.
  pose proof (logs_only_extends _ _ _ _
                (logs_only_resolve_vhbas get_organization_organization_list
                   get_server_profile_list get_vnic_fc_if_list spn org)
                Hwf E0) as [Hwf0 Hs0].
  rewrite app_nil_r in Hs0.
  set (rest :=
         bind (for_each (configure_vhba switch spn za va zb vb (PyBool b))
                 (map vhba_dict (vnic :: vnics)))
           (fun _ =>
              bind (stage_add_zones_to_zonesets switch za va zb vb
                      (Some zsa) (Some zsb) f2)
                (fun _ => stage_activate_zonesets switch va vb
                            (Some zsa) (Some zsb) f3))).
  assert (Hret : returns rest (fun _ => True)).
  { unfold rest. eapply returns_bind.
    - apply returns_for_each. apply Forall_forall. intros v Hv.
      apply returns_configure_vhba.
      + exact (proj1 (Forall_forall _ _) Htags v Hv).
      + intros Hb. exact (proj1 (Forall_forall _ _) (Hwwpn Hb) v Hv).
    - intros _ _. eapply returns_bind; [apply returns_stage_add | intros _ _].
      apply returns_stage_activate. }
  assert (Hsends : sends rest
            (upto (workflow_requests spn za va zb vb (Some zsa) (Some zsb)
                     (PyBool b) f2 f3 (vnic :: vnics)))).
  { unfold rest, workflow_requests.
    eapply sends_upto_bind;
      [apply sends_for_each; intros v; apply sends_configure_vhba
      | intros _ | reflexivity].
    eapply sends_upto_bind;
      [apply sends_stage_add | intros _; apply sends_stage_activate
      | reflexivity]. }
  destruct (Hret w0 Hwf0) as ([] & w' & E & _ & _).
  destruct (Hsends w0 _ w' Hwf0 E) as (l & [_ Hl] & _ & Hall).
  exists w'. split.
  - unfold configure_intersight_mds_zones. unfold bind at 1. rewrite E0. exact E.
  - rewrite Hl, Hs0, (Hall (ex_intro _ tt eq_refl)). reflexivity.
Qed.

End Completion.

(** ** The constructors *)

Lemma MdsClient_init_cases ip user pw :
  (truthy_str ip && truthy_str user && truthy_str pw = true
   /\ MdsClient_init ip user pw
      = ([ELog INFO
            "Initializing `MDSClient` instance with IP address '%s' and username '%s'.\n"
            [json_of_opt ip; json_of_opt user]],
         Ret (new_MdsClient (str_of ip) (str_of user) (str_of pw))))
  \/ (truthy_str ip && truthy_str user && truthy_str pw = false
      /\ snd (MdsClient_init ip user pw) = Exit 1
      /\ sent (fst (MdsClient_init ip user pw)) = []
      /\ errors (fst (MdsClient_init ip user pw))
         = [(if negb (truthy_str ip) then "MDS IP address is not provided.\n"
             else if negb (truthy_str user) then "MDS username is not provided.\n"
             else "MDS password is not provided.\n", [])]).
Proof.
  unfold MdsClient_init.
  destruct (truthy_str ip); [|right; repeat split].
  destruct (truthy_str user); [|right; repeat split].
  destruct (truthy_str pw); [left|right]; repeat split.
Qed.

(** X17: [MdsClient.__init__] gives a client exactly when the address, the
    username and the password are all given and not empty; the client then
    is well-formed, with the URL [https://<address>:8443/ins] and the empty
    payload template.  Otherwise the process exits with 1 after one error
    record, which names the first of the three that is missing. *)
Theorem MdsClient_init_validates (ip user pw : option string) :
  ((exists c, snd (MdsClient_init ip user pw) = Ret c)
   <-> truthy_str ip && truthy_str user && truthy_str pw = true)
  /\ (forall c,
        snd (MdsClient_init ip user pw) = Ret c ->
        constructed c
        /\ ip_address c = str_of ip
        /\ username c = str_of user
        /\ password c = str_of pw
        /\ api_url c = "https://" +:+ str_of ip +:+ ":8443/ins"
        /\ api_payload c = envelope "" ""
        /\ errors (fst (MdsClient_init ip user pw)) = [])
  /\ ((forall c, snd (MdsClient_init ip user pw) <> Ret c) ->
      snd (MdsClient_init ip user pw) = Exit 1
      /\ errors (fst (MdsClient_init ip user pw))
         = [(if negb (truthy_str ip) then "MDS IP address is not provided.\n"
             else if negb (truthy_str user) then "MDS username is not provided.\n"
             else "MDS password is not provided.\n", [])]).
Proof.
  destruct (MdsClient_init_cases ip user pw) as [(Hall & E) | (Hall & Hx & _ & He)].
  - rewrite E. cbn [fst snd]. split; [|split].
    + split; [intros _; exact Hall | intros _; eexists; reflexivity].
    + intros c Hc. inversion Hc; subst. repeat split.
    + intros Hno. exfalso. eapply Hno. reflexivity.
  - split; [|split].
    + split; [intros (c & Hc); rewrite Hx in Hc; discriminate
             | intros H; rewrite H in Hall; discriminate].
    + intros c Hc. rewrite Hx in Hc. discriminate.
    + intros _. split; [exact Hx | exact He].
Qed.

Section LibraryFacts.
Variable intersight_ApiClient : string -> string -> string -> outcome ApiClient.

Lemma IntersightClient_init_cases key_id path url :
  (intersight_arguments_valid key_id path url = false
   /\ snd (IntersightClient_init intersight_ApiClient key_id path url) = Exit 1
   /\ sent (fst (IntersightClient_init intersight_ApiClient key_id path url)) = []
   /\ length (errors (fst (IntersightClient_init intersight_ApiClient key_id path url)))
      = 1%nat
   /\ forall library,
        IntersightClient_init library key_id path url
        = IntersightClient_init intersight_ApiClient key_id path url)
  \/ (intersight_arguments_valid key_id path url = true
      /\ sent (fst (IntersightClient_init intersight_ApiClient key_id path url)) = []
      /\ errors (fst (IntersightClient_init intersight_ApiClient key_id path url)) = []
      /\ match intersight_ApiClient (str_of url) (str_of key_id) (str_of path) with
         | Ret api_client =>
             snd (IntersightClient_init intersight_ApiClient key_id path url)
             = Ret {| _intersight_key_id := str_of key_id;
                      _intersight_secret_key_path := str_of path;
                      _intersight_url := str_of url;
                      _api_client := api_client |}
         | Exit n =>
             snd (IntersightClient_init intersight_ApiClient key_id path url) = Exit n
         | Raise e =>
             snd (IntersightClient_init intersight_ApiClient key_id path url) = Raise e
         end).
Proof.
  unfold IntersightClient_init, intersight_arguments_valid,
    authenticate_and_assign_intersight_api_client.
  destruct (truthy_str key_id); [|left; repeat split].
  destruct (truthy_str path); [|left; repeat split].
  destruct (truthy_str url); [|left; repeat split].
  destruct (starts_with "https://" (str_of url)); [|left; repeat split].
  right. cbn [negb andb].
  destruct (intersight_ApiClient _ _ _); repeat split.
Qed.

(** X19: [IntersightClient.__init__] checks its arguments before it touches
    the library: when the key id, the key path or the URL is missing or
    empty, or the URL does not start with [https://], the process exits
    with 1 after one error record, whatever the library would have done;
    when they are valid, the result is the library's, and the client keeps
    the three values and the API client. *)
Theorem IntersightClient_init_validates (key_id path url : option string) :
  (intersight_arguments_valid key_id path url = false ->
     snd (IntersightClient_init intersight_ApiClient key_id path url) = Exit 1
     /\ length (errors (fst (IntersightClient_init intersight_ApiClient
                               key_id path url))) = 1%nat
     /\ forall library,
          IntersightClient_init library key_id path url
          = IntersightClient_init intersight_ApiClient key_id path url)
  /\ (intersight_arguments_valid key_id path url = true ->
        errors (fst (IntersightClient_init intersight_ApiClient key_id path url)) = []
        /\ match intersight_ApiClient (str_of url) (str_of key_id) (str_of path) with
           | Ret api_client =>
               snd (IntersightClient_init intersight_ApiClient key_id path url)
               = Ret {| _intersight_key_id := str_of key_id;
                        _intersight_secret_key_path := str_of path;
                        _intersight_url := str_of url;
                        _api_client := api_client |}
           | Exit n =>
               snd (IntersightClient_init intersight_ApiClient key_id path url)
               = Exit n
           | Raise e =>
               snd (IntersightClient_init intersight_ApiClient key_id path url)
               = Raise e
           end).
Proof.
  destruct (IntersightClient_init_cases key_id path url)
    as [(Hv & Hx & _ & He & Hl) | (Hv & _ & He & Hm)].
  - split; [auto | intros H; rewrite H in Hv; discriminate].
  - split; [intros H; rewrite H in Hv; discriminate | auto].
Qed.

End LibraryFacts.

Lemma string_length_append (a b : string) :
  String.length (a +:+ b) = (String.length a + String.length b)%nat.
Proof. induction a as [|c a IH]; simpl; [reflexivity | rewrite IH; reflexivity]. Qed.

Lemma unquoted_is_not_quoted (name : string) : name <> "'" +:+ name +:+ "'".
Proof.
  intros H. apply (f_equal String.length) in H.
  rewrite !string_length_append in H. simpl in H. lia.
Qed.

Section ReferenceBuilder.
Variable get_organization_organization_list : string -> api_result string.

(** X18: the reference builder asks for the organization with its name
    unquoted, [Name eq <name>], which for the same name is never the query
    of [fetch_organization_moid_from_organization_name].  It returns a
    reference of type [organization.Organization] to the first result of
    its own query, and exits with 1, without raising, when that query has no
    result or fails. *)
Theorem organization_reference_uses_unquoted_filter
  (organization_name : string) (w : world) :
  (forall reference,
     fst (fetch_and_create_organization_reference_object_from_organization_name
            get_organization_organization_list organization_name w)
     = Ret reference
     <-> exists organization_moid others,
           get_organization_organization_list ("Name eq " +:+ organization_name)
           = ApiResults (organization_moid :: others)
           /\ reference = {| object_type := "organization.Organization";
                             moid := organization_moid |})
  /\ ((forall reference,
         fst (fetch_and_create_organization_reference_object_from_organization_name
                get_organization_organization_list organization_name w)
         <> Ret reference) ->
      fst (fetch_and_create_organization_reference_object_from_organization_name
             get_organization_organization_list organization_name w)
      = Exit 1)
  /\ "Name eq " +:+ organization_name <> "Name eq '" +:+ organization_name +:+ "'".
Proof.
  split; [|split].
  - intros reference.
    unfold fetch_and_create_organization_reference_object_from_organization_name,
      logger_info, logger_warning, logger_error, bind, emit, ret, sys_exit.
    cbv beta iota zeta.
    destruct (get_organization_organization_list _) as [[|m others]|msg];
      cbv beta iota zeta; cbn [fst].
    + split; [discriminate | intros (? & ? & H & _); discriminate].
    + split.
      * intros H; inversion H; subst. eauto.
      * intros (? & ? & H & ->). inversion H; subst. reflexivity.
    + split; [discriminate | intros (? & ? & H & _); discriminate].
  - unfold fetch_and_create_organization_reference_object_from_organization_name,
      logger_info, logger_warning, logger_error, bind, emit, ret, sys_exit.
    cbv beta iota zeta.
    destruct (get_organization_organization_list _) as [[|m others]|msg];
      cbv beta iota zeta; cbn [fst]; intros Hno; try reflexivity.
    exfalso; eapply Hno; reflexivity.
  - intros H. simpl in H. injection H as H.
    exact (unquoted_is_not_quoted organization_name H).
Qed.

End ReferenceBuilder.

(** ** [debug.py] *)

Lemma MdsClient_init_ret ip user pw c :
  snd (MdsClient_init ip user pw) = Ret c ->
  constructed c /\ sent (fst (MdsClient_init ip user pw)) = [].
Proof.
  destruct (MdsClient_init_cases ip user pw) as [(_ & E) | (_ & Hx & _)].
  - rewrite E. cbn [fst snd]. intros H; inversion H; subst. repeat split.
  - rewrite Hx. discriminate.
Qed.

Lemma MdsClient_init_aborts ip user pw :
  (forall c, snd (MdsClient_init ip user pw) <> Ret c) ->
  snd (MdsClient_init ip user pw) = Exit 1
  /\ sent (fst (MdsClient_init ip user pw)) = [].
Proof.
  destruct (MdsClient_init_cases ip user pw) as [(_ & E) | (_ & Hx & Hs & _)].
  - rewrite E. cbn [fst snd]. intros Hno. exfalso; eapply Hno; reflexivity.
  - auto.
Qed.

Lemma IntersightClient_init_quiet library key_id path url :
  sent (fst (IntersightClient_init library key_id path url)) = [].
Proof.
  destruct (IntersightClient_init_cases library key_id path url)
    as [(_ & _ & H & _) | (_ & H & _)]; exact H.
Qed.

Section Script.
Variable getenv : string -> option string.
Variable intersight_ApiClient : string -> string -> string -> outcome ApiClient.
Variable switch : list event -> fabric -> http_request -> reply.

(** X20: the script sends nothing before its three clients exist.  Either
    it is aborted with no request sent, or the library gave an API client
    and the requests are those of the full run for the constants of the
    script and the adapters of the inventory: the first ones when the run
    stops, all of them when it returns.  With a variable of a switch
    (address, username or password) unset or empty, it is aborted before any
    request. *)
Theorem debug_main_requests :
  ((sent (snd (debug_main getenv intersight_ApiClient switch)) = []
    /\ aborted (fst (debug_main getenv intersight_ApiClient switch)))
   \/ exists api_client flt vnics,
        intersight_ApiClient "https://intersight.com"
          (str_of (getenv "INTERSIGHT_KEY_ID"))
          (str_of (getenv "INTERSIGHT_SECRET_KEY_PATH"))
        = Ret api_client
        /\ vnic_fc_if_list api_client flt = ApiResults vnics
        /\ upto
             (workflow_requests "new-server-profile" "new-server-profile" "100"
                "new-server-profile" "200"
                (Some "zoneset-demo-a") (Some "zoneset-demo-b")
                (PyBool true) (PyBool true) (PyBool true) vnics)
             (fst (debug_main getenv intersight_ApiClient switch))
             (sent (snd (debug_main getenv intersight_ApiClient switch))))
  /\ (truthy_str (getenv "MDS_IP_ADDRESS_A") && truthy_str (getenv "MDS_USERNAME_A")
      && truthy_str (getenv "MDS_PASSWORD_A")
      && truthy_str (getenv "MDS_IP_ADDRESS_B") && truthy_str (getenv "MDS_USERNAME_B")
      && truthy_str (getenv "MDS_PASSWORD_B") = false ->
      sent (snd (debug_main getenv intersight_ApiClient switch)) = []
      /\ aborted (fst (debug_main getenv intersight_ApiClient switch))).
Proof.
  unfold debug_main. cbv zeta.
  pose proof (IntersightClient_init_quiet intersight_ApiClient
                (getenv "INTERSIGHT_KEY_ID") (getenv "INTERSIGHT_SECRET_KEY_PATH")
                (Some "https://intersight.com")) as Hqi.
  pose proof (IntersightClient_init_cases intersight_ApiClient
                (getenv "INTERSIGHT_KEY_ID") (getenv "INTERSIGHT_SECRET_KEY_PATH")
                (Some "https://intersight.com")) as Hic.
  destruct (IntersightClient_init intersight_ApiClient _ _ _) as [log_i [ic|n|e]];
    cbn [fst snd] in *;
    [| (split; [left|intros _]; (split; [exact Hqi | exact I])) ..].
  assert (Hlib : intersight_ApiClient "https://intersight.com"
                   (str_of (getenv "INTERSIGHT_KEY_ID"))
                   (str_of (getenv "INTERSIGHT_SECRET_KEY_PATH"))
                 = Ret (_api_client ic)).
  { destruct Hic as [(_ & Hx & _) | (_ & _ & _ & Hm)]; [discriminate|].
    cbn [str_of] in Hm.
    destruct (intersight_ApiClient _ _ _) as [api|n|e];
      inversion Hm; subst; reflexivity. }
  pose proof (MdsClient_init_cases (getenv "MDS_IP_ADDRESS_A")
                (getenv "MDS_USERNAME_A") (getenv "MDS_PASSWORD_A")) as Hca.
  destruct (MdsClient_init (getenv "MDS_IP_ADDRESS_A") _ _) as [log_a oa].
  cbn [fst snd] in Hca.
  destruct Hca as [(Ha & Ea) | (Ha & -> & Hsa & _)].
  2:{ cbv beta iota; cbn [fst snd].
      split; [left|intros _]; (split; [|exact I]);
        rewrite sent_app, Hqi, Hsa; reflexivity. }
  inversion Ea; subst log_a oa; clear Ea.
  cbv beta iota.
  pose proof (MdsClient_init_cases (getenv "MDS_IP_ADDRESS_B")
                (getenv "MDS_USERNAME_B") (getenv "MDS_PASSWORD_B")) as Hcb.
  destruct (MdsClient_init (getenv "MDS_IP_ADDRESS_B") _ _) as [log_b ob].
  cbn [fst snd] in Hcb.
  destruct Hcb as [(Hb & Eb) | (Hb & -> & Hsb & _)].
  2:{ cbv beta iota; cbn [fst snd].
      split; [left|intros _]; (split; [|exact I]);
        rewrite !sent_app, Hqi, Hsb; reflexivity. }
  inversion Eb; subst log_b ob; clear Eb.
  cbv beta iota.
  match goal with
  | |- context [configure_intersight_mds_zones ?sw ?go ?gp ?gv ?spn ?org ?za ?va
                  ?zb ?vb ?zsa ?zsb ?f1 ?f2 ?f3 ?w0] =>
      pose proof (sends_workflow sw go gp gv spn org za va zb vb zsa zsb f1 f2 f3 w0)
        as Hrun;
      destruct (configure_intersight_mds_zones sw go gp gv spn org za va
                  zb vb zsa zsb f1 f2 f3 w0) as [o w'] eqn:E;
      specialize (Hrun o w'
                    (conj (new_MdsClient_constructed _ _ _)
                          (new_MdsClient_constructed _ _ _)) eq_refl)
  end.
  destruct Hrun as (l & [_ Hl] & Hpost). cbn [fst snd trace] in *.
  rewrite !sent_app, Hqi in Hl. cbn in Hl.
  split.
  - destruct Hpost as [(-> & Hab) | (flt & vnics & Ev & Hup)].
    + left. split; [exact Hl | exact Hab].
    + right. exists (_api_client ic), flt, vnics.
      split; [exact Hlib|]. split; [exact Ev|]. rewrite Hl. exact Hup.
  - intros Hmiss. rewrite <- !andb_assoc in Hmiss.
    rewrite <- !andb_assoc in Ha, Hb.
    apply andb_prop in Ha as (Ha1 & Ha). apply andb_prop in Ha as (Ha2 & Ha3).
    apply andb_prop in Hb as (Hb1 & Hb). apply andb_prop in Hb as (Hb2 & Hb3).
    rewrite Ha1, Ha2, Ha3, Hb1, Hb2, Hb3 in Hmiss. discriminate.
Qed.

End Script.

(** ** The standalone operations *)

Section Standalone.
Variable switch : list event -> fabric -> http_request -> reply.

(** X21: each standalone operation sends its requests in a fixed order and
    stops at the first one that ends the call: activation and zone addition
    send the request of fabric A, then that of fabric B; the alias operation
    sends one alias request for each adapter tagged "A" or "B", in the order
    of the list.  What was sent is always a first part of that sequence, and
    all of it when the operation returns. *)
Theorem standalone_operations_send_in_order (w : world) :
  wf w ->
  (forall zsa va zsb vb o w',
     activate_zonesets switch zsa va zsb vb w = (o, w') ->
     exists l,
       sent (trace w') = sent (trace w) ++ l
       /\ upto (activate_requests zsa va zsb vb) o l)
  /\ (forall zsa za va zsb zb vb o w',
        add_zones_to_zonesets switch zsa za va zsb zb vb w = (o, w') ->
        exists l,
          sent (trace w') = sent (trace w) ++ l
          /\ upto (add_zones_requests zsa za va zsb zb vb) o l)
  /\ (forall spn vnics o w',
        add_device_aliases_from_server_profile_name_and_vhba switch spn
          (map vhba_dict vnics) w = (o, w') ->
        exists l,
          sent (trace w') = sent (trace w) ++ l
          /\ upto (flat_map (alias_requests spn) vnics) o l).
Proof.
  intros Hwf. split; [|split].
  - intros zsa va zsb vb o w' Hrun.
    destruct (sends_activate_zonesets switch zsa va zsb vb w o w' Hwf Hrun)
      as (l & [_ Hsent] & Hupto).
    exists l. split; assumption.
  - intros zsa za va zsb zb vb o w' Hrun.
    destruct (sends_add_zones_to_zonesets switch zsa za va zsb zb vb w o w' Hwf Hrun)
      as (l & [_ Hsent] & Hupto).
    exists l. split; assumption.
  - intros spn vnics o w' Hrun.
    destruct (sends_add_device_aliases switch spn vnics w o w' Hwf Hrun)
      as (l & [_ Hsent] & Hupto).
    exists l. split; assumption.
Qed.

End Standalone.

(** ** The alias flag *)

Section AliasFlag.
Variable switch : list event -> fabric -> http_request -> reply.
Variable get_organization_organization_list : string -> api_result string.
Variable get_server_profile_list : string -> api_result string.
Variable get_vnic_fc_if_list : string -> api_result VnicFcIf.

(** The requests of one adapter, by flag: the creation of its alias and a
    zone-member command that names the alias, or one zone-member command
    that names its WWPN. *)
Lemma adapter_requests_by_flag spn za va zb vb (b : bool) v f zone vsan :
  (vnic_placement_switch_id v = "A" /\ f = FabA /\ zone = za /\ vsan = va)
  \/ (vnic_placement_switch_id v = "B" /\ f = FabB /\ zone = zb /\ vsan = vb) ->
  adapter_requests spn za va zb vb (PyBool b) v
  = if b then
      [config_request f (alias_command (device_alias_of spn v) (vnic_wwpn v));
       config_request f (member_alias_command zone vsan (device_alias_of spn v))]
    else if nonempty (vnic_wwpn v) then
      [config_request f (member_pwwn_command zone vsan (vnic_wwpn v))]
    else [].
Proof.
  assert (E : String.eqb "B" "A" = false) by reflexivity.
  intros [(Ht & -> & -> & ->) | (Ht & -> & -> & ->)];
    unfold adapter_requests, adapter_requests_on; rewrite Ht;
    rewrite ?E, ?String.eqb_refl; destruct b; reflexivity.
Qed.

(** When the switches accept every request, the loop over the adapters of
    the inventory goes through and sends the requests of each of them. *)
Lemma loop_sends_all_when_accepted spn za va zb vb (b : bool) vnics w0 :
  (forall tr f rq, accepts (switch tr f rq) = true) ->
  Forall (fun v => vnic_placement_switch_id v = "A"
                   \/ vnic_placement_switch_id v = "B") vnics ->
  (b = false -> Forall (fun v => nonempty (vnic_wwpn v) = true) vnics) ->
  wf w0 ->
  exists w1,
    for_each (configure_vhba switch spn za va zb vb (PyBool b))
      (map vhba_dict vnics) w0 = (Ret tt, w1)
    /\ wf w1
    /\ sent (trace w1) =
         sent (trace w0) ++ flat_map (adapter_requests spn za va zb vb (PyBool b)) vnics.
Proof.
  intros Hacc Htags Hwwpn Hwf0.
  assert (Hret : returns
            (for_each (configure_vhba switch spn za va zb vb (PyBool b))
               (map vhba_dict vnics)) (fun _ => True)).
  { apply returns_for_each. apply Forall_forall. intros v Hv.
    apply (returns_configure_vhba switch Hacc).
    - exact (proj1 (Forall_forall _ _) Htags v Hv).
    - intros Hb. exact (proj1 (Forall_forall _ _) (Hwwpn Hb) v Hv). }
  destruct (Hret w0 Hwf0) as ([] & w1 & E1 & Hwf1 & _).
  assert (Hsends : sends
            (for_each (configure_vhba switch spn za va zb vb (PyBool b))
               (map vhba_dict vnics))
            (upto (flat_map (adapter_requests spn za va zb vb (PyBool b)) vnics))).
  { apply sends_for_each. intros v. apply sends_configure_vhba. }
  destruct (Hsends w0 _ w1 Hwf0 E1) as (l & [_ Hl] & _ & Hall).
  exists w1. split; [exact E1|]. split; [exact Hwf1|].
  rewrite Hl, (Hall (ex_intro _ tt eq_refl)). reflexivity.
Qed.

(** C6: the flag decides how an adapter is named in its zone.  With the
    flag false no request creates an alias and the one request for an
    adapter is a zone-member command with its WWPN ([member pwwn]); with
    the flag true the requests for an adapter are the creation of its alias
    and then a zone-member command with that alias ([member device-alias]),
    and the zone-member call picks the alias although it is given the WWPN
    too.  These requests go to the fabric of the adapter's tag with that
    fabric's zone and VSAN; what a run sends for the adapters is the first
    part of their requests, in the order of the inventory, and all of them
    when the run returns; and when the switches accept every request, every
    adapter of the inventory gets its requests. *)
Theorem C6_flag_selects_alias_or_wwpn
  spn org za va zb vb zsa zsb (b : bool) f2 f3 w o w' :
  wf w ->
  configure_intersight_mds_zones switch get_organization_organization_list
    get_server_profile_list get_vnic_fc_if_list
    spn org za va zb vb zsa zsb (PyBool b) f2 f3 w = (o, w') ->
  exists l,
    sent (trace w') = sent (trace w) ++ l
    /\ (b = false ->
        Forall
          (fun r =>
             is_alias_creation r = false
             /\ (is_zoneset_command r = true
                 \/ exists flt vnics v f zone vsan,
                      get_vnic_fc_if_list flt = ApiResults vnics /\ v ∈ vnics
                      /\ r = config_request f
                               (member_pwwn_command zone vsan (vnic_wwpn v)))) l)
    /\ (b = true ->
        Forall
          (fun r =>
             is_zoneset_command r = true
             \/ exists flt vnics v f zone vsan,
                  get_vnic_fc_if_list flt = ApiResults vnics /\ v ∈ vnics
                  /\ (r = config_request f
                            (alias_command (device_alias_of spn v) (vnic_wwpn v))
                      \/ r = config_request f
                               (member_alias_command zone vsan
                                  (device_alias_of spn v)))) l)
    /\ (forall f zone vsan wwpn v w1 o1 w1',
          wf w1 ->
          configure_zone_and_add_member switch f zone vsan (Some wwpn)
            (Some (device_alias_of spn v)) w1 = (o1, w1') ->
          exists l1,
            sent (trace w1') = sent (trace w1) ++ l1
            /\ l1 `prefix_of`
                 [config_request f
                    (member_alias_command zone vsan (device_alias_of spn v))]
            /\ (returned o1 ->
                l1 = [config_request f
                        (member_alias_command zone vsan (device_alias_of spn v))]))
    /\ ((l = [] /\ aborted o)
        \/ exists flt vnics l_adapters l_stages,
             get_vnic_fc_if_list flt = ApiResults vnics
             /\ l = l_adapters ++ l_stages
             /\ Forall (fun r => is_zoneset_command r = true) l_stages
             /\ l_adapters `prefix_of`
                  flat_map (adapter_requests spn za va zb vb (PyBool b)) vnics
             /\ (returned o ->
                 l_adapters
                 = flat_map (adapter_requests spn za va zb vb (PyBool b)) vnics))
    /\ (forall v f zone vsan,
          (vnic_placement_switch_id v = "A" /\ f = FabA /\ zone = za /\ vsan = va)
          \/ (vnic_placement_switch_id v = "B" /\ f = FabB /\ zone = zb /\ vsan = vb) ->
          adapter_requests spn za va zb vb (PyBool b) v
          = if b then
              [config_request f
                 (alias_command (device_alias_of spn v) (vnic_wwpn v));
               config_request f
                 (member_alias_command zone vsan (device_alias_of spn v))]
            else if nonempty (vnic_wwpn v) then
              [config_request f (member_pwwn_command zone vsan (vnic_wwpn v))]
            else [])
    /\ ((forall tr f rq, accepts (switch tr f rq) = true) ->
        forall vnics,
          fst (resolve_vhbas get_organization_organization_list
                 get_server_profile_list get_vnic_fc_if_list spn org w)
          = Ret (map vhba_dict vnics) ->
          Forall (fun v => vnic_placement_switch_id v = "A"
                           \/ vnic_placement_switch_id v = "B") vnics ->
          (b = false -> Forall (fun v => nonempty (vnic_wwpn v) = true) vnics) ->
          flat_map (adapter_requests spn za va zb vb (PyBool b)) vnics
            `prefix_of` l).
Proof.
  intros Hwf H.
  destruct (workflow_run_shape switch get_organization_organization_list
              get_server_profile_list get_vnic_fc_if_list
              _ _ _ _ _ _ _ _ _ _ _ _ _ _ Hwf H)
    as (l & Hs & Hl).
  exists l; split; [exact Hs|].
  split; [|split; [|split; [|split; [|split]]]].
  - intros ->.
    destruct Hl as [[-> _] | (flt & vnics & la & ladd & lact & E & -> & Hla & Hladd
                          & Hlact & _)]; [constructor|].
    repeat (apply Forall_app; split).
    + eapply prefix_Forall; [exact Hla|].
      apply Forall_forall. intros r Hr.
      apply list_elem_of_In, in_flat_map in Hr as (v & Hv & Hr).
      apply list_elem_of_In in Hr, Hv.
      destruct (adapter_requests_flag_false get_organization_organization_list
                  get_server_profile_list get_vnic_fc_if_list _ _ _ _ _ _ _ Hr)
        as (Hna & f & zone & vsan & ->).
      split; [exact Hna|]. right. exists flt, vnics, v, f, zone, vsan. auto.
    + eapply prefix_Forall; [exact Hladd|].
      eapply Forall_impl; [apply stage_add_requests_zoneset|].
      intros r [Hr Hr']; auto.
    + eapply prefix_Forall; [exact Hlact|].
      eapply Forall_impl; [apply stage_activate_requests_zoneset|].
      intros r [Hr Hr']; auto.
  - intros ->.
    destruct Hl as [[-> _] | (flt & vnics & la & ladd & lact & E & -> & Hla & Hladd
                          & Hlact & _)]; [constructor|].
    repeat (apply Forall_app; split).
    + eapply prefix_Forall; [exact Hla|].
      apply Forall_forall. intros r Hr.
      apply list_elem_of_In, in_flat_map in Hr as (v & Hv & Hr).
      apply list_elem_of_In in Hr, Hv.
      destruct (adapter_requests_flag_true get_organization_organization_list
                  get_server_profile_list get_vnic_fc_if_list _ _ _ _ _ _ _ Hr)
        as (f & zone & vsan & Hshape).
      right. exists flt, vnics, v, f, zone, vsan. auto.
    + eapply prefix_Forall; [exact Hladd|].
      eapply Forall_impl; [apply stage_add_requests_zoneset|].
      intros r [Hr Hr']; auto.
    + eapply prefix_Forall; [exact Hlact|].
      eapply Forall_impl; [apply stage_activate_requests_zoneset|].
      intros r [Hr Hr']; auto.
  - intros f zone vsan wwpn v w1 o1 w1' Hwf1 H1.
    destruct (sends_member_by_alias switch f zone vsan (Some wwpn) spn v
                w1 o1 w1' Hwf1 H1) as (l1 & [_ Hs1] & Hp & Hr).
    exists l1; auto.
  - destruct Hl as [Hl | (flt & vnics & la & ladd & lact & E & -> & Hla & Hladd
                          & Hlact & _ & _ & Hret)]; [left; exact Hl | right].
    exists flt, vnics, la, (ladd ++ lact).
    split; [exact E|]. split; [reflexivity|].
    split; [|split; [exact Hla | intros Ho; exact (proj1 (Hret Ho))]].
    apply Forall_app; split.
    + eapply prefix_Forall; [exact Hladd|].
      eapply Forall_impl; [apply stage_add_requests_zoneset|].
      intros r [Hr _]; exact Hr.
    + eapply prefix_Forall; [exact Hlact|].
      eapply Forall_impl; [apply stage_activate_requests_zoneset|].
      intros r [Hr _]; exact Hr.
  - intros v f zone vsan Hv. apply adapter_requests_by_flag; exact Hv.
  - intros Hacc vnics Hres Htags Hwwpn.
    destruct (resolve_vhbas get_organization_organization_list
                get_server_profile_list get_vnic_fc_if_list spn org w)
      as [o0 w0] eqn:E0.
    cbn [fst] in Hres. subst o0.
    pose proof (logs_only_extends _ _ _ _
                  (logs_only_resolve_vhbas get_organization_organization_list
                     get_server_profile_list get_vnic_fc_if_list spn org)
                  Hwf E0) as [Hwf0 Hs0].
    rewrite app_nil_r in Hs0.
    destruct (loop_sends_all_when_accepted spn za va zb vb b vnics w0
                Hacc Htags Hwwpn Hwf0) as (w1 & E1 & Hwf1 & Hs1).
    unfold configure_intersight_mds_zones in H.
    unfold bind at 1 in H. rewrite E0 in H.
    unfold bind at 1 in H. rewrite E1 in H.
    assert (Hstages :
      sends (bind (stage_add_zones_to_zonesets switch za va zb vb zsa zsb f2)
               (fun _ => stage_activate_zonesets switch va vb zsa zsb f3))
        (upto (stage_add_requests za va zb vb zsa zsb f2
                 ++ stage_activate_requests va vb zsa zsb f3))).
    { eapply sends_upto_bind;
        [apply sends_stage_add | intros _; apply sends_stage_activate
        | reflexivity]. }
    destruct (Hstages w1 _ w' Hwf1 H) as (l2 & [_ Hs2] & _).
    exists l2. apply (app_inv_head (sent (trace w))).
    rewrite <- Hs, Hs2, Hs1, Hs0, <- !app_assoc. reflexivity.
Qed.

End AliasFlag.
(** C6 on the bench: the run without aliases. *)
Lemma C6_witness :
  (wf bench_world)
  /\ (configure_intersight_mds_zones switch_ok bench_organizations
      bench_profiles bench_vnics
      "srv1" "default" "zone-a" "100" "zone-b" "200" (Some "zs-a") (Some "zs-b") (PyBool false) (PyBool true) (PyBool true) bench_world = ((fst bench_run_wwpn), (snd bench_run_wwpn)))
  /\ (exists l,
      sent (trace (snd bench_run_wwpn)) = sent (trace bench_world) ++ l
      /\ (false = false ->
          Forall
            (fun r =>
               is_alias_creation r = false
               /\ (is_zoneset_command r = true
                   \/ exists flt vnics v f zone vsan,
                        bench_vnics flt = ApiResults vnics /\ v ∈ vnics
                        /\ r = config_request f
                                 (member_pwwn_command zone vsan (vnic_wwpn v)))) l)
      /\ (false = true ->
          Forall
            (fun r =>
               is_zoneset_command r = true
               \/ exists flt vnics v f zone vsan,
                    bench_vnics flt = ApiResults vnics /\ v ∈ vnics
                    /\ (r = config_request f
                              (alias_command (device_alias_of "srv1" v) (vnic_wwpn v))
                        \/ r = config_request f
                                 (member_alias_command zone vsan
                                    (device_alias_of "srv1" v)))) l)
      /\ (forall f zone vsan wwpn v w1 o1 w1',
            wf w1 ->
            configure_zone_and_add_member switch_ok f zone vsan (Some wwpn)
              (Some (device_alias_of "srv1" v)) w1 = (o1, w1') ->
            exists l1,
              sent (trace w1') = sent (trace w1) ++ l1
              /\ l1 `prefix_of`
                   [config_request f
                      (member_alias_command zone vsan (device_alias_of "srv1" v))]
              /\ (returned o1 ->
                  l1 = [config_request f
                          (member_alias_command zone vsan (device_alias_of "srv1" v))]))
      /\ ((l = [] /\ aborted (fst bench_run_wwpn))
          \/ exists flt vnics l_adapters l_stages,
               bench_vnics flt = ApiResults vnics
               /\ l = l_adapters ++ l_stages
               /\ Forall (fun r => is_zoneset_command r = true) l_stages
               /\ l_adapters `prefix_of`
                    flat_map (adapter_requests "srv1" "zone-a" "100" "zone-b" "200" (PyBool false)) vnics
               /\ (returned (fst bench_run_wwpn) ->
                   l_adapters
                   = flat_map (adapter_requests "srv1" "zone-a" "100" "zone-b" "200" (PyBool false)) vnics))
      /\ (forall v f zone vsan,
            (vnic_placement_switch_id v = "A" /\ f = FabA /\ zone = "zone-a" /\ vsan = "100")
            \/ (vnic_placement_switch_id v = "B" /\ f = FabB /\ zone = "zone-b" /\ vsan = "200") ->
            adapter_requests "srv1" "zone-a" "100" "zone-b" "200" (PyBool false) v
            = if false then
                [config_request f
                   (alias_command (device_alias_of "srv1" v) (vnic_wwpn v));
                 config_request f
                   (member_alias_command zone vsan (device_alias_of "srv1" v))]
              else if nonempty (vnic_wwpn v) then
                [config_request f (member_pwwn_command zone vsan (vnic_wwpn v))]
              else [])
      /\ ((forall tr f rq, accepts (switch_ok tr f rq) = true) ->
          forall vnics,
            fst (resolve_vhbas bench_organizations
                   bench_profiles bench_vnics "srv1" "default" bench_world)
            = Ret (map vhba_dict vnics) ->
            Forall (fun v => vnic_placement_switch_id v = "A"
                             \/ vnic_placement_switch_id v = "B") vnics ->
            (false = false -> Forall (fun v => nonempty (vnic_wwpn v) = true) vnics) ->
            flat_map (adapter_requests "srv1" "zone-a" "100" "zone-b" "200" (PyBool false)) vnics
              `prefix_of` l)).
Proof.
  split; [exact bench_world_wf|].
  split; [vm_compute; reflexivity|].
  eapply C6_flag_selects_alias_or_wwpn with
    (switch := switch_ok)
    (get_organization_organization_list := bench_organizations)
    (get_server_profile_list := bench_profiles)
    (get_vnic_fc_if_list := bench_vnics)
    (spn := "srv1")
    (org := "default")
    (za := "zone-a")
    (va := "100")
    (zb := "zone-b")
    (vb := "200")
    (zsa := (Some "zs-a"))
    (zsb := (Some "zs-b"))
    (f2 := (PyBool true))
    (f3 := (PyBool true))
    (b := false)
    (w := bench_world)
    (o := (fst bench_run_wwpn))
    (w' := (snd bench_run_wwpn)).
  - exact bench_world_wf.
  - vm_compute; reflexivity.
Defined.
(** X1 on the bench: a switch that never answers. *)
Lemma X1_witness :
  (wf bench_world)
  /\ (reply_to switch_silent bench_world FabA bench_command "cli_conf" = NoAnswer "timed out")
  /\ (exists w',
      post_request switch_silent FabA bench_command "cli_conf" bench_world = (Raise (RequestException "timed out"), w')
      /\ errors (trace w') = errors (trace bench_world)
      /\ sent (trace w') = sent (trace bench_world) ++ [(FabA, envelope bench_command "cli_conf")]).
Proof.
  split; [exact bench_world_wf|].
  split; [reflexivity|].
  eapply post_request_no_answer_propagates with
    (switch := switch_silent)
    (f := FabA)
    (i := bench_command)
    (t := "cli_conf")
    (w := bench_world)
    (msg := "timed out").
  - exact bench_world_wf.
  - reflexivity.
Defined.

(** X2 on the bench: a 200 answer that is not JSON. *)
Lemma X2_witness :
  (wf bench_world)
  /\ (reply_to switch_page bench_world FabA bench_command "cli_conf" = Answer bench_answer_page)
  /\ (status_code bench_answer_page = 200)
  /\ (content bench_answer_page = None
    \/ (exists j, content bench_answer_page = Some j
                  /\ json_path ["ins_api"; "outputs"; "output"] j = None))
  /\ (post_request switch_page FabA bench_command "cli_conf" bench_world = ((fst bench_post_page), (snd bench_post_page)))
  /\ ((exists e, (fst bench_post_page) = Raise e
               /\ (content bench_answer_page = None <-> e = JSONDecodeError))
    /\ errors (trace (snd bench_post_page)) = errors (trace bench_world)
    /\ exists before after,
         trace (snd bench_post_page) = before ++
           ELog INFO
             "POST request of type '%s' with input '%s' to MDS `%s`was successful.\n"
             [JStr (ip_address (client_of FabA bench_world)); JStr "cli_conf"; JStr bench_command] :: after).
Proof.
  split; [exact bench_world_wf|].
  split; [reflexivity|].
  split; [reflexivity|].
  split; [left; reflexivity|].
  split; [vm_compute; reflexivity|].
  eapply post_request_unusable_body_raises with
    (switch := switch_page)
    (f := FabA)
    (i := bench_command)
    (t := "cli_conf")
    (w := bench_world)
    (r := bench_answer_page)
    (o := (fst bench_post_page))
    (w' := (snd bench_post_page)).
  - exact bench_world_wf.
  - reflexivity.
  - reflexivity.
  - left; reflexivity.
  - vm_compute; reflexivity.
Defined.

(** X3 on the bench: three outputs, the second one an error. *)
Lemma X3_witness :
  (wf bench_world)
  /\ (reply_to switch_list bench_world FabA bench_command "cli_conf" = Answer bench_answer_list)
  /\ (status_code bench_answer_list = 200)
  /\ (content bench_answer_list = Some (body_with_output (JArr bench_outputs)))
  /\ (json_path ["ins_api"; "outputs"; "output"] (body_with_output (JArr bench_outputs)) = Some (JArr bench_outputs))
  /\ (post_request switch_list FabA bench_command "cli_conf" bench_world = ((fst bench_post_list), (snd bench_post_list)))
  /\ ((fst bench_post_list) = (if existsb (is_str "code") bench_outputs then Raise TypeError else Ret bench_answer_list)
    /\ errors (trace (snd bench_post_list)) = errors (trace bench_world)).
Proof.
  split; [exact bench_world_wf|].
  split; [reflexivity|].
  split; [reflexivity|].
  split; [reflexivity|].
  split; [reflexivity|].
  split; [vm_compute; reflexivity|].
  eapply post_request_list_output_not_checked with
    (switch := switch_list)
    (f := FabA)
    (i := bench_command)
    (t := "cli_conf")
    (w := bench_world)
    (r := bench_answer_list)
    (j := (body_with_output (JArr bench_outputs)))
    (items := bench_outputs)
    (o := (fst bench_post_list))
    (w' := (snd bench_post_list)).
  - exact bench_world_wf.
  - reflexivity.
  - reflexivity.
  - reflexivity.
  - reflexivity.
  - vm_compute; reflexivity.
Defined.

(** X4 on the bench: a switch that accepts the command. *)
Lemma X4_witness :
  (wf bench_world)
  /\ (reply_to switch_ok bench_world FabA bench_command "cli_conf" = Answer bench_answer_ok)
  /\ (status_code bench_answer_ok = 200)
  /\ (content bench_answer_ok = Some (body_with_output (JObj success_output)))
  /\ (json_path ["ins_api"; "outputs"; "output"] (body_with_output (JObj success_output)) = Some (JObj success_output))
  /\ (match dict_get "code" success_output with
    | Some code => is_str "200" code = true
    | None => True
    end)
  /\ (post_request switch_ok FabA bench_command "cli_conf" bench_world = ((fst bench_post_ok), (snd bench_post_ok)))
  /\ ((fst bench_post_ok) = Ret bench_answer_ok
    /\ errors (trace (snd bench_post_ok)) = errors (trace bench_world)
    /\ sent (trace (snd bench_post_ok)) = sent (trace bench_world) ++ [(FabA, envelope bench_command "cli_conf")]).
Proof.
  split; [exact bench_world_wf|].
  split; [reflexivity|].
  split; [reflexivity|].
  split; [reflexivity|].
  split; [reflexivity|].
  split; [reflexivity|].
  split; [vm_compute; reflexivity|].
  eapply post_request_success_logs_no_error with
    (switch := switch_ok)
    (f := FabA)
    (i := bench_command)
    (t := "cli_conf")
    (w := bench_world)
    (r := bench_answer_ok)
    (j := (body_with_output (JObj success_output)))
    (output := success_output)
    (o := (fst bench_post_ok))
    (w' := (snd bench_post_ok)).
  - exact bench_world_wf.
  - reflexivity.
  - reflexivity.
  - reflexivity.
  - reflexivity.
  - reflexivity.
  - vm_compute; reflexivity.
Defined.

(** X5 on the bench. *)
Lemma X5_witness :
  (wf bench_world)
  /\ (fetch_zone_info switch_ok FabA "zone-a" "100" bench_world = ((fst bench_zone_info), (snd bench_zone_info)))
  /\ (sent (trace (snd bench_zone_info)) =
      sent (trace bench_world)
        ++ [(FabA, envelope ("show zone name " +:+ "zone-a" +:+ " vsan " +:+ "100")
                  "cli_show")]
    /\ forall j,
         (fst bench_zone_info) = Ret j ->
         exists pre rq post r,
           trace (snd bench_zone_info) = pre ++ EPost FabA rq :: post
           /\ trace bench_world `prefix_of` pre
           /\ rq_data rq =
                envelope ("show zone name " +:+ "zone-a" +:+ " vsan " +:+ "100")
                  "cli_show"
           /\ switch_ok pre FabA rq = Answer r
           /\ status_code r = 200
           /\ content r = Some j).
Proof.
  split; [exact bench_world_wf|].
  split; [vm_compute; reflexivity|].
  eapply fetch_zone_info_reads_only with
    (switch := switch_ok)
    (f := FabA)
    (zone_name := "zone-a")
    (vsan_id := "100")
    (w := bench_world)
    (o := (fst bench_zone_info))
    (w' := (snd bench_zone_info)).
  - exact bench_world_wf.
  - vm_compute; reflexivity.
Defined.

(** X7 on the bench: a WWPN and an empty alias. *)
Lemma X7_witness :
  (wf bench_world)
  /\ (truthy_str (Some "") = false)
  /\ (configure_zone_and_add_member switch_ok FabA "zone-a" "100" (Some "20:00:00:25:B5:00:00:01") (Some "") bench_world = ((fst bench_member_by_wwpn), (snd bench_member_by_wwpn)))
  /\ ((truthy_str (Some "20:00:00:25:B5:00:00:01") = false ->
       (fst bench_member_by_wwpn) = Exit 1
       /\ (snd bench_member_by_wwpn) = logged bench_world
                 [ELog ERROR
                    "Either member WWPN or device alias name must be provided.\n" []])
    /\ (truthy_str (Some "20:00:00:25:B5:00:00:01") = true ->
          sent (trace (snd bench_member_by_wwpn)) =
            sent (trace bench_world)
              ++ [(FabA, envelope
                        ("zone name " +:+ "zone-a" +:+ " vsan " +:+ "100"
                           +:+ " ;member pwwn " +:+ str_of (Some "20:00:00:25:B5:00:00:01"))
                        "cli_conf")])).
Proof.
  split; [exact bench_world_wf|].
  split; [reflexivity|].
  split; [vm_compute; reflexivity|].
  eapply zone_member_needs_wwpn_or_alias with
    (switch := switch_ok)
    (f := FabA)
    (zone := "zone-a")
    (vsan := "100")
    (wwpn := (Some "20:00:00:25:B5:00:00:01"))
    (alias := (Some ""))
    (w := bench_world)
    (o := (fst bench_member_by_wwpn))
    (w' := (snd bench_member_by_wwpn)).
  - exact bench_world_wf.
  - reflexivity.
  - vm_compute; reflexivity.
Defined.

(** X9 on the bench: an inventory without the organization. *)
Lemma X9_witness :
  ((forall vhbas_list, fst (resolve_vhbas bench_no_organization bench_profiles bench_vnics "srv1" "default" bench_world) <> Ret vhbas_list))
  /\ (configure_intersight_mds_zones switch_ok bench_no_organization bench_profiles bench_vnics "srv1" "default" "zone-a" "100" "zone-b" "200" (Some "zs-a") (Some "zs-b") (PyBool true) (PyBool true) (PyBool true) bench_world
    = (Exit 1, snd (resolve_vhbas bench_no_organization bench_profiles bench_vnics "srv1" "default" bench_world))
    /\ sent (trace (snd (resolve_vhbas bench_no_organization bench_profiles bench_vnics "srv1" "default" bench_world))) = sent (trace bench_world)
    /\ mds_client_a (snd (resolve_vhbas bench_no_organization bench_profiles bench_vnics "srv1" "default" bench_world)) = mds_client_a bench_world
    /\ mds_client_b (snd (resolve_vhbas bench_no_organization bench_profiles bench_vnics "srv1" "default" bench_world)) = mds_client_b bench_world).
Proof.
  split; [intros vhbas_list; vm_compute; discriminate|].
  eapply lookup_failure_stops_before_any_request with
    (switch := switch_ok)
    (get_organization_organization_list := bench_no_organization)
    (get_server_profile_list := bench_profiles)
    (get_vnic_fc_if_list := bench_vnics)
    (spn := "srv1")
    (org := "default")
    (za := "zone-a")
    (va := "100")
    (zb := "zone-b")
    (vb := "200")
    (zsa := (Some "zs-a"))
    (zsb := (Some "zs-b"))
    (f1 := (PyBool true))
    (f2 := (PyBool true))
    (f3 := (PyBool true))
    (w := bench_world).
  - intros vhbas_list; vm_compute; discriminate.
Defined.

(** X10 on the bench: the two adapters. *)
Lemma X10_witness :
  (fetch_vhba_from_server_profile_moid bench_vnics "profile-moid-1" bench_world
    = (Ret (map vhba_dict [vhba0; vhba1]), (snd (fetch_vhba_from_server_profile_moid bench_vnics "profile-moid-1" bench_world))))
  /\ (exists vnics,
      bench_vnics ("Profile.Moid eq '" +:+ "profile-moid-1" +:+ "'")
      = ApiResults vnics
      /\ vnics <> []
      /\ length (map vhba_dict [vhba0; vhba1]) = length vnics
      /\ forall (i : nat) (v : VnicFcIf),
           vnics !! i = Some v ->
           exists d : gmap string string,
             (map vhba_dict [vhba0; vhba1]) !! i = Some d
             /\ d !! "vhba_wwpn" = Some (vnic_wwpn v)
             /\ d !! "vhba_name" = Some (vnic_name v)
             /\ d !! "vhba_fabric" = Some (vnic_placement_switch_id v)
             /\ dom d = ({["vhba_wwpn"; "vhba_name"; "vhba_fabric"]} : gset string)).
Proof.
  split; [vm_compute; reflexivity|].
  eapply fetch_vhba_dicts with
    (get_vnic_fc_if_list := bench_vnics)
    (server_profile_moid := "profile-moid-1")
    (w := bench_world)
    (vhba_list := (map vhba_dict [vhba0; vhba1]))
    (w' := (snd (fetch_vhba_from_server_profile_moid bench_vnics "profile-moid-1" bench_world))).
  - vm_compute; reflexivity.
Defined.

(** X11 on the bench: [None] for the alias flag. *)
Lemma X11_witness :
  (truthy PyNone = false)
  /\ (is_False PyNone = false)
  /\ (configure_intersight_mds_zones switch_ok bench_organizations bench_profiles bench_vnics "srv1" "default" "zone-a" "100" "zone-b" "200" (Some "zs-a") (Some "zs-b") PyNone (PyBool true) (PyBool true) bench_world = ((fst bench_run_no_flag), (snd bench_run_no_flag)))
  /\ ((fst bench_run_no_flag) = Exit 1
    /\ sent (trace (snd bench_run_no_flag)) = sent (trace bench_world)
    /\ (forall vhbas_list,
          fst (resolve_vhbas bench_organizations bench_profiles bench_vnics "srv1" "default" bench_world) = Ret vhbas_list ->
          errors (trace (snd bench_run_no_flag)) =
            errors (trace bench_world)
              ++ [("Unknown flag value '%s' for device alias configuration",
                   [json_of_pyval PyNone])])).
Proof.
  split; [reflexivity|].
  split; [reflexivity|].
  split; [vm_compute; reflexivity|].
  eapply unknown_alias_flag_stops_the_run with
    (switch := switch_ok)
    (get_organization_organization_list := bench_organizations)
    (get_server_profile_list := bench_profiles)
    (get_vnic_fc_if_list := bench_vnics)
    (spn := "srv1")
    (org := "default")
    (za := "zone-a")
    (va := "100")
    (zb := "zone-b")
    (vb := "200")
    (zsa := (Some "zs-a"))
    (zsb := (Some "zs-b"))
    (f1 := PyNone)
    (f2 := (PyBool true))
    (f3 := (PyBool true))
    (w := bench_world)
    (o := (fst bench_run_no_flag))
    (w' := (snd bench_run_no_flag)).
  - reflexivity.
  - reflexivity.
  - vm_compute; reflexivity.
Defined.

(** X12 on the bench: an adapter without WWPN between the two. *)
Lemma X12_witness :
  (resolve_vhbas bench_organizations bench_profiles bench_vnics_blank "srv1" "default" bench_world = (Ret (map vhba_dict ([vhba0] ++ vhba_blank :: [vhba1])), bench_blank_resolved))
  /\ (for_each (configure_vhba switch_ok "srv1" "zone-a" "100" "zone-b" "200" (PyBool false))
      (map vhba_dict [vhba0]) bench_blank_resolved = (Ret tt, bench_blank_reached))
  /\ (vnic_placement_switch_id vhba_blank = "A" \/ vnic_placement_switch_id vhba_blank = "B")
  /\ (vnic_wwpn vhba_blank = "")
  /\ (exists logs,
      configure_intersight_mds_zones switch_ok bench_organizations bench_profiles bench_vnics_blank "srv1" "default" "zone-a" "100" "zone-b" "200" (Some "zs-a") (Some "zs-b") (PyBool false) (PyBool true) (PyBool true) bench_world
      = (Exit 1, logged bench_blank_reached logs)
      /\ errors logs =
           [("Either member WWPN or device alias name must be provided.\n", [])]
      /\ sent logs = []).
Proof.
  split; [vm_compute; reflexivity|].
  split; [vm_compute; reflexivity|].
  split; [left; reflexivity|].
  split; [reflexivity|].
  eapply empty_wwpn_stops_the_run_without_aliases with
    (switch := switch_ok)
    (get_organization_organization_list := bench_organizations)
    (get_server_profile_list := bench_profiles)
    (get_vnic_fc_if_list := bench_vnics_blank)
    (spn := "srv1")
    (org := "default")
    (za := "zone-a")
    (va := "100")
    (zb := "zone-b")
    (vb := "200")
    (zsa := (Some "zs-a"))
    (zsb := (Some "zs-b"))
    (f2 := (PyBool true))
    (f3 := (PyBool true))
    (pre := [vhba0])
    (post := [vhba1])
    (v := vhba_blank)
    (w := bench_world)
    (w0 := bench_blank_resolved)
    (w1 := bench_blank_reached).
  - vm_compute; reflexivity.
  - vm_compute; reflexivity.
  - left; reflexivity.
  - reflexivity.
Defined.

(** X13 on the bench: the stray adapter between the two. *)
Lemma X13_witness :
  (add_device_aliases_from_server_profile_name_and_vhba switch_ok "srv1" (map vhba_dict [vhba0]) bench_world
    = (Ret tt, bench_aliases_reached))
  /\ ((vhba_dict vhba_stray) !! "vhba_fabric" = Some "None")
  /\ ((vhba_dict vhba_stray) !! "vhba_name" = Some "vHBA2")
  /\ ("None" <> "A")
  /\ ("None" <> "B")
  /\ (add_device_aliases_from_server_profile_name_and_vhba switch_ok "srv1"
      ((map vhba_dict [vhba0]) ++ (vhba_dict vhba_stray) :: (map vhba_dict [vhba1])) bench_world
    = match (vhba_dict vhba_stray) !! "fabric", (vhba_dict vhba_stray) !! "name" with
      | None, _ => (Raise (KeyError "fabric"), bench_aliases_reached)
      | Some _, None => (Raise (KeyError "name"), bench_aliases_reached)
      | Some fab, Some nm =>
          (Exit 1,
           logged bench_aliases_reached
             [ELog ERROR "Unknown fabric type '%s' for vHBA '%s'"
                [JStr fab; JStr nm]])
      end
    /\ (forall v : VnicFcIf,
          (vhba_dict vhba_stray) = vhba_dict v ->
          add_device_aliases_from_server_profile_name_and_vhba switch_ok "srv1"
            ((map vhba_dict [vhba0]) ++ (vhba_dict vhba_stray) :: (map vhba_dict [vhba1])) bench_world
          = (Raise (KeyError "fabric"), bench_aliases_reached))).
Proof.
  split; [vm_compute; reflexivity|].
  split; [reflexivity|].
  split; [reflexivity|].
  split; [vm_compute; discriminate|].
  split; [vm_compute; discriminate|].
  eapply add_device_aliases_stops_at_unknown_fabric with
    (switch := switch_ok)
    (spn := "srv1")
    (pre := (map vhba_dict [vhba0]))
    (post := (map vhba_dict [vhba1]))
    (bad := (vhba_dict vhba_stray))
    (tag := "None")
    (name := "vHBA2")
    (w := bench_world)
    (w1 := bench_aliases_reached).
  - vm_compute; reflexivity.
  - reflexivity.
  - reflexivity.
  - vm_compute; discriminate.
  - vm_compute; discriminate.
Defined.

(** X14 on the bench: switches that answer 500. *)
Lemma X14_witness :
  (wf bench_world)
  /\ (configure_intersight_mds_zones (switch_status 500) bench_organizations
      bench_profiles bench_vnics
      "srv1" "default" "zone-a" "100" "zone-b" "200" (Some "zs-a") (Some "zs-b") (PyBool true) (PyBool true) (PyBool true) bench_world = ((fst bench_run_500), (snd bench_run_500)))
  /\ ((exists evs, trace (snd bench_run_500) = trace bench_world ++ evs /\ all_200 (switch_status 500) (trace bench_world) evs = true)
    \/ (aborted (fst bench_run_500)
        /\ exists evs f rq logs,
             trace (snd bench_run_500) = trace bench_world ++ evs ++ EPost f rq :: logs
             /\ all_200 (switch_status 500) (trace bench_world) evs = true
             /\ is_200 ((switch_status 500) (trace bench_world ++ evs) f rq) = false
             /\ sent logs = [])).
Proof.
  split; [exact bench_world_wf|].
  split; [vm_compute; reflexivity|].
  eapply workflow_stops_at_first_failed_request with
    (switch := (switch_status 500))
    (get_organization_organization_list := bench_organizations)
    (get_server_profile_list := bench_profiles)
    (get_vnic_fc_if_list := bench_vnics)
    (spn := "srv1")
    (org := "default")
    (za := "zone-a")
    (va := "100")
    (zb := "zone-b")
    (vb := "200")
    (zsa := (Some "zs-a"))
    (zsb := (Some "zs-b"))
    (f1 := (PyBool true))
    (f2 := (PyBool true))
    (f3 := (PyBool true))
    (w := bench_world)
    (o := (fst bench_run_500))
    (w' := (snd bench_run_500)).
  - exact bench_world_wf.
  - vm_compute; reflexivity.
Defined.

(** X16 on the bench. *)
Lemma X16_witness :
  (wf bench_world)
  /\ ((forall spn org za va zb vb zsa zsb f1 f2 f3 o,
       configure_intersight_mds_zones switch_ok bench_organizations
         bench_profiles bench_vnics
         spn org za va zb vb zsa zsb f1 f2 f3 bench_world = (o, (snd bench_run)) ->
       wf (snd bench_run) /\ same_identities bench_world (snd bench_run))
    /\ (forall zsa va zsb vb o,
          activate_zonesets switch_ok zsa va zsb vb bench_world = (o, (snd bench_run)) ->
          wf (snd bench_run) /\ same_identities bench_world (snd bench_run))
    /\ (forall zsa za va zsb zb vb o,
          add_zones_to_zonesets switch_ok zsa za va zsb zb vb bench_world = (o, (snd bench_run)) ->
          wf (snd bench_run) /\ same_identities bench_world (snd bench_run))
    /\ (forall spn vhba_list o,
          add_device_aliases_from_server_profile_name_and_vhba switch_ok spn vhba_list bench_world
          = (o, (snd bench_run)) ->
          wf (snd bench_run) /\ same_identities bench_world (snd bench_run))).
Proof.
  split; [exact bench_world_wf|].
  eapply runs_keep_client_identity with
    (switch := switch_ok)
    (get_organization_organization_list := bench_organizations)
    (get_server_profile_list := bench_profiles)
    (get_vnic_fc_if_list := bench_vnics)
    (w := bench_world)
    (w' := (snd bench_run)).
  - exact bench_world_wf.
Defined.

(** X21 on the bench. *)
Lemma X21_witness :
  (wf bench_world)
  /\ ((forall zsa va zsb vb o w',
       activate_zonesets switch_ok zsa va zsb vb bench_world = (o, w') ->
       exists l,
         sent (trace w') = sent (trace bench_world) ++ l
         /\ upto (activate_requests zsa va zsb vb) o l)
    /\ (forall zsa za va zsb zb vb o w',
          add_zones_to_zonesets switch_ok zsa za va zsb zb vb bench_world = (o, w') ->
          exists l,
            sent (trace w') = sent (trace bench_world) ++ l
            /\ upto (add_zones_requests zsa za va zsb zb vb) o l)
    /\ (forall spn vnics o w',
          add_device_aliases_from_server_profile_name_and_vhba switch_ok spn
            (map vhba_dict vnics) bench_world = (o, w') ->
          exists l,
            sent (trace w') = sent (trace bench_world) ++ l
            /\ upto (flat_map (alias_requests spn) vnics) o l)).
Proof.
  split; [exact bench_world_wf|].
  eapply standalone_operations_send_in_order with
    (switch := switch_ok)
    (w := bench_world).
  - exact bench_world_wf.
Defined.

(** X15 on the bench: aliases off, and switches that report a command error
    on every request. *)
Lemma X15_witness :
  (forall tr f rq, accepts (switch_cli_error tr f rq) = true)
  /\ wf bench_world
  /\ bench_organizations ("Name eq '" +:+ "default" +:+ "'")
     = ApiResults ["org-moid-1"]
  /\ bench_profiles
       ("Name eq '" +:+ "srv1" +:+ "' and Organization.Moid eq '"
          +:+ "org-moid-1" +:+ "'")
     = ApiResults ["profile-moid-1"]
  /\ bench_vnics ("Profile.Moid eq '" +:+ "profile-moid-1" +:+ "'")
     = ApiResults [vhba0; vhba1]
  /\ Forall (fun v => vnic_placement_switch_id v = "A"
                      \/ vnic_placement_switch_id v = "B") [vhba0; vhba1]
  /\ (false = false ->
      Forall (fun v => nonempty (vnic_wwpn v) = true) [vhba0; vhba1])
  /\ exists w',
       configure_intersight_mds_zones switch_cli_error bench_organizations
         bench_profiles bench_vnics
         "srv1" "default" "zone-a" "100" "zone-b" "200"
         (Some "zs-a") (Some "zs-b") (PyBool false) (PyBool true) (PyBool true)
         bench_world = (Ret tt, w')
       /\ sent (trace w') =
            sent (trace bench_world)
              ++ workflow_requests "srv1" "zone-a" "100" "zone-b" "200"
                   (Some "zs-a") (Some "zs-b") (PyBool false)
                   (PyBool true) (PyBool true) [vhba0; vhba1].
Proof.
  assert (Hfabric : Forall (fun v => vnic_placement_switch_id v = "A"
                                     \/ vnic_placement_switch_id v = "B")
                      [vhba0; vhba1]).
  { constructor; [left; reflexivity|].
    constructor; [right; reflexivity|]. constructor. }
  assert (Hwwpn : Forall (fun v => nonempty (vnic_wwpn v) = true) [vhba0; vhba1]).
  { constructor; [reflexivity|].
    constructor; [reflexivity|]. constructor. }
  split; [intros tr f rq; reflexivity|].
  split; [exact bench_world_wf|].
  split; [reflexivity|].
  split; [reflexivity|].
  split; [reflexivity|].
  split; [exact Hfabric|].
  split; [intros _; exact Hwwpn|].
  apply (workflow_completes_when_switches_answer_200 switch_cli_error
           bench_organizations bench_profiles bench_vnics
           (fun tr f rq => eq_refl)
           "srv1" "default" "zone-a" "100" "zone-b" "200" "zs-a" "zs-b" false
           (PyBool true) (PyBool true) "org-moid-1" "profile-moid-1" [] []
           vhba0 [vhba1] bench_world).
  - exact bench_world_wf.
  - reflexivity.
  - reflexivity.
  - reflexivity.
  - exact Hfabric.
  - intros _; exact Hwwpn.
Defined.
